(** * vane: device command dispatch and result recording

    A shallow embedding of [bin/tests_tools.py] (the helpers shared by the
    network test cases) and of the memory test of
    [bin/tests/memory/test_memory.py], with the properties of the
    command dispatcher, the fan-out, the parameter lookup and the result
    recorder that the design document lists.

    Python lists are Rocq lists addressed by position, dictionaries are
    [gmap string _], exceptions are an explicit outcome, and the device
    connection (the vendor client) is a state machine taken as a section
    variable. *)

From Stdlib Require Import ZArith String Ascii List PrimFloat SpecFloat FloatOps.
From stdpp Require Import base option list gmap strings fin_maps pretty.

Local Open Scope string_scope.
Local Open Scope list_scope.

(** ** Python values, exceptions and outcomes *)

Module Py.

Set Warnings "-register-all".

(** What YAML files and the device API hand to the program. *)
Inductive value : Type :=
  | VNone
  | VBool (b : bool)
  | VInt (z : Z)
  | VFloat (f : float)
  | VStr (s : string)
  | VList (l : list value)
  | VDict (d : gmap string value).

(** The exceptions the modelled functions can meet.  [ConnError msg] is an
    error raised by the device connection; [msg] is what [str(e)] gives. *)
Inductive exn : Type :=
  | IndexError
  | KeyError (key : string)
  | TypeError
  | ValueError
  | UnboundLocalError (var : string)
  | AttributeError (attr : string)
  | AssertionError
  | ZeroDivisionError
  | OverflowError
  | RecursionError
  | OSError
  | SystemExit (code : Z)
  | ConnError (msg : string).

(** A call returns or raises.  The one recursion of the program,
    [send_cmds], is cut off by the interpreter's recursion limit, so
    every call ends. *)
Inductive outcome (A : Type) : Type :=
  | Returns (a : A)
  | Raises (e : exn).

Arguments Returns {A} a.
Arguments Raises {A} e.

Definition bind {A B : Type} (m : outcome A) (k : A -> outcome B) : outcome B :=
  match m with
  | Returns a => k a
  | Raises e => Raises e
  end.

Definition returns {A : Type} (m : outcome A) : Prop :=
  exists a, m = Returns a.

(** [needle in hay] on strings: substring test. *)
Fixpoint str_in (needle hay : string) : bool :=
  if String.prefix needle hay then true
  else match hay with
       | EmptyString => false
       | String _ rest => str_in needle rest
       end.

(** [l.index(x)]: position of the first element equal to [x]. *)
Fixpoint list_index (x : string) (l : list string) : option nat :=
  match l with
  | [] => None
  | y :: rest => if String.eqb y x then Some 0
                 else S <$> list_index x rest
  end.

(** [x in l] on a list of strings. *)
Definition list_in (x : string) (l : list string) : bool :=
  bool_decide (x ∈ l).

(** [s.split(sep)] for a one-character separator, and [s.split(sep)[-1]]. *)
Fixpoint split_on (sep : ascii) (s : string) : list string :=
  match s with
  | EmptyString => [EmptyString]
  | String c rest =>
      if Ascii.eqb c sep then EmptyString :: split_on sep rest
      else match split_on sep rest with
           | [] => [String c EmptyString]
           | w :: ws => String c w :: ws
           end
  end.

Definition last_component (s : string) : string :=
  List.last (split_on "/"%char s) EmptyString.

(** Truth value of a Python object, as [not x] and [if x] use it. *)
Definition truthy (v : value) : bool :=
  match v with
  | VNone => false
  | VBool b => b
  | VInt z => negb (Z.eqb z 0)
  | VFloat f => negb (PrimFloat.eqb f 0%float)
  | VStr s => negb (String.eqb s "")
  | VList l => match l with [] => false | _ => true end
  | VDict d => negb (bool_decide (d = ∅))
  end.

(** [v == s] for a string [s]: only a string value can be equal to it. *)
Definition eq_str (v : value) (s : string) : bool :=
  match v with
  | VStr s' => String.eqb s' s
  | _ => false
  end.

(** [v[key]] on a value expected to be a dictionary. *)
Definition getitem (v : value) (key : string) : outcome value :=
  match v with
  | VDict d => match d !! key with
               | Some x => Returns x
               | None => Raises (KeyError key)
               end
  | _ => Raises TypeError
  end.

End Py.

Import Py.

Notation "x <- m ;; k" := (bind m (fun x => k))
  (at level 100, m at next level, right associativity).

(** ** Command dispatcher: [remove_cmd] and [send_cmds] *)

Module Dispatcher.

(** The two encodings the connection is asked for: [run_commands(cmds)] and
    [run_commands(cmds, encoding="text")]. *)
Inductive encoding : Type := Json | Text.

(** The [for show_cmd in show_cmds] loop of [remove_cmd].  The list is
    changed by [pop] while it is iterated, so the loop is written as
    Python's list iterator runs it: the iterator is a position [i] in the
    current list; each round reads [show_cmds[i]], advances to [i + 1] and
    runs the body; it stops when [i] is past the end.  [fuel] bounds the
    number of rounds. *)
Fixpoint remove_cmd_loop (fuel : nat) (e : string) (i : nat)
    (show_cmds : list string) : list string :=
  match fuel with
  | O => show_cmds
  | S fuel' =>
      match show_cmds !! i with
      | None => show_cmds
      | Some show_cmd =>
          if str_in show_cmd e then
            match list_index show_cmd show_cmds with
            | Some cmd_index =>
                remove_cmd_loop fuel' e (S i) (delete cmd_index show_cmds)
            | None => show_cmds
            end
          else remove_cmd_loop fuel' e (S i) show_cmds
      end
  end.

(** [remove_cmd(e, show_cmds)], with [e] standing for [str(e)].  A list
    of length [n] is iterated at most [n] times. *)
Definition remove_cmd (e : string) (show_cmds : list string) : list string :=
  remove_cmd_loop (length show_cmds) e 0 show_cmds.

(** What the design document asks of the narrowing step: the commands
    not named in the error, in order. *)
Definition without_named (e : string) (show_cmds : list string) : list string :=
  List.filter (fun c => negb (str_in c e)) show_cmds.

Section Connection.

(** The device connection: a state [St] and the client's
    [run_commands], which answers a command list with one result per
    command or raises an error with a message. *)
Context {St : Type}.
Variable run_commands : St -> list string -> encoding -> St * (list value + string).

(** The [try] body of [send_cmds]: which client call the [encoding]
    string selects; neither branch is taken for another string. *)
Definition encoding_of (enc : string) : option encoding :=
  if String.eqb enc "json" then Some Json
  else if String.eqb enc "text" then Some Text
  else None.

(** [send_cmds(show_cmds, conn, encoding)].  The function calls itself
    from its exception handler, so every retry is one more nested call.
    [fuel] is the number of nested calls the interpreter has room for
    below its recursion limit; the call that finds no room raises
    [RecursionError], and the calls above it, which are in their handlers
    by then, let it pass.  [remove_cmd] narrows the caller's list object
    in place and the recursive call receives that same object, so the
    list returned next to the results is the list as the innermost call
    left it. *)
Fixpoint send_cmds (fuel : nat) (show_cmds : list string) (conn : St)
    (enc : string) : outcome (St * (list value * list string)) :=
  match fuel with
  | O => Raises RecursionError
  | S fuel' =>
      match encoding_of enc with
      | None => Raises (UnboundLocalError "show_cmd_list")
      | Some en =>
          match run_commands conn show_cmds en with
          | (conn', inl show_cmd_list) =>
              Returns (conn', (show_cmd_list, show_cmds))
          | (conn', inr e) =>
              let show_cmds' := remove_cmd e show_cmds in
              r <- send_cmds fuel' show_cmds' conn' enc ;;
              Returns (fst r, (fst (snd r), snd (snd r)))
          end
      end
  end.

(** The connection as [send_cmds] leaves it, however the call ends:
    every request that was made has been made on it. *)
Fixpoint send_cmds_conn (fuel : nat) (show_cmds : list string) (conn : St)
    (enc : string) : St :=
  match fuel with
  | O => conn
  | S fuel' =>
      match encoding_of enc with
      | None => conn
      | Some en =>
          match run_commands conn show_cmds en with
          | (conn', inl _) => conn'
          | (conn', inr e) =>
              send_cmds_conn fuel' (remove_cmd e show_cmds) conn' enc
          end
      end
  end.

(** Two things a connection may or may not guarantee.  Every error
    message names a command of the batch that was sent: *)
Definition names_pending : Prop :=
  forall st l en st' e,
    run_commands st l en = (st', inr e) ->
    exists c, c ∈ l /\ str_in c e = true.

(** An accepted batch is answered command by command, in order: *)
Definition answers_aligned (output_of : encoding -> string -> value -> Prop) : Prop :=
  forall st l en st' res,
    run_commands st l en = (st', inl res) ->
    Forall2 (output_of en) l res.

End Connection.

End Dispatcher.

(** ** The Definitions structure (the loaded YAML) *)

Module Defs.

(** The records stand for a definitions file that has its sections and
    their fields: [parameters], [duts] with [name], [mgmt_ip],
    [username] and [neighbors], and [test_suites] with [name] and
    [testcases].  Where a file lacks one of them the program raises
    [KeyError] on reading it; such files are outside these types.  The
    test cases and [parameters] stay open-ended mappings, so a missing
    [show_cmd], [name] or [eapi_file] is within them. *)

(** One entry of a device's [neighbors] list. *)
Record neighbor : Type := {
  neighborDevice : string;
  neighborPort : string;
  port : string
}.

(** One entry of [duts]. *)
Record dut_descr : Type := {
  d_name : string;
  d_mgmt_ip : string;
  d_username : string;
  d_neighbors : list neighbor
}.

(** One entry of [test_suites]: a name and the test cases, each an
    open-ended mapping ([name], [show_cmd], [expected_output], ...). *)
Record suite : Type := {
  s_name : string;
  s_testcases : list (gmap string value)
}.

Record definitions : Type := {
  parameters : gmap string value;
  duts : list dut_descr;
  test_suites : list suite
}.

End Defs.

Import Defs.

(** ** Device registry and parallel fan-out: [login_duts], [dut_worker],
    [init_duts] *)

Module FanOut.

Import Dispatcher.

Section Devices.

Context {St : Type}.
Variable run_commands : St -> list string -> encoding -> St * (list value + string).
(** [pyeapi.connect_to(name)], taken to return a connection for every
    device name. *)
Variable connect_to : string -> St.

(** A device record.  [output] is absent until the worker creates it. *)
Record dut : Type := {
  connection : St;
  name : string;
  mgmt_ip : string;
  username : string;
  output : option (gmap string value)
}.

Definition set_connection (d : dut) (c : St) : dut :=
  {| connection := c; name := name d; mgmt_ip := mgmt_ip d;
     username := username d; output := output d |}.

Definition set_output (d : dut) (o : gmap string value) : dut :=
  {| connection := connection d; name := name d; mgmt_ip := mgmt_ip d;
     username := username d; output := Some o |}.

(** [login_duts(test_parameters)]: the client's configuration is loaded
    from [parameters["eapi_file"]], then one record per configured device
    is made, in the configured order. *)
Definition login_duts (test_parameters : definitions) : outcome (list dut) :=
  _ <- getitem (VDict (parameters test_parameters)) "eapi_file" ;;
  Returns (List.map (fun d => {| connection := connect_to (d_name d);
                                 name := d_name d;
                                 mgmt_ip := d_mgmt_ip d;
                                 username := d_username d;
                                 output := None |})
                    (duts test_parameters)).

(** The dictionary [return_interfaces] builds for one neighbor. *)
Definition interface_of (dut_name : string) (n : neighbor) : value :=
  VDict (<["hostname" := VStr dut_name]>
         (<["interface_name" := VStr (port n)]>
         (<["z_hostname" := VStr (neighborDevice n)]>
         (<["z_interface_name" := VStr (neighborPort n)]>
         (<["media_type" := VStr ""]> ∅))))).

(** [return_interfaces(hostname, test_parameters)]. *)
Definition return_interfaces (hostname : string)
    (test_parameters : definitions) : list value :=
  List.flat_map
    (fun d => if String.eqb (d_name d) hostname
              then List.map (interface_of (d_name d)) (d_neighbors d)
              else [])
    (duts test_parameters).

(** The value stored under ["json"] for [show_cmd]: the result at the
    command's position in the reduced list, or the empty string. *)
Definition json_entry (show_cmd_json_list : list value)
    (show_cmds_json : list string) (show_cmd : string) : outcome value :=
  if list_in show_cmd show_cmds_json then
    match list_index show_cmd show_cmds_json with
    | Some cmd_index =>
        match show_cmd_json_list !! cmd_index with
        | Some show_output => Returns show_output
        | None => Raises IndexError
        end
    | None => Raises ValueError
    end
  else Returns (VStr "").

(** The value stored under ["text"]: the ["output"] field of the result
    at the command's position, or the empty string. *)
Definition text_entry (show_cmd_txt_list : list value)
    (show_cmds_txt : list string) (show_cmd : string) : outcome value :=
  if list_in show_cmd show_cmds_txt then
    match list_index show_cmd show_cmds_txt with
    | Some cmd_index =>
        match show_cmd_txt_list !! cmd_index with
        | Some show_output_txt => getitem show_output_txt "output"
        | None => Raises IndexError
        end
    | None => Raises ValueError
    end
  else Returns (VStr "").

(** The [for show_cmd in show_cmds] loop of [dut_worker] over the output
    table.  An exception leaves the table as far as it was filled. *)
Fixpoint worker_loop (jl : list value) (jc : list string)
    (tl : list value) (tc : list string)
    (show_cmds : list string) (tbl : gmap string value)
    : gmap string value * outcome unit :=
  match show_cmds with
  | [] => (tbl, Returns tt)
  | show_cmd :: rest =>
      let tbl0 := <[show_cmd := VDict ∅]> tbl in
      match json_entry jl jc show_cmd with
      | Returns vj =>
          let tbl1 := <[show_cmd := VDict {["json" := vj]}]> tbl0 in
          match text_entry tl tc show_cmd with
          | Returns vt =>
              worker_loop jl jc tl tc rest
                (<[show_cmd := VDict (<["text" := vt]> {["json" := vj]})]> tbl1)
          | Raises e => (tbl1, Raises e)
          end
      | Raises e => (tbl0, Raises e)
      end
  end.

(** [dut_worker(dut, show_cmds, test_parameters)]: the record as the
    worker leaves it, and how the worker ended.  Both dispatches work on
    copies of [show_cmds].  When a dispatch raises, the table holds what
    was written before it, and the connection has seen the requests that
    were made. *)
Definition dut_worker (fuel : nat) (d : dut) (show_cmds : list string)
    (test_parameters : definitions) : dut * outcome unit :=
  let tbl := <["interface_list" :=
                 VList (return_interfaces (name d) test_parameters)]> ∅ in
  let d0 := set_output d tbl in
  match send_cmds run_commands fuel show_cmds (connection d) "json" with
  | Returns (c1, (show_cmd_json_list, show_cmds_json)) =>
      match send_cmds run_commands fuel show_cmds c1 "text" with
      | Returns (c2, (show_cmd_txt_list, show_cmds_txt)) =>
          let '(tbl', r) :=
            worker_loop show_cmd_json_list show_cmds_json
                        show_cmd_txt_list show_cmds_txt show_cmds tbl in
          (set_output (set_connection d c2) tbl', r)
      | Raises e =>
          (set_connection d0 (send_cmds_conn run_commands fuel show_cmds c1 "text"),
           Raises e)
      end
  | Raises e =>
      (set_connection d0
         (send_cmds_conn run_commands fuel show_cmds (connection d) "json"),
       Raises e)
  end.

(** The workers of [init_duts] share nothing that is written: each one
    changes its own record through its own connection, and reads the
    command list and the definitions.  Their joint effect is therefore
    the effect of running them one after the other.  An exception in a
    worker stays in its future, which nobody reads: the record is left
    as the worker had it when it raised, and the executor shuts down
    when every worker has ended. *)
Fixpoint run_workers (fuel : nat) (ds : list dut) (show_cmds : list string)
    (test_parameters : definitions) : outcome (list dut) :=
  match ds with
  | [] => Returns []
  | d :: rest =>
      let '(d', _) := dut_worker fuel d show_cmds test_parameters in
      ds' <- run_workers fuel rest show_cmds test_parameters ;;
      Returns (d' :: ds')
  end.

(** [init_duts(show_cmds, test_parameters)].  A thread pool of zero
    workers is refused by [ThreadPoolExecutor] with [ValueError]. *)
Definition init_duts (fuel : nat) (show_cmds : list string)
    (test_parameters : definitions) : outcome (list dut) :=
  ds <- login_duts test_parameters ;;
  let workers := length ds in
  if Nat.eqb workers 0 then Raises ValueError
  else run_workers fuel ds show_cmds test_parameters.

End Devices.

(** What the fan-out needs of an answer besides its position: a text
    answer is a dictionary with an ["output"] field. *)
Definition answer_shape (en : encoding) (cmd : string) (r : value) : Prop :=
  match en with
  | Json => True
  | Text => exists d o, r = VDict d /\ d !! "output" = Some o
  end.

(** What the design asks of the values stored for a command, given
    the results and the reduced list of a dispatch: the empty string
    when the command is not in the reduced list, else the result at the
    command's position in it (for the text encoding, the [output] field
    of that result). *)
Definition stored_json (jl : list value) (jc : list string) (c : string)
    (v : value) : Prop :=
  ((c ∉ jc) /\ v = VStr "")
  \/ (exists k, list_index c jc = Some k /\ jl !! k = Some v).

Definition stored_text (tl : list value) (tc : list string) (c : string)
    (v : value) : Prop :=
  ((c ∉ tc) /\ v = VStr "")
  \/ (exists k r, list_index c tc = Some k /\ tl !! k = Some r
                  /\ getitem r "output" = Returns v).

(** The keys of a command's entry in an output table. *)
Definition entry_keys : gset string := {[ "json"; "text" ]}.

Arguments connection {St} d.
Arguments name {St} d.
Arguments mgmt_ip {St} d.
Arguments username {St} d.
Arguments output {St} d.

End FanOut.

(** ** Stateful code: a state and outcome monad *)

Module Eff.

(** A computation over a state [S]: the state it leaves and how it ended.
    The state is kept when an exception is raised, since what was written
    before the exception stays written. *)
Definition M (S A : Type) : Type := S -> S * outcome A.

Definition ret {S A : Type} (a : A) : M S A := fun s => (s, Returns a).

Definition raise {S A : Type} (e : exn) : M S A := fun s => (s, Raises e).

Definition mbind {S A B : Type} (m : M S A) (k : A -> M S B) : M S B :=
  fun s => match m s with
           | (s', Returns a) => k a s'
           | (s', Raises e) => (s', Raises e)
           end.

Definition get {S : Type} : M S S := fun s => (s, Returns s).

Definition modify {S : Type} (f : S -> S) : M S unit := fun s => (f s, Returns tt).

Definition lift {S A : Type} (o : outcome A) : M S A := fun s => (s, o).

(** [SystemExit] derives from [BaseException] only; every other modelled
    exception is an [Exception]. *)
Definition is_Exception (e : exn) : bool :=
  match e with
  | SystemExit _ => false
  | _ => true
  end.

(** [try: body except Exception as e: handler(e)]. *)
Definition try_except {S A : Type} (body : M S A) (handler : exn -> M S A) : M S A :=
  fun s => match body s with
           | (s', Raises e) =>
               if is_Exception e then handler e s' else (s', Raises e)
           | r => r
           end.

(** [try: body except BaseException as e: handler(e)]. *)
Definition try_except_base {S A : Type} (body : M S A) (handler : exn -> M S A) : M S A :=
  fun s => match body s with
           | (s', Raises e) => handler e s'
           | r => r
           end.

End Eff.

Import Eff.

Notation "x <<- m ;; k" := (mbind m (fun x => k))
  (at level 100, m at next level, right associativity).
Notation "m ;;; k" := (mbind m (fun _ => k))
  (at level 100, right associativity).

(** ** Files *)

Module FS.

(** The files the program can see: their contents by path, and the paths
    that [open] refuses with [OSError]. *)
Record filesystem : Type := {
  files : gmap string string;
  denied : gset string
}.

Definition set_files (fs : filesystem) (m : gmap string string) : filesystem :=
  {| files := m; denied := denied fs |}.

(** [with open(path, "w") as f: f.write(text)]: the file holds [text] and
    nothing else afterwards. *)
Definition write_file (path text : string) (fs : filesystem) : option filesystem :=
  if bool_decide (path ∈ denied fs) then None
  else Some (set_files fs (<[path := text]> (files fs))).

(** [with open(path, "a") as f: f.write(text)]. *)
Definition append_file (path text : string) (fs : filesystem) : option filesystem :=
  if bool_decide (path ∈ denied fs) then None
  else Some (set_files fs (<[path := (default "" (files fs !! path) ++ text)%string]> (files fs))).

End FS.

Import FS.

(** ** Single command path: [return_show_cmd] and [export_logs] *)

Module ShowCmd.

Import Dispatcher.

(** What the function does to the outside, in order. *)
Inductive event : Type :=
  | EvEnable (cmd : string)
  | EvRunCommands (cmds : list string) (enc : encoding)
  | EvSleep (seconds : Z)
  | EvAppend (path : string).

(** How many [run_commands] calls, and how long a wait, a trace holds. *)
Definition run_count (t : list event) : nat :=
  length (List.filter (fun ev => match ev with EvRunCommands _ _ => true | _ => false end) t).

Definition slept (t : list event) : Z :=
  List.fold_right (fun ev acc => match ev with EvSleep n => (n + acc)%Z | _ => acc end) 0%Z t.

Section Connection.

Context {St : Type}.
Variable run_commands : St -> list string -> encoding -> St * (list value + string).
(** [conn.enable(cmd)]. *)
Variable enable : St -> string -> St * (value + string).
(** [str(x)], as an f-string formats a value. *)
Variable py_str : value -> string.

Record env : Type := {
  e_conn : St;
  e_fs : filesystem;
  e_trace : list event
}.

Definition emit (ev : event) : M env unit :=
  modify (fun s => {| e_conn := e_conn s; e_fs := e_fs s;
                      e_trace := e_trace s ++ [ev] |}).

Definition call_enable (cmd : string) : M env value :=
  fun s => let '(c, r) := enable (e_conn s) cmd in
           ({| e_conn := c; e_fs := e_fs s;
               e_trace := e_trace s ++ [EvEnable cmd] |},
            match r with inl v => Returns v | inr msg => Raises (ConnError msg) end).

Definition call_run_commands (cmds : list string) (enc : encoding)
    : M env (list value) :=
  fun s => let '(c, r) := run_commands (e_conn s) cmds enc in
           ({| e_conn := c; e_fs := e_fs s;
               e_trace := e_trace s ++ [EvRunCommands cmds enc] |},
            match r with inl v => Returns v | inr msg => Raises (ConnError msg) end).

Definition sleep (seconds : Z) : M env unit := emit (EvSleep seconds).

Definition nl : string := String "010"%char EmptyString.

(** [export_logs(test_name, hostname, output, test_parameters)]. *)
Definition export_logs (test_name hostname : string) (output : value)
    (test_parameters : definitions) : M env unit :=
  show_log <<- lift (getitem (VDict (parameters test_parameters)) "show_log") ;;
  try_except_base
    (match show_log with
     | VStr path =>
         fun s =>
           match append_file path
                   (nl ++ "test_suite::" ++ test_name ++ "[" ++ hostname
                       ++ "]:" ++ nl ++ py_str output)%string (e_fs s) with
           | Some fs' =>
               ({| e_conn := e_conn s; e_fs := fs';
                   e_trace := e_trace s ++ [EvAppend path] |}, Returns tt)
           | None => (s, Raises OSError)
           end
     | _ => raise TypeError
     end)
    (fun _ => raise (SystemExit 1)).

(** [show_output_text[0]["output"]]. *)
Definition first_output (show_output_text : list value) : outcome value :=
  match show_output_text !! 0%nat with
  | Some r => getitem r "output"
  | None => Raises IndexError
  end.

(** [return_show_cmd(show_cmd, dut, test_name, test_parameters)], on the
    record's connection and name. *)
Definition return_show_cmd (show_cmd : string) (dut_name : string)
    (test_name : string) (test_parameters : definitions)
    : M env (value * list value) :=
  show_output <<- call_enable show_cmd ;;
  r <<- try_except
          (show_output_text <<- call_run_commands [show_cmd] Text ;;
           raw_text <<- lift (first_output show_output_text) ;;
           ret (show_output_text, raw_text))
          (fun e =>
             sleep 1 ;;;
             show_output_text <<- call_run_commands [show_cmd] Text ;;
             raw_text <<- lift (first_output show_output_text) ;;
             ret (show_output_text, raw_text)) ;;
  export_logs test_name dut_name (snd r) test_parameters ;;;
  ret (show_output, fst r).

End Connection.

Arguments e_conn {St} e.
Arguments e_fs {St} e.
Arguments e_trace {St} e.

End ShowCmd.

(** ** Test case parameters and the result recorder: [get_parameters],
    [TestOps] *)

Module Recorder.

(** A test case's mapping lives inside the Definitions structure, and
    [get_parameters] hands out that very dictionary, not a copy.  A
    reference to it is the position of its suite and its position in the
    suite. *)
Record case_ref : Type := {
  suite_ix : nat;
  case_ix : nat
}.

(** The dictionary a reference points to. *)
Definition deref (defs : definitions) (r : case_ref) : option (gmap string value) :=
  s ← test_suites defs !! suite_ix r;
  s_testcases s !! case_ix r.

(** [ref[key] = v], written through to the Definitions structure. *)
Definition setitem (r : case_ref) (key : string) (v : value)
    (defs : definitions) : definitions :=
  {| parameters := parameters defs;
     duts := duts defs;
     test_suites :=
       alter (fun s => {| s_name := s_name s;
                          s_testcases := alter (insert key v) (case_ix r)
                                               (s_testcases s) |})
             (suite_ix r) (test_suites defs) |}.

(** The Definitions structures [d] and [d'] differ at most in the mapping
    that [r] points to, and there at most in the keys [keys]. *)
Definition same_except (r : case_ref) (keys : gset string)
    (d d' : definitions) : Prop :=
  parameters d' = parameters d
  /\ duts d' = duts d
  /\ s_name <$> test_suites d' = s_name <$> test_suites d
  /\ (forall r', r' <> r -> deref d' r' = deref d r')
  /\ (is_Some (deref d' r) <-> is_Some (deref d r))
  /\ (forall m m' k, deref d r = Some m -> deref d' r = Some m' ->
                     k ∉ keys -> m' !! k = m !! k).

(** The keys [get_parameters] and [post_testcase] assign. *)
Definition lookup_keys : gset string := {[ "test_suite" ]}.

Definition post_keys : gset string :=
  {[ "comment"; "test_result"; "output_msg"; "expected_output";
     "actual_output"; "dut"; "fail_reason" ]}.

(** The keys the design document names as the only ones test cases
    append: comment, result and fail_reason. *)
Definition documented_keys : gset string :=
  {[ "comment"; "result"; "test_result"; "fail_reason" ]}.

(** Position of the first suite whose name is [test_suite]: the suite
    that [suite_parameters[0]] is. *)
Fixpoint first_suite (test_suite : string) (suites : list suite)
    : option (nat * suite) :=
  match suites with
  | [] => None
  | s :: rest => if String.eqb (s_name s) test_suite then Some (0%nat, s)
                 else prod_map S id <$> first_suite test_suite rest
  end.

(** Position of the first case with [param["name"] == test_case]: the
    case that [case_parameters[0]] is.  The comprehension reads ["name"]
    of every case of the suite before [[0]] is taken, so a case without
    that key raises [KeyError] wherever it stands. *)
Fixpoint first_case (test_case : string) (cases : list (gmap string value))
    : outcome (option nat) :=
  match cases with
  | [] => Returns None
  | param :: rest =>
      match param !! "name" with
      | None => Raises (KeyError "name")
      | Some n =>
          r <- first_case test_case rest ;;
          Returns (if eq_str n test_case then Some 0%nat else S <$> r)
      end
  end.

(** [get_parameters(tests_parameters, test_suite, test_case)], and
    [TestOps._get_parameters], which has the same body.  [caller] is the
    name of the calling function, which [inspect.stack()] supplies when no
    test case is named. *)
Definition get_parameters (caller : string) (test_suite : string)
    (test_case : string) : M definitions case_ref :=
  let test_case := if String.eqb test_case "" then caller else test_case in
  let test_suite := last_component test_suite in
  tests_parameters <<- get ;;
  match first_suite test_suite (test_suites tests_parameters) with
  | None => raise IndexError
  | Some (si, suite0) =>
      ci <<- lift (first_case test_case (s_testcases suite0)) ;;
      match ci with
      | None => raise IndexError
      | Some ci =>
          let r := {| suite_ix := si; case_ix := ci |} in
          modify (setitem r "test_suite" (VStr test_suite)) ;;;
          ret r
      end
  end.

(** What result recording works on: the Definitions structure and the
    files. *)
Record world : Type := {
  w_defs : definitions;
  w_fs : filesystem
}.

Definition on_defs {A : Type} (m : M definitions A) : M world A :=
  fun w => let '(d, r) := m (w_defs w) in
           ({| w_defs := d; w_fs := w_fs w |}, r).

(** Whatever way the computation ends, the Definitions structure it
    leaves is related by [R] to the one it found. *)
Definition preserves {A : Type} (R : definitions -> definitions -> Prop)
    (m : M world A) : Prop :=
  forall w w' o, m w = (w', o) -> R (w_defs w) (w_defs w').

Section Recorder.

Context {St : Type}.
(** [yaml.dump] of a mapping. *)
Variable yaml_dump : gmap string value -> string.
(** [str(x)], as an f-string formats a value. *)
Variable py_str : value -> string.

(** A [TestOps] object.  [test_result] and [actual_output] are not set
    by [__init__]; the test case assigns them. *)
Record testops : Type := {
  test_case : string;
  test_parameters : case_ref;
  expected_output : value;
  interface_list : value;
  dut_name : string;
  show_cmd : value;
  dut : FanOut.dut (St := St);
  show_cmd_txt : value;
  comment : string;
  output_msg : string;
  test_result : option value;
  actual_output : option value
}.

(** [self.test_parameters[key]]. *)
Definition param_get (r : case_ref) (key : string) : M world value :=
  w <<- get ;;
  match deref (w_defs w) r with
  | Some m => lift (getitem (VDict m) key)
  | None => raise IndexError
  end.

(** [self.test_parameters[key] = v]. *)
Definition param_set (r : case_ref) (key : string) (v : value) : M world unit :=
  on_defs (modify (setitem r key v)).

(** Reading an attribute that may not have been assigned. *)
Definition attr {A : Type} (name : string) (a : option A) : M world A :=
  match a with
  | Some x => ret x
  | None => raise (AttributeError name)
  end.

(** [_verify_show_cmd]: the command must be a key of the output table. *)
Definition verify_show_cmd (show_cmd : string) (d : FanOut.dut (St := St))
    : outcome unit :=
  match FanOut.output d with
  | None => Raises (KeyError "output")
  | Some tbl => if bool_decide (is_Some (tbl !! show_cmd)) then Returns tt
                else Raises AssertionError
  end.

(** [dut["output"][key]]. *)
Definition output_get (d : FanOut.dut (St := St)) (key : string) : outcome value :=
  match FanOut.output d with
  | None => Raises (KeyError "output")
  | Some tbl => getitem (VDict tbl) key
  end.

(** [export_yaml(yaml_file, yaml_data)]: the file is opened for
    writing, so what it held before is gone; a file that cannot be
    opened ends the process. *)
Definition export_yaml (yaml_file : string) (yaml_data : gmap string value)
    : M world unit :=
  fun w => match write_file yaml_file (yaml_dump yaml_data) (w_fs w) with
           | Some fs' => ({| w_defs := w_defs w; w_fs := fs' |}, Returns tt)
           | None => (w, Raises (SystemExit 1))
           end.

(** The name of the result file. *)
Definition result_path (test_case dut_name : string) : string :=
  ("../reports/results/result-" ++ test_case ++ "-" ++ dut_name ++ ".yml")%string.

(** [TestOps._write_results]. *)
Definition write_results (self : testops) : M world unit :=
  test_suite <<- param_get (test_parameters self) "test_suite" ;;
  match test_suite with
  | VStr _ =>
      dut_name <<- param_get (test_parameters self) "dut" ;;
      test_case <<- param_get (test_parameters self) "name" ;;
      let yaml_file := result_path (py_str test_case) (py_str dut_name) in
      w <<- get ;;
      match deref (w_defs w) (test_parameters self) with
      | Some yaml_data => export_yaml yaml_file yaml_data
      | None => raise IndexError
      end
  | _ => raise (AttributeError "split")
  end.

(** [TestOps.post_testcase]. *)
Definition post_testcase (self : testops) : M world unit :=
  let tp := test_parameters self in
  param_set tp "comment" (VStr (comment self)) ;;;
  tr <<- attr "test_result" (test_result self) ;;
  param_set tp "test_result" tr ;;;
  param_set tp "output_msg" (VStr (output_msg self)) ;;;
  param_set tp "expected_output" (expected_output self) ;;;
  ao <<- attr "actual_output" (actual_output self) ;;
  param_set tp "actual_output" ao ;;;
  param_set tp "dut" (VStr (dut_name self)) ;;;
  param_set tp "fail_reason" (VStr "") ;;;
  tr' <<- param_get tp "test_result" ;;
  (if negb (truthy tr')
   then param_set tp "fail_reason" (VStr (output_msg self))
   else ret tt) ;;;
  write_results self.

(** [TestOps.__init__(tests_definitions, test_suite, dut)]; [caller] is
    the test function that builds the object. *)
Definition init (caller : string) (test_suite : string)
    (d : FanOut.dut (St := St)) : M world testops :=
  let test_case := caller in
  tp <<- on_defs (get_parameters "__init__" test_suite test_case) ;;
  expected_output <<- param_get tp "expected_output" ;;
  interface_list <<- lift (output_get d "interface_list") ;;
  show_cmd <<- param_get tp "show_cmd" ;;
  show_cmd_txt <<-
    (if truthy show_cmd then
       match show_cmd with
       | VStr c =>
           lift (verify_show_cmd c d) ;;;
           entry <<- lift (output_get d c) ;;
           lift (getitem entry "text")
       | VList _ | VDict _ => raise TypeError
       | _ => raise AssertionError
       end
     else ret (VStr "")) ;;
  ret {| test_case := test_case;
         test_parameters := tp;
         expected_output := expected_output;
         interface_list := interface_list;
         dut_name := FanOut.name d;
         show_cmd := show_cmd;
         dut := d;
         show_cmd_txt := show_cmd_txt;
         comment := "";
         output_msg := "";
         test_result := None;
         actual_output := None |}.

(** What a test case does to its object before [post_testcase]: it
    assigns [self.test_result], [self.actual_output] and, when it wants
    to, [self.output_msg]. *)
Definition with_result (self : testops) (test_result actual_output : value)
    (output_msg : string) : testops :=
  {| test_case := test_case self;
     test_parameters := test_parameters self;
     expected_output := expected_output self;
     interface_list := interface_list self;
     dut_name := dut_name self;
     show_cmd := show_cmd self;
     dut := dut self;
     show_cmd_txt := show_cmd_txt self;
     comment := comment self;
     output_msg := output_msg;
     test_result := Some test_result;
     actual_output := Some actual_output |}.

End Recorder.

End Recorder.

(** ** The memory test: [MemoryTests.test_memory_utilization_on_] *)

Module Memory.

(** Python's [float] is IEEE 754 binary64, which is what [PrimFloat]
    computes with. *)

(** [float(n)] for an integer: the nearest double, [OverflowError] when
    there is none. *)
Definition float_of_int (z : Z) : outcome float :=
  let f := SF2Prim (binary_normalize prec emax z 0 false) in
  if PrimFloat.is_infinity f then Raises OverflowError else Returns f.

Section Float.

(** [float(s)] for a string: its parsed value, if it has one. *)
Variable parse_float : string -> option float.

(** [float(v)]. *)
Definition py_float (v : value) : outcome float :=
  match v with
  | VInt z => float_of_int z
  | VFloat f => Returns f
  | VBool b => Returns (if b then 1%float else 0%float)
  | VStr s => match parse_float s with
              | Some f => Returns f
              | None => Raises ValueError
              end
  | VNone | VList _ | VDict _ => Raises TypeError
  end.

(** [a / b] on floats. *)
Definition float_div (a b : float) : outcome float :=
  if PrimFloat.eqb b 0%float then Raises ZeroDivisionError
  else Returns (PrimFloat.div a b).

(** [f < n] for a float and an integer, compared as exact numbers. *)
Definition float_lt_int (f : float) (z : Z) : bool :=
  match Prim2SF f with
  | S754_nan => false
  | S754_infinity s => s
  | S754_zero _ => Z.ltb 0 z
  | S754_finite s m e =>
      let n := if s then Z.neg m else Z.pos m in
      if Z.leb 0 e then Z.ltb (n * 2 ^ e) z
      else Z.ltb n (z * 2 ^ (- e))
  end.

(** [f < v]. *)
Definition float_lt (f : float) (v : value) : outcome bool :=
  match v with
  | VInt z => Returns (float_lt_int f z)
  | VFloat g => Returns (PrimFloat.ltb f g)
  | VBool b => Returns (float_lt_int f (if b then 1 else 0))
  | VNone | VStr _ | VList _ | VDict _ => Raises TypeError
  end.

(** The computation of the test, from the structured output of the
    show command ([dut["output"][show_cmd]["json"]]) and the expected
    output to [actual_output] and [test_result]. *)
Definition memory_utilization (json : value) (expected_output : value)
    : outcome (float * bool) :=
  memory_total <- getitem json "memTotal" ;;
  memory_free <- getitem json "memFree" ;;
  mf <- py_float memory_free ;;
  mt <- py_float memory_total ;;
  q <- float_div mf mt ;;
  let actual_output := PrimFloat.mul q 100%float in
  test_result <- float_lt actual_output expected_output ;;
  Returns (actual_output, test_result).

End Float.

End Memory.

(** ** Concrete devices and definitions *)

Module Examples.

Import Dispatcher.

(** What a lab switch answers to one accepted command. *)
Definition answer (enc : encoding) (cmd : string) : value :=
  match enc with
  | Json =>
      if String.eqb cmd "show version"
      then VDict (<["modelName" := VStr "vEOS"]>
                 (<["memTotal" := VInt 1000]>
                 (<["memFree" := VInt 500]> ∅)))
      else VDict (<["cmd" := VStr cmd]> ∅)
  | Text => VDict (<["output" := VStr cmd]> ∅)
  end.

(** The commands the lab switch rejects. *)
Definition rejected (cmd : string) : bool :=
  String.eqb cmd "show foo" || String.eqb cmd "show bar".

(** A switch that rejects a batch by naming its first rejected command,
    as the client's command error does, and answers an accepted batch
    command by command. *)
Definition lab_switch (st : unit) (cmds : list string) (enc : encoding)
    : unit * (list value + string) :=
  match List.find rejected cmds with
  | Some c =>
      (st, inr ("CLI command '" ++ c ++ "' failed: invalid command")%string)
  | None => (st, inl (List.map (answer enc) cmds))
  end.

(** The error the client raises for a rejected [show version detail]. *)
Definition detail_error : string :=
  "CLI command 2 of 2 'show version detail' failed: invalid command".

(** [str(x)] on the scalars the examples use. *)
Definition str_scalar (v : value) : string :=
  match v with
  | VStr s => s
  | VInt z => pretty z
  | VBool true => "True"
  | VBool false => "False"
  | _ => "None"
  end.

(** A dump of a flat mapping, one [key: value] line per key. *)
Definition dump_flat (m : gmap string value) : string :=
  List.fold_right
    (fun kv acc => (fst kv ++ ": " ++ str_scalar (snd kv) ++ ShowCmd.nl ++ acc)%string)
    "" (map_to_list m).

(** [enable] of the lab switch. *)
Definition lab_enable (st : unit) (cmd : string) : unit * (value + string) :=
  if rejected cmd
  then (st, inr ("CLI command '" ++ cmd ++ "' failed: invalid command")%string)
  else (st, inl (VList [VDict (<["result" := answer Json cmd]> ∅)])).

(** A switch that is busy: it refuses the first [n] text requests it
    gets, the last of them with another message, and answers like the
    lab switch afterwards. *)
Definition busy_switch (st : nat) (cmds : list string) (enc : encoding)
    : nat * (list value + string) :=
  match enc, st with
  | Text, S n => (n, inr (if Nat.eqb n 0 then "session closed" else "session busy"))
  | _, _ => (st, inl (List.map (answer enc) cmds))
  end.

Definition busy_enable (st : nat) (cmd : string) : nat * (value + string) :=
  (st, inl (VList [VDict (<["result" := answer Json cmd]> ∅)])).

(** The parameters of the memory test case. *)
Definition memory_params : gmap string value :=
  <["name" := VStr "test_memory_utilization_on_"]>
  (<["show_cmd" := VStr "show version"]>
  (<["expected_output" := VInt 70]> ∅)).

(** The definitions of a small lab: one switch, two suites. *)
Definition lab_defs : definitions :=
  {| parameters := <["show_log" := VStr "show_output.log"]>
                   (<["eapi_file" := VStr "eapi.conf"]> ∅);
     duts := [ {| d_name := "DSR01"; d_mgmt_ip := "10.255.74.38";
                  d_username := "cvpadmin";
                  d_neighbors := [ {| neighborDevice := "DCBBW1";
                                      neighborPort := "Ethernet1";
                                      port := "Ethernet2" |} ] |} ];
     test_suites :=
       [ {| s_name := "test_memory.py";
            s_testcases := [ memory_params ] |};
         {| s_name := "test_ntp.py";
            s_testcases :=
              [ <["name" := VStr "test_if_ntp_is_synchronized_on_"]>
                (<["show_cmd" := VStr "show ntp status"]>
                (<["expected_output" := VBool true]> ∅));
                <["name" := VStr "test_if_ntp_associated_with_peers_on_"]>
                (<["show_cmd" := VStr "show ntp associations"]>
                (<["expected_output" := VInt 2]> ∅)) ] |} ] |}.

(** Where the memory test lives. *)
Definition memory_suite : string := "/vane/bin/tests/memory/test_memory.py".

(** No files yet, none refused. *)
Definition empty_fs : filesystem := {| files := ∅; denied := ∅ |}.

(** The structured output of [show version] in the memory scenario. *)
Definition version_json : value :=
  VDict (<["memTotal" := VInt 1000]> (<["memFree" := VInt 500]> ∅)).

(** The lab's device record before and after its worker ran on
    [show version]. *)
Definition lab_login : FanOut.dut (St := unit) :=
  {| FanOut.connection := tt; FanOut.name := "DSR01";
     FanOut.mgmt_ip := "10.255.74.38"; FanOut.username := "cvpadmin";
     FanOut.output := None |}.

Definition lab_dut : FanOut.dut (St := unit) :=
  fst (FanOut.dut_worker lab_switch 3 lab_login ["show version"] lab_defs).

(** The memory test case of the lab, as [get_parameters] refers to it,
    and the lab's definitions after that lookup. *)
Definition memory_case : Recorder.case_ref :=
  {| Recorder.suite_ix := 0; Recorder.case_ix := 0 |}.

Definition lab_defs_looked_up : definitions :=
  fst (Recorder.get_parameters "__init__" memory_suite
         "test_memory_utilization_on_" lab_defs).

(** The [TestOps] object of the memory test as [__init__] leaves it. *)
Definition fresh_ops : Recorder.testops (St := unit) :=
  {| Recorder.test_case := "test_memory_utilization_on_";
     Recorder.test_parameters := memory_case;
     Recorder.expected_output := VInt 70;
     Recorder.interface_list :=
       VList (FanOut.return_interfaces "DSR01" lab_defs);
     Recorder.dut_name := "DSR01";
     Recorder.show_cmd := VStr "show version";
     Recorder.dut := lab_dut;
     Recorder.show_cmd_txt := VStr "show version";
     Recorder.comment := "";
     Recorder.output_msg := "";
     Recorder.test_result := None;
     Recorder.actual_output := None |}.

(** The same object after a test case that sets a failed result and an
    actual output, and leaves [output_msg] as [__init__] set it. *)
Definition failed_ops : Recorder.testops (St := unit) :=
  Recorder.with_result fresh_ops (VBool false) (VInt 80) "".

(** The output table of the lab's device record. *)
Definition lab_table : gmap string value :=
  default ∅ (FanOut.output lab_dut).

Definition lab_world : Recorder.world :=
  {| Recorder.w_defs := lab_defs_looked_up; Recorder.w_fs := empty_fs |}.

(** The record the failed test leaves, and the world after it was
    written. *)
Definition failed_record : gmap string value :=
  <["fail_reason" := VStr ""]>
  (<["dut" := VStr "DSR01"]>
  (<["actual_output" := VInt 80]>
  (<["output_msg" := VStr ""]>
  (<["test_result" := VBool false]>
  (<["comment" := VStr ""]>
  (<["test_suite" := VStr "test_memory.py"]> memory_params)))))).

Definition recorded_world : Recorder.world :=
  fst (Recorder.post_testcase dump_flat str_scalar failed_ops lab_world).

End Examples.

(** ** The narrowing step on a duplicate-free list, and contracts of a
    connection *)

Module Narrowing.

Import Dispatcher.

(** What the loop of [remove_cmd] comes to on a list without
    duplicates: a named command is dropped, and the command after it is
    kept without being looked at. *)
Fixpoint skip_after_removal (e : string) (l : list string) : list string :=
  match l with
  | [] => []
  | c :: rest =>
      if str_in c e then
        match rest with
        | [] => []
        | d :: rest' => d :: skip_after_removal e rest'
        end
      else c :: skip_after_removal e rest
  end.

Section Contracts.

Context {St : Type}.
Variable run_commands : St -> list string -> encoding -> St * (list value + string).

(** A connection that fails every request for [show_cmds] with a message
    that contains none of them. *)
Definition names_nothing (show_cmds : list string) : Prop :=
  forall st en,
    exists st' e,
      run_commands st show_cmds en = (st', inr e)
      /\ forall c, c ∈ show_cmds -> str_in c e = false.

(** A connection that, for batches drawn from [show_cmds], rejects a
    batch by an error whose text contains the first rejected command and
    no other command of the batch, and accepts a batch without rejected
    commands. *)
Definition rejects_by_name (rejected : string -> bool)
    (show_cmds : list string) : Prop :=
  forall st l en,
    l ⊆ show_cmds ->
    match List.find rejected l with
    | Some c =>
        exists st' e,
          run_commands st l en = (st', inr e)
          /\ forall c', c' ∈ l -> (str_in c' e = true <-> c' = c)
    | None => exists st' res, run_commands st l en = (st', inl res)
    end.

End Contracts.

End Narrowing.

(** ** Checks on a filled device record: [verify_veos] *)

Module Verify.

(** [verify_veos(dut)], and [TestOps.verify_veos] on [self.dut]: reads
    [dut["output"]["show version"]["json"]["modelName"]] and compares it
    with ["vEOS"]. *)
Definition verify_veos {St : Type} (d : FanOut.dut (St := St)) : outcome bool :=
  match FanOut.output d with
  | None => Raises (KeyError "output")
  | Some tbl =>
      entry <- getitem (VDict tbl) "show version" ;;
      json <- getitem entry "json" ;;
      veos <- getitem json "modelName" ;;
      Returns (eq_str veos "vEOS")
  end.

End Verify.

(** ** The show-command log: [init_show_log] *)

Module ShowLog.

Import ShowCmd.

(** [init_show_log(test_parameters)]: the configured log file is opened
    for writing, which leaves it empty; without a configured log, or when
    the file cannot be opened, the process exits. *)
Definition init_show_log {St : Type} (test_parameters : definitions)
    : M (env (St := St)) unit :=
  match parameters test_parameters !! "show_log" with
  | None => raise (SystemExit 1)
  | Some (VStr log_file) =>
      fun s =>
        match write_file log_file "" (e_fs s) with
        | Some fs' =>
            ({| e_conn := e_conn s; e_fs := fs'; e_trace := e_trace s |},
             Returns tt)
        | None => (s, Raises (SystemExit 1))
        end
  | Some _ => raise (SystemExit 1)
  end.

(** The block [export_logs] writes. *)
Definition log_block (py_str : value -> string) (test_name hostname : string)
    (output : value) : string :=
  (nl ++ "test_suite::" ++ test_name ++ "[" ++ hostname ++ "]:" ++ nl
      ++ py_str output)%string.

End ShowLog.

(** ** More concrete devices *)

Module MoreExamples.

Import Dispatcher.

(** A switch like the lab switch with the rejected commands left open. *)
Definition picky_switch (rejects : string -> bool) (st : unit)
    (cmds : list string) (enc : encoding) : unit * (list value + string) :=
  match List.find rejects cmds with
  | Some c =>
      (st, inr ("CLI command '" ++ c ++ "' failed: invalid command")%string)
  | None => (st, inl (List.map (Examples.answer enc) cmds))
  end.

(** An old image without [show version]. *)
Definition no_version (cmd : string) : bool := String.eqb cmd "show version".

(** A switch whose first answer is an empty list and which then closes
    the session. *)
Definition garbled_switch (st : bool) (cmds : list string) (enc : encoding)
    : bool * (list value + string) :=
  if st then (false, inl []) else (false, inr "session closed").

Definition garbled_enable (st : bool) (cmd : string) : bool * (value + string) :=
  (st, inl (VList [])).

(** A device that cannot be reached and counts the requests made. *)
Definition silent_switch (st : nat) (cmds : list string) (enc : encoding)
    : nat * (list value + string) :=
  (S st, inr "Socket error during eAPI connection: timed out").

(** Definitions with nothing configured. *)
Definition bare_defs : definitions :=
  {| parameters := ∅; duts := []; test_suites := [] |}.

(** Where the NTP tests live, and two of their cases as the lookup
    refers to them. *)
Definition ntp_suite : string := "/vane/bin/tests/ntp/test_ntp.py".

Definition sync_case : Recorder.case_ref :=
  {| Recorder.suite_ix := 1; Recorder.case_ix := 0 |}.

Definition peers_case : Recorder.case_ref :=
  {| Recorder.suite_ix := 1; Recorder.case_ix := 1 |}.

(** The lab's definitions after [__init__] looked up the first NTP case,
    and that case's mapping. *)
Definition sync_defs : definitions :=
  fst (Recorder.get_parameters "__init__" ntp_suite
         "test_if_ntp_is_synchronized_on_" Examples.lab_defs).

Definition sync_params : gmap string value :=
  default ∅ (Recorder.deref sync_defs sync_case).

(** Definitions with the file system suite, whose case has no show
    command of its own. *)
Definition files_defs : definitions :=
  {| parameters := parameters Examples.lab_defs;
     duts := duts Examples.lab_defs;
     test_suites :=
       [ {| s_name := "test_filesystem.py";
            s_testcases :=
              [ <["name" := VStr "test_if_files_on_"]>
                (<["show_cmd" := VNone]>
                (<["expected_output" := VBool false]>
                (<["files" := VList [VStr "flash:startup-config"]]> ∅))) ] |} ] |}.

Definition files_suite : string :=
  "/vane/bin/tests/filesystem/test_filesystem.py".

Definition files_looked_up : definitions :=
  fst (Recorder.get_parameters "__init__" files_suite "test_if_files_on_"
         files_defs).

Definition files_params : gmap string value :=
  default ∅ (Recorder.deref files_looked_up Examples.memory_case).

(** The state of a run before anything was sent or written. *)
Definition start {St : Type} (conn : St) : ShowCmd.env (St := St) :=
  {| ShowCmd.e_conn := conn; ShowCmd.e_fs := Examples.empty_fs;
     ShowCmd.e_trace := [] |}.

End MoreExamples.

(** ** The commands the test cases need: [return_show_cmds] *)

Module ShowCmds.

Section Equality.

(** What [x in l] on a list applies to [x] and an element: the same
    object, or equal by [==]. *)
Variable py_eq : value -> value -> bool.

Definition py_in (x : value) (l : list value) : bool :=
  List.existsb (py_eq x) l.

Definition is_none (v : value) : bool :=
  match v with
  | VNone => true
  | _ => false
  end.

(** One turn of the inner loop, after [show_cmd] was read. *)
Definition add_cmd (show_cmds : list value) (show_cmd : value) : list value :=
  if negb (py_in show_cmd show_cmds) && negb (is_none show_cmd)
  then show_cmds ++ [show_cmd]
  else show_cmds.

(** The loop over the test cases of one suite. *)
Fixpoint cases_loop (test_cases : list (gmap string value))
    (show_cmds : list value) : outcome (list value) :=
  match test_cases with
  | [] => Returns show_cmds
  | test_case :: rest =>
      show_cmd <- getitem (VDict test_case) "show_cmd" ;;
      cases_loop rest (add_cmd show_cmds show_cmd)
  end.

(** The loop over the suite names: each name is looked up again with
    [index], which finds the first suite of that name. *)
Fixpoint suites_loop (test_data : list suite) (suite_names todo : list string)
    (show_cmds : list value) : outcome (list value) :=
  match todo with
  | [] => Returns show_cmds
  | test_suite :: rest =>
      match list_index test_suite suite_names with
      | None => Raises ValueError
      | Some test_index =>
          match test_data !! test_index with
          | None => Raises IndexError
          | Some s =>
              show_cmds' <- cases_loop (s_testcases s) show_cmds ;;
              suites_loop test_data suite_names rest show_cmds'
          end
      end
  end.

(** [return_show_cmds(test_parameters)]. *)
Definition return_show_cmds (test_parameters : definitions)
    : outcome (list value) :=
  let test_data := test_suites test_parameters in
  let suite_names := s_name <$> test_data in
  suites_loop test_data suite_names suite_names [].

(** No element of the list is found in the elements before it. *)
Definition found_once (l : list value) : Prop :=
  forall i j x y, i < j -> l !! i = Some x -> l !! j = Some y ->
                  py_eq y x = false.

(** A command the loop has seen is in the list, or [in] finds it
    there. *)
Definition covered (l : list value) (c : value) : Prop :=
  c ∈ l \/ exists y, y ∈ l /\ py_eq c y = true.

(** What holds of the list all along: no [None], nothing found twice,
    and only values that satisfy [P]. *)
Definition well_collected (P : value -> Prop) (l : list value) : Prop :=
  (VNone ∉ l) /\ found_once l /\ forall c, c ∈ l -> P c.

End Equality.

(** The show command of some test case of the definitions. *)
Definition is_show_cmd_of (d : definitions) (c : value) : Prop :=
  exists s m, s ∈ test_suites d /\ m ∈ s_testcases s
              /\ m !! "show_cmd" = Some c.

(** The suite at position [i] is the first one of its name. *)
Definition first_of_its_name (d : definitions) (i : nat) (s : suite) : Prop :=
  test_suites d !! i = Some s
  /\ list_index (s_name s) (s_name <$> test_suites d) = Some i.

(** Every test case of a suite that is the first of its name has a
    [show_cmd]. *)
Definition all_have_show_cmd (d : definitions) : Prop :=
  forall i s m, first_of_its_name d i s -> m ∈ s_testcases s ->
                is_Some (m !! "show_cmd").

End ShowCmds.

(** ** The test step documents: [TestStepClient.output_md] *)

Module Steps.

(** The calls made on the document object. *)
Inductive md_call : Type :=
  | new_line (text : string)
  | new_list (items : list string)
  | new_header (level : nat) (title : string)
  | create_md_file.

(** [c in chars] for a character. *)
Fixpoint char_in (c : ascii) (chars : string) : bool :=
  match chars with
  | EmptyString => false
  | String c' rest => Ascii.eqb c c' || char_in c rest
  end.

(** [s.lstrip(chars)]: leading characters are dropped as long as they
    are among [chars]. *)
Fixpoint lstrip (chars s : string) : string :=
  match s with
  | EmptyString => EmptyString
  | String c rest => if char_in c chars then lstrip chars rest else s
  end.

(** The loop over the steps of one file; [last] is [steps[-1]] and
    [test_steps_list] the list collected so far.  Gives the calls made
    from here on. *)
Fixpoint steps_loop (last : string) (steps : list string)
    (test_steps_list : list string) : list md_call :=
  match steps with
  | [] => []
  | step :: rest =>
      let '(calls1, list1) :=
        if String.prefix "TD:" step then
          ((match test_steps_list with
            | [] => []
            | _ :: _ => [new_list test_steps_list]
            end) ++ [new_header 1 (lstrip "TD:" step)],
           [])
        else if String.prefix "TS:" step then
          ([], test_steps_list ++ [lstrip "TS:" step])
        else ([], test_steps_list) in
      let '(calls2, list2) :=
        if String.eqb step last then ([new_list list1], [])
        else ([], list1) in
      let calls3 :=
        if String.prefix "N/a" step then [new_line step] else [] in
      calls1 ++ calls2 ++ calls3 ++ steps_loop last rest list2
  end.

(** The calls [output_md] makes on the document of one file with the
    given steps. *)
Definition output_md_file (steps : list string) : outcome (list md_call) :=
  match steps with
  | [] => Raises IndexError
  | date :: _ =>
      Returns (new_line ("Date generated: " ++ date)
                 :: steps_loop (List.last steps "") steps []
                 ++ [create_md_file])
  end.

(** [output_md(test_comments)]: one document per key, in the order of
    the keys. *)
Fixpoint output_md (test_comments : list (string * list string))
    : outcome (list (string * list md_call)) :=
  match test_comments with
  | [] => Returns []
  | (key, steps) :: rest =>
      calls <- output_md_file steps ;;
      docs <- output_md rest ;;
      Returns ((key, calls) :: docs)
  end.

(** The items of the lists and the titles of the headers among the
    calls, in the order of the calls. *)
Definition listed (calls : list md_call) : list string :=
  List.concat (List.map (fun c => match c with
                                  | new_list items => items
                                  | _ => []
                                  end) calls).

Definition headers (calls : list md_call) : list string :=
  List.concat (List.map (fun c => match c with
                                  | new_header _ title => [title]
                                  | _ => []
                                  end) calls).

(** The texts of the steps that start with [prefix], with [lstrip]
    applied as the loop applies it. *)
Definition stripped (prefix : string) (steps : list string) : list string :=
  List.map (lstrip prefix) (List.filter (String.prefix prefix) steps).

(** The text starts with one of the characters. *)
Definition starts_with_any (chars s : string) : bool :=
  match s with
  | EmptyString => false
  | String c _ => char_in c chars
  end.

End Steps.

(** ** More definitions and steps *)

Module StepExamples.

(** [==] on the scalars the examples use. *)
Definition eq_scalar (x y : value) : bool :=
  match x, y with
  | VNone, VNone => true
  | VStr a, VStr b => String.eqb a b
  | VInt a, VInt b => Z.eqb a b
  | VBool a, VBool b => Bool.eqb a b
  | _, _ => false
  end.

(** The lab's definitions with a second suite named like the memory
    suite, whose case has no [show_cmd] at all. *)
Definition shadowed_defs : definitions :=
  {| parameters := parameters Examples.lab_defs;
     duts := duts Examples.lab_defs;
     test_suites :=
       test_suites Examples.lab_defs
       ++ [ {| s_name := "test_memory.py";
               s_testcases := [ <["name" := VStr "test_memory_free_on_"]> ∅ ] |} ] |}.

(** The same with the second memory suite asking for another command. *)
Definition shadowed_defs' : definitions :=
  {| parameters := parameters Examples.lab_defs;
     duts := duts Examples.lab_defs;
     test_suites :=
       test_suites Examples.lab_defs
       ++ [ {| s_name := "test_memory.py";
               s_testcases :=
                 [ <["name" := VStr "test_memory_free_on_"]>
                   (<["show_cmd" := VStr "show processes top once"]> ∅) ] |} ] |}.

(** The steps found in a test file with one definition and two steps,
    the date in front. *)
Definition ntp_steps : list string :=
  [ "04/11/2026 10:00:00";
    "TD: Verify NTP is synchronized";
    "TS: Run show ntp status";
    "TS:Search the output for synchronised" ].

End StepExamples.

(** * Properties *)

Local Open Scope nat_scope.

(** ** Python primitives *)

Section PyFacts.

Lemma prefix_refl_app (c b : string) : String.prefix c (c ++ b)%string = true.
Proof.
  induction c as [|a c IH].
  - destruct b; reflexivity.
  - change (String a c ++ b)%string with (String a (c ++ b)%string).
    simpl. destruct (Ascii.ascii_dec a a); [exact IH | congruence].
Qed.

Lemma str_in_prefix (c hay : string) :
  String.prefix c hay = true -> str_in c hay = true.
Proof. intros H. destruct hay; simpl in *; rewrite H; reflexivity. Qed.

Lemma str_in_cons (c : string) (a : ascii) (hay : string) :
  str_in c hay = true -> str_in c (String a hay) = true.
Proof.
  intros H. cbn [str_in]. destruct (String.prefix c (String a hay)); auto.
Qed.

(** A string that is quoted in a message occurs in the message. *)
Lemma str_in_app (a c b : string) : str_in c (a ++ c ++ b)%string = true.
Proof.
  induction a as [|x a IH].
  - change ("" ++ c ++ b)%string with (c ++ b)%string.
    apply str_in_prefix, prefix_refl_app.
  - change (String x a ++ c ++ b)%string with (String x (a ++ c ++ b)%string).
    apply str_in_cons, IH.
Qed.

Lemma list_index_Some (x : string) (l : list string) (k : nat) :
  list_index x l = Some k -> l !! k = Some x.
Proof.
  revert k. induction l as [|y l IH]; intros k; simpl; [discriminate|].
  destruct (String.eqb_spec y x) as [->|Hne].
  - intros [= <-]. reflexivity.
  - destruct (list_index x l) as [k'|]; simpl; [|discriminate].
    intros [= <-]. simpl. apply IH. reflexivity.
Qed.

Lemma list_index_elem (x : string) (l : list string) :
  x ∈ l -> is_Some (list_index x l).
Proof.
  induction l as [|y l IH]; intros Hin; simpl.
  - inversion Hin.
  - destruct (String.eqb_spec y x) as [->|Hne]; [eauto|].
    apply elem_of_cons in Hin as [->|Hin]; [congruence|].
    destruct (IH Hin) as [k ->]. simpl. eauto.
Qed.

(** The first position found is the first one: no earlier element is
    equal. *)
Lemma list_index_first (x : string) (l : list string) (k j : nat) :
  list_index x l = Some k -> j < k -> l !! j ≠ Some x.
Proof.
  revert k j. induction l as [|y l IH]; intros k j; simpl; [discriminate|].
  destruct (String.eqb_spec y x) as [->|Hne].
  - intros [= <-] Hlt. lia.
  - destruct (list_index x l) as [k'|] eqn:E; simpl; [|discriminate].
    intros [= <-] Hlt. destruct j as [|j]; simpl.
    + congruence.
    + apply (IH k'); [reflexivity | lia].
Qed.

End PyFacts.

(** ** The narrowing step *)

Section RemoveCmd.

Import Dispatcher.

Lemma remove_cmd_loop_length (fuel : nat) (e : string) (i : nat) (l : list string) :
  length (remove_cmd_loop fuel e i l) ≤ length l.
Proof.
  revert i l. induction fuel as [|fuel IH]; intros i l; simpl; [lia|].
  destruct (l !! i) as [c|]; [|lia].
  destruct (str_in c e); [|apply IH].
  destruct (list_index c l) as [k|] eqn:Ek; [|lia].
  etransitivity; [apply IH|]. rewrite length_delete; [lia|].
  rewrite (list_index_Some _ _ _ Ek). eauto.
Qed.

(** A named command at or after the iterator makes the list shorter. *)
Lemma remove_cmd_loop_shrinks (fuel : nat) (e : string) (i j : nat)
    (l : list string) (c : string) :
  i ≤ j -> l !! j = Some c -> str_in c e = true -> length l - i ≤ fuel ->
  length (remove_cmd_loop fuel e i l) < length l.
Proof.
  revert i l. induction fuel as [|fuel IH]; intros i l Hij Hj Hc Hf.
  - apply lookup_lt_Some in Hj. lia.
  - simpl. pose proof (lookup_lt_Some _ _ _ Hj) as Hlt.
    destruct (l !! i) as [c0|] eqn:Ei.
    2:{ apply lookup_ge_None in Ei. lia. }
    destruct (str_in c0 e) eqn:E0.
    + destruct (list_index_elem c0 l) as [k Ek].
      { eapply list_elem_of_lookup_2; eauto. }
      rewrite Ek.
      eapply Nat.le_lt_trans; [apply remove_cmd_loop_length|].
      rewrite length_delete; [lia|].
      rewrite (list_index_Some _ _ _ Ek). eauto.
    + apply IH; [|assumption|assumption|lia].
      destruct (decide (i = j)) as [->|]; [congruence|lia].
Qed.

Lemma remove_cmd_shrinks (e : string) (l : list string) (c : string) :
  c ∈ l -> str_in c e = true -> length (remove_cmd e l) < length l.
Proof.
  intros Hin Hc. apply list_elem_of_lookup in Hin as [j Hj].
  unfold remove_cmd.
  apply (remove_cmd_loop_shrinks _ e 0 j l c); [lia|assumption|assumption|lia].
Qed.

(** An error that names no command leaves the list as it is. *)
Lemma remove_cmd_loop_no_match (fuel : nat) (e : string) (i : nat) (l : list string) :
  (forall c, c ∈ l -> str_in c e = false) -> remove_cmd_loop fuel e i l = l.
Proof.
  intros Hno. revert i. induction fuel as [|fuel IH]; intros i; simpl; [reflexivity|].
  destruct (l !! i) as [c|] eqn:Ei; [|reflexivity].
  rewrite (Hno c); [apply IH|]. eapply list_elem_of_lookup_2; eauto.
Qed.

Lemma remove_cmd_no_match (e : string) (l : list string) :
  (forall c, c ∈ l -> str_in c e = false) -> remove_cmd e l = l.
Proof. apply remove_cmd_loop_no_match. Qed.

(** The bound on the rounds is never what stops the loop: more fuel
    than the list is long changes nothing. *)
Lemma remove_cmd_loop_fuel (fuel fuel' : nat) (e : string) (i : nat) (l : list string) :
  length l - i ≤ fuel -> fuel ≤ fuel' ->
  remove_cmd_loop fuel' e i l = remove_cmd_loop fuel e i l.
Proof.
  revert fuel' i l. induction fuel as [|fuel IH]; intros fuel' i l Hf Hle.
  - destruct fuel'; simpl; [reflexivity|].
    rewrite (proj2 (lookup_ge_None l i)); [reflexivity|lia].
  - destruct fuel' as [|fuel']; [lia|]. simpl.
    destruct (l !! i) as [c|] eqn:Ei; [|reflexivity].
    destruct (str_in c e).
    + destruct (list_index c l) as [k|] eqn:Ek; [|reflexivity].
      apply IH; [|lia]. rewrite length_delete; [lia|].
      rewrite (list_index_Some _ _ _ Ek). eauto.
    + apply IH; lia.
Qed.

(** C1 (the code at the failing input).  The client rejects
    [show version detail]; its message therefore contains both
    [show version detail] and [show version].  The loop removes the
    first command, which moves the second one under the iterator's old
    position, and the iterator steps over it: [show version detail]
    stays in the list although the error message contains it, where
    the narrowing step asked for leaves the empty list. *)
Theorem remove_cmd_skips_after_removal :
  let show_cmds := ["show version"; "show version detail"] in
  remove_cmd Examples.detail_error show_cmds = ["show version detail"]
  /\ str_in "show version detail" Examples.detail_error = true
  /\ without_named Examples.detail_error show_cmds = [].
Proof. vm_compute. auto. Qed.

End RemoveCmd.

(** ** The retry loop *)

Section SendCmds.

Import Dispatcher Narrowing.

Context {St : Type}.
Variable run_commands : St -> list string -> encoding -> St * (list value + string).

Lemma encoding_of_cases (enc : string) (en : encoding) :
  encoding_of enc = Some en ->
  (enc = "json" /\ en = Json) \/ (enc = "text" /\ en = Text).
Proof.
  unfold encoding_of.
  destruct (String.eqb_spec enc "json") as [->|_]; [intros [= <-]; auto|].
  destruct (String.eqb_spec enc "text") as [->|_]; [intros [= <-]; auto|].
  discriminate.
Qed.

(** With a connection whose errors name a pending command, and one of
    the two encodings, the call returns within [length show_cmds]
    retries. *)
Lemma send_cmds_returns (fuel : nat) (show_cmds : list string) (conn : St)
    (enc : string) (en : encoding) :
  names_pending run_commands ->
  encoding_of enc = Some en ->
  length show_cmds < fuel ->
  returns (send_cmds run_commands fuel show_cmds conn enc).
Proof.
  intros Hn Hen. revert show_cmds conn.
  induction fuel as [|fuel IH]; intros show_cmds conn Hf; [lia|].
  simpl. rewrite Hen.
  destruct (run_commands conn show_cmds en) as [conn' [res|e]] eqn:Er.
  - eexists. reflexivity.
  - destruct (Hn _ _ _ _ _ Er) as (c & Hin & Hc).
    pose proof (remove_cmd_shrinks e show_cmds c Hin Hc) as Hlt.
    destruct (IH (remove_cmd e show_cmds) conn') as [r Hr]; [lia|].
    rewrite Hr. simpl. eexists. reflexivity.
Qed.

(** What a returned pair is: the answer of the connection to the
    returned list, at some state of the connection. *)
Lemma send_cmds_result (fuel : nat) (show_cmds : list string) (conn : St)
    (enc : string) (conn' : St) (res : list value) (cmds' : list string) :
  send_cmds run_commands fuel show_cmds conn enc = Returns (conn', (res, cmds')) ->
  exists en conn0,
    encoding_of enc = Some en /\
    run_commands conn0 cmds' en = (conn', inl res) /\
    length cmds' ≤ length show_cmds.
Proof.
  revert show_cmds conn.
  induction fuel as [|fuel IH]; intros show_cmds conn; simpl; [discriminate|].
  destruct (encoding_of enc) as [en|] eqn:Hen; [|discriminate].
  destruct (run_commands conn show_cmds en) as [conn1 [r|e]] eqn:Er.
  - intros [= <- <- <-]. exists en, conn. auto.
  - destruct (send_cmds run_commands fuel (remove_cmd e show_cmds) conn1 enc)
      as [[c2 [r2 l2]]|] eqn:Erec; simpl; try discriminate.
    intros [= <- <- <-].
    destruct (IH _ _ Erec) as (en' & conn0 & Hen' & Hrun & Hlen).
    exists en', conn0. repeat split; try assumption.
    etransitivity; [exact Hlen|]. apply remove_cmd_loop_length.
Qed.

(** More room does not change a call that returned. *)
Lemma send_cmds_fuel (fuel fuel' : nat) (show_cmds : list string) (conn : St)
    (enc : string) (r : St * (list value * list string)) :
  fuel ≤ fuel' ->
  send_cmds run_commands fuel show_cmds conn enc = Returns r ->
  send_cmds run_commands fuel' show_cmds conn enc = Returns r.
Proof.
  revert fuel' show_cmds conn r.
  induction fuel as [|fuel IH]; intros fuel' show_cmds conn r Hle; [discriminate|].
  destruct fuel' as [|fuel']; [lia|]. simpl.
  destruct (encoding_of enc) as [en|]; [|discriminate].
  destruct (run_commands conn show_cmds en) as [conn1 [res|e]]; [auto|].
  destruct (send_cmds run_commands fuel (remove_cmd e show_cmds) conn1 enc)
    as [r1|] eqn:Erec; simpl; [|discriminate].
  intros H. rewrite (IH fuel' _ _ r1 ltac:(lia) Erec). exact H.
Qed.

(** With errors that name none of the commands, the list is never
    narrowed: every nested call makes the same request, and the call
    that finds no room raises. *)
Lemma send_cmds_unnamed (show_cmds : list string) (enc : string) (en : encoding) :
  names_nothing run_commands show_cmds ->
  encoding_of enc = Some en ->
  forall fuel conn,
    send_cmds run_commands fuel show_cmds conn enc = Raises RecursionError.
Proof.
  intros Hno Hen. induction fuel as [|fuel IH]; intros conn; [reflexivity|].
  simpl. rewrite Hen.
  destruct (Hno conn en) as (conn' & e & -> & Hnone).
  rewrite (remove_cmd_no_match e show_cmds Hnone), IH. reflexivity.
Qed.

Lemma send_cmds_conn_unnamed (show_cmds : list string) (enc : string)
    (en : encoding) :
  names_nothing run_commands show_cmds ->
  encoding_of enc = Some en ->
  forall fuel conn,
    send_cmds_conn run_commands fuel show_cmds conn enc
    = Nat.iter fuel (fun st => fst (run_commands st show_cmds en)) conn.
Proof.
  intros Hno Hen. induction fuel as [|fuel IH]; intros conn; [reflexivity|].
  rewrite Nat.iter_succ_r. simpl. rewrite Hen.
  destruct (Hno conn en) as (conn' & e & Hrun & Hnone). rewrite Hrun.
  rewrite (remove_cmd_no_match e show_cmds Hnone), IH. reflexivity.
Qed.

(** When the call returns, the connection is left as it is returned. *)
Lemma send_cmds_conn_returns (fuel : nat) (show_cmds : list string) (conn : St)
    (enc : string) (conn' : St) (res : list value) (cmds' : list string) :
  send_cmds run_commands fuel show_cmds conn enc = Returns (conn', (res, cmds')) ->
  send_cmds_conn run_commands fuel show_cmds conn enc = conn'.
Proof.
  revert show_cmds conn.
  induction fuel as [|fuel IH]; intros show_cmds conn; simpl; [discriminate|].
  destruct (encoding_of enc) as [en|]; [|discriminate].
  destruct (run_commands conn show_cmds en) as [conn1 [r|e]].
  - intros [= <- <- <-]. reflexivity.
  - destruct (send_cmds run_commands fuel (remove_cmd e show_cmds) conn1 enc)
      as [[c2 [r2 l2]]|] eqn:Erec; simpl; try discriminate.
    intros [= <- <- <-]. exact (IH _ _ Erec).
Qed.

(** C2 (amended).  Called with one of the two encodings: when every
    error of the connection names a command of the batch it was sent, a
    failed call makes the list shorter, and [send_cmds] returns after at
    most [length show_cmds] retries, given room for that many nested
    calls; an error that names none of the commands leaves the list as
    it is, and when every request for the list fails with such an error
    the same call is made again and again, and whatever the room for
    nested calls, [send_cmds] ends by raising [RecursionError]. *)
Theorem send_cmds_ends_by_narrowing_or_recursion_limit
    (fuel : nat) (show_cmds : list string) (conn : St) (enc : string)
    (en : encoding) :
  encoding_of enc = Some en ->
  (names_pending run_commands -> length show_cmds < fuel ->
   returns (send_cmds run_commands fuel show_cmds conn enc))
  /\ (forall e, (forall c, c ∈ show_cmds -> str_in c e = false) ->
                remove_cmd e show_cmds = show_cmds)
  /\ (names_nothing run_commands show_cmds ->
      send_cmds run_commands fuel show_cmds conn enc = Raises RecursionError
      /\ send_cmds_conn run_commands fuel show_cmds conn enc
         = Nat.iter fuel (fun st => fst (run_commands st show_cmds en)) conn).
Proof.
  intros Hen. split; [|split].
  - intros Hn Hf. exact (send_cmds_returns fuel show_cmds conn enc en Hn Hen Hf).
  - intros e. apply remove_cmd_no_match.
  - intros Hno. split.
    + exact (send_cmds_unnamed show_cmds enc en Hno Hen fuel conn).
    + exact (send_cmds_conn_unnamed show_cmds enc en Hno Hen fuel conn).
Qed.

(** C5.  When [send_cmds] returns, the results are the connection's
    answer to the very list that is returned with them, whatever
    number of narrowing recursions came before; with a connection that
    answers a batch command by command, results and returned list have
    the same length and the result at each position is the output of
    the command at that position. *)
Theorem send_cmds_results_aligned
    (output_of : encoding -> string -> value -> Prop)
    (fuel : nat) (show_cmds : list string) (conn : St) (enc : string)
    (conn' : St) (res : list value) (cmds' : list string) :
  answers_aligned run_commands output_of ->
  send_cmds run_commands fuel show_cmds conn enc = Returns (conn', (res, cmds')) ->
  exists en,
    encoding_of enc = Some en /\
    (exists conn0, run_commands conn0 cmds' en = (conn', inl res)) /\
    length res = length cmds' /\
    (forall i c, cmds' !! i = Some c ->
                 exists r, res !! i = Some r /\ output_of en c r).
Proof.
  intros Hal Hret.
  destruct (send_cmds_result _ _ _ _ _ _ _ Hret) as (en & conn0 & Hen & Hrun & _).
  exists en. split; [exact Hen|]. split; [eauto|].
  pose proof (Hal _ _ _ _ _ Hrun) as HF.
  split; [symmetry; eapply Forall2_length; eauto|].
  intros i c Hi.
  destruct (Forall2_lookup_l _ _ _ _ _ HF Hi) as (r & Hr & Ho). eauto.
Qed.

End SendCmds.

(** ** The lab switch as a connection *)

Section LabSwitch.

Import Dispatcher Narrowing Examples MoreExamples.

Lemma lab_switch_names_pending : names_pending lab_switch.
Proof.
  intros st l en st' e H. unfold lab_switch in H.
  destruct (List.find rejected l) as [c|] eqn:E; [|discriminate].
  injection H as _ <-.
  apply List.find_some in E as [Hin _].
  exists c. split; [apply list_elem_of_In, Hin | apply str_in_app].
Qed.

Lemma map_answer_aligned (en : encoding) (l : list string) :
  Forall2 (fun c r => r = answer en c) l (List.map (answer en) l).
Proof. induction l; simpl; constructor; auto. Qed.

Lemma lab_switch_aligned :
  answers_aligned lab_switch (fun en c r => r = answer en c).
Proof.
  intros st l en st' res H. unfold lab_switch in H.
  destruct (List.find rejected l); [discriminate|].
  injection H as _ <-. apply map_answer_aligned.
Qed.

(** A device that cannot be reached names no command. *)
Lemma silent_switch_names_nothing (show_cmds : list string) :
  (forall c, c ∈ show_cmds ->
             str_in c "Socket error during eAPI connection: timed out" = false) ->
  names_nothing silent_switch show_cmds.
Proof.
  intros Hno st en. exists (S st), "Socket error during eAPI connection: timed out".
  split; [reflexivity|exact Hno].
Qed.

Lemma silent_switch_show_version : names_nothing silent_switch ["show version"].
Proof.
  apply silent_switch_names_nothing. intros c Hc.
  apply list_elem_of_singleton in Hc as ->. vm_compute. reflexivity.
Qed.

Lemma iter_S (n k : nat) : Nat.iter n S k = n + k.
Proof. induction n as [|n IH]; simpl; [reflexivity|]. rewrite IH. reflexivity. Qed.

(** C2: the amended statement at the lab switch, which rejects
    [show foo] by name, and at a device that cannot be reached. *)
Lemma send_cmds_ends_witness :
  encoding_of "json" = Some Json
  /\ (names_pending lab_switch
      /\ length ["show foo"; "show version"] < 3
      /\ returns (send_cmds lab_switch 3 ["show foo"; "show version"] tt "json"))
  /\ (names_nothing silent_switch ["show version"]
      /\ send_cmds silent_switch 3 ["show version"] 0 "json"
         = Raises RecursionError
      /\ send_cmds_conn silent_switch 3 ["show version"] 0 "json" = 3).
Proof.
  split; [reflexivity|]. split.
  - split; [exact lab_switch_names_pending|]. split; [simpl; lia|].
    exact (proj1 (send_cmds_ends_by_narrowing_or_recursion_limit lab_switch
                    3 ["show foo"; "show version"] tt "json" Json eq_refl)
             lab_switch_names_pending ltac:(simpl; lia)).
  - split; [exact silent_switch_show_version|].
    exact (proj2 (proj2 (send_cmds_ends_by_narrowing_or_recursion_limit
                           silent_switch 3 ["show version"] 0 "json" Json eq_refl))
             silent_switch_show_version).
Defined.

(** C2 (as stated, refuted).  A device whose error message names no
    command: the list is never narrowed and the same request is made
    once per nested call; whatever the room for nested calls, the
    retries end neither with an accepted call nor with an exhausted
    list, but with [RecursionError]. *)
Lemma send_cmds_stopped_only_by_the_recursion_limit :
  remove_cmd "Socket error during eAPI connection: timed out" ["show version"]
  = ["show version"]
  /\ (forall fuel,
        send_cmds silent_switch fuel ["show version"] 0 "json"
        = Raises RecursionError
        /\ send_cmds_conn silent_switch fuel ["show version"] 0 "json" = fuel)
  /\ ~ (exists fuel,
          returns (send_cmds silent_switch fuel ["show version"] 0 "json")).
Proof.
  assert (H : forall fuel,
            send_cmds silent_switch fuel ["show version"] 0 "json"
            = Raises RecursionError).
  { exact (fun fuel => send_cmds_unnamed silent_switch ["show version"] "json" Json
                         silent_switch_show_version eq_refl fuel 0). }
  split; [vm_compute; reflexivity|]. split.
  - intros fuel. split; [exact (H fuel)|].
    rewrite (send_cmds_conn_unnamed silent_switch ["show version"] "json" Json
               silent_switch_show_version eq_refl fuel 0).
    change (fun st : nat => fst (silent_switch st ["show version"] Json)) with S.
    rewrite iter_S. lia.
  - intros [fuel [r Hr]]. rewrite (H fuel) in Hr. discriminate Hr.
Qed.

(** C5 at the lab switch: [show foo] is rejected, one narrowing
    recursion happens, and the one result is that of [show version]. *)
Lemma send_cmds_results_aligned_witness :
  answers_aligned lab_switch (fun en c r => r = answer en c)
  /\ send_cmds lab_switch 3 ["show foo"; "show version"] tt "text"
     = Returns (tt, ([answer Text "show version"], ["show version"]))
  /\ exists en,
       encoding_of "text" = Some en /\
       (exists conn0, lab_switch conn0 ["show version"] en
                      = (tt, inl [answer Text "show version"])) /\
       length [answer Text "show version"] = length ["show version"] /\
       (forall i c, ["show version"] !! i = Some c ->
                    exists r, [answer Text "show version"] !! i = Some r
                              /\ r = answer en c).
Proof.
  split; [exact lab_switch_aligned|].
  split; [vm_compute; reflexivity|].
  apply (send_cmds_results_aligned lab_switch (fun en c r => r = answer en c)
           3 ["show foo"; "show version"] tt "text" tt);
    [exact lab_switch_aligned | vm_compute; reflexivity].
Defined.

End LabSwitch.

(** ** The memory test *)

Section MemoryFacts.

Import Memory.

Variable parse_float : string -> option float.

(** C9.  With [memTotal = 1000] and [memFree = 500] in the structured
    output, whatever else it holds, and [expected_output = 70], the test
    computes [actual_output = 50.0] and [test_result = True]. *)
Theorem memory_scenario (d : gmap string value) :
  d !! "memTotal" = Some (VInt 1000) ->
  d !! "memFree" = Some (VInt 500) ->
  memory_utilization parse_float (VDict d) (VInt 70)
  = Returns (50%float, true).
Proof.
  intros Ht Hf. unfold memory_utilization, getitem.
  rewrite Ht, Hf. vm_compute. reflexivity.
Qed.

End MemoryFacts.

(** C9 at the structured output of the scenario. *)
Lemma memory_scenario_witness :
  (<["memTotal" := VInt 1000]> (<["memFree" := VInt 500]> (∅ : gmap string value)))
    !! "memTotal" = Some (VInt 1000)
  /\ (<["memTotal" := VInt 1000]> (<["memFree" := VInt 500]> (∅ : gmap string value)))
       !! "memFree" = Some (VInt 500)
  /\ Memory.memory_utilization (fun _ => None) Examples.version_json (VInt 70)
     = Returns (50%float, true).
Proof.
  split; [reflexivity|]. split; [reflexivity|].
  apply (memory_scenario (fun _ => None)); reflexivity.
Defined.

(** ** The single command path *)

Section ShowCmdFacts.

Import Dispatcher ShowCmd.

Context {St : Type}.
Variable run_commands : St -> list string -> encoding -> St * (list value + string).
Variable enable : St -> string -> St * (value + string).
Variable py_str : value -> string.

(** [export_logs] talks to the file only: no device call, no wait. *)
Lemma export_logs_trace (test_name hostname : string) (output : value)
    (defs : definitions) (s s' : env (St := St)) (o : outcome unit) :
  export_logs py_str test_name hostname output defs s = (s', o) ->
  e_conn s' = e_conn s
  /\ exists rest, e_trace s' = e_trace s ++ rest
                  /\ run_count rest = 0 /\ slept rest = 0%Z.
Proof.
  unfold export_logs, mbind, lift, try_except_base, raise, getitem.
  destruct (parameters defs !! "show_log") as [v|].
  2:{ intros [= <- <-]. split; [reflexivity|]. exists []. rewrite app_nil_r. auto. }
  assert (Hsame : forall x : outcome unit, (s, x) = (s', o) ->
            e_conn s' = e_conn s
            /\ exists rest, e_trace s' = e_trace s ++ rest
                            /\ run_count rest = 0 /\ slept rest = 0%Z).
  { intros x [= <- <-]. split; [reflexivity|]. exists []. rewrite app_nil_r. auto. }
  destruct v; try (apply Hsame).
  destruct (append_file _ _ (e_fs s)) as [fs'|]; [|apply Hsame].
  intros [= <- <-]. simpl. split; [reflexivity|].
  eexists. split; [reflexivity|]. auto.
Qed.

(** C8.  After a successful [enable], when the first text request raises,
    [return_show_cmd] waits one second and asks once more: the trace
    continues with exactly the first request, the wait of one second and
    the second request, and nothing after them is a request or a wait.
    When the second request raises as well, its error is what the
    function raises, the log file is not touched, and nothing follows. *)
Theorem return_show_cmd_retries_once
    (show_cmd dut_name test_name : string) (defs : definitions)
    (s : env (St := St)) (c1 c2 : St) (out : value) (e1 : string) :
  enable (e_conn s) show_cmd = (c1, inl out) ->
  run_commands c1 [show_cmd] Text = (c2, inr e1) ->
  exists s' o rest,
    return_show_cmd run_commands enable py_str show_cmd dut_name test_name defs s
    = (s', o)
    /\ e_trace s' = e_trace s ++ [EvEnable show_cmd;
                                  EvRunCommands [show_cmd] Text;
                                  EvSleep 1;
                                  EvRunCommands [show_cmd] Text] ++ rest
    /\ run_count rest = 0 /\ slept rest = 0%Z
    /\ (forall c3 e2,
          run_commands c2 [show_cmd] Text = (c3, inr e2) ->
          o = Raises (ConnError e2) /\ rest = []
          /\ e_conn s' = c3 /\ e_fs s' = e_fs s).
Proof.
  intros Hen Hrun1.
  unfold return_show_cmd, mbind at 1, call_enable. rewrite Hen.
  unfold mbind at 1, try_except, mbind at 1, call_run_commands at 1.
  cbn [e_conn e_fs e_trace]. rewrite Hrun1. cbn [is_Exception].
  unfold mbind at 1, sleep, emit, modify. cbn [e_conn e_fs e_trace].
  unfold mbind at 1, call_run_commands. cbn [e_conn e_fs e_trace].
  destruct (run_commands c2 [show_cmd] Text) as [c3 [res|e2]] eqn:Hrun2.
  - unfold mbind at 1, lift, ret.
    destruct (first_output res) as [raw|] eqn:Hfo.
    + unfold mbind.
      match goal with
      | |- context [export_logs ?p ?t ?h ?o ?d ?st] =>
          destruct (export_logs p t h o d st) as [s2 o2] eqn:Hlog
      end.
      apply export_logs_trace in Hlog as (Hc & rest & Htr & Hrc & Hsl).
      cbn [e_conn e_fs e_trace] in *.
      destruct o2 as [[]|];
        (exists s2; eexists; exists rest;
         split; [reflexivity|];
         split; [rewrite Htr, <- !app_assoc; reflexivity|];
         split; [exact Hrc|]; split; [exact Hsl|];
         intros c3' e2' Heq; discriminate Heq).
    + eexists. eexists. exists [].
      split; [reflexivity|].
      split; [cbn [e_trace]; rewrite <- !app_assoc; reflexivity|].
      split; [reflexivity|]. split; [reflexivity|].
      intros c3' e2' Heq. discriminate Heq.
  - eexists. eexists. exists [].
    split; [reflexivity|].
    split; [cbn [e_trace]; rewrite <- !app_assoc; reflexivity|].
    split; [reflexivity|]. split; [reflexivity|].
    intros c3' e2' Heq. injection Heq as <- <-. auto.
Qed.

End ShowCmdFacts.

(** C8 at a switch that refuses two text requests in a row: the second
    error, not the first, is what the caller gets. *)
Lemma return_show_cmd_retries_once_witness :
  let s := {| ShowCmd.e_conn := 2; ShowCmd.e_fs := Examples.empty_fs;
              ShowCmd.e_trace := [] |} in
  Examples.busy_enable 2 "show version"
  = (2, inl (VList [VDict (<["result" := Examples.answer Dispatcher.Json "show version"]> ∅)]))
  /\ Examples.busy_switch 2 ["show version"] Dispatcher.Text = (1, inr "session busy")
  /\ exists s' o rest,
       ShowCmd.return_show_cmd Examples.busy_switch Examples.busy_enable
         Examples.str_scalar "show version" "DSR01" "test_if_files_on_"
         Examples.lab_defs s = (s', o)
       /\ ShowCmd.e_trace s'
          = ShowCmd.e_trace s
            ++ [ShowCmd.EvEnable "show version";
                ShowCmd.EvRunCommands ["show version"] Dispatcher.Text;
                ShowCmd.EvSleep 1;
                ShowCmd.EvRunCommands ["show version"] Dispatcher.Text] ++ rest
       /\ ShowCmd.run_count rest = 0 /\ ShowCmd.slept rest = 0%Z
       /\ (forall c3 e2,
             Examples.busy_switch 1 ["show version"] Dispatcher.Text = (c3, inr e2) ->
             o = Raises (ConnError e2) /\ rest = []
             /\ ShowCmd.e_conn s' = c3 /\ ShowCmd.e_fs s' = ShowCmd.e_fs s).
Proof.
  intros s. split; [reflexivity|]. split; [reflexivity|].
  apply (return_show_cmd_retries_once Examples.busy_switch Examples.busy_enable
           Examples.str_scalar "show version" "DSR01" "test_if_files_on_"
           Examples.lab_defs s 2 1
           (VList [VDict (<["result" := Examples.answer Dispatcher.Json "show version"]> ∅)])
           "session busy"); reflexivity.
Defined.

(** ** The Definitions structure and the parameter lookup *)

Section DefsFacts.

Import Recorder.

Lemma deref_setitem_eq (r : case_ref) (key : string) (v : value) (d : definitions) :
  deref (setitem r key v d) r = insert key v <$> deref d r.
Proof.
  unfold deref, setitem. simpl.
  rewrite list_lookup_alter_eq.
  destruct (test_suites d !! suite_ix r) as [s|]; simpl; [|reflexivity].
  apply list_lookup_alter_eq.
Qed.

Lemma deref_setitem_ne (r r' : case_ref) (key : string) (v : value) (d : definitions) :
  r' <> r -> deref (setitem r key v d) r' = deref d r'.
Proof.
  intros Hne. unfold deref, setitem. simpl.
  destruct (decide (suite_ix r = suite_ix r')) as [Hs|Hs].
  - rewrite <- Hs, list_lookup_alter_eq.
    destruct (test_suites d !! suite_ix r) as [s|]; simpl; [|reflexivity].
    apply list_lookup_alter_ne. intros Hc. apply Hne.
    destruct r, r'; simpl in *; congruence.
  - rewrite list_lookup_alter_ne by exact Hs. reflexivity.
Qed.

Lemma names_setitem (r : case_ref) (key : string) (v : value) (d : definitions) :
  s_name <$> test_suites (setitem r key v d) = s_name <$> test_suites d.
Proof.
  unfold setitem. simpl. apply list_eq. intros i.
  rewrite !list_lookup_fmap.
  destruct (decide (suite_ix r = i)) as [<-|Hi].
  - rewrite list_lookup_alter_eq. destruct (test_suites d !! suite_ix r); reflexivity.
  - rewrite list_lookup_alter_ne by exact Hi. reflexivity.
Qed.

Lemma same_except_refl (r : case_ref) (keys : gset string) (d : definitions) :
  same_except r keys d d.
Proof.
  split; [reflexivity|]. split; [reflexivity|]. split; [reflexivity|].
  split; [reflexivity|]. split; [reflexivity|].
  intros m m' k H1 H2 _. congruence.
Qed.

Lemma same_except_trans (r : case_ref) (keys : gset string) (d1 d2 d3 : definitions) :
  same_except r keys d1 d2 -> same_except r keys d2 d3 -> same_except r keys d1 d3.
Proof.
  intros (Hp & Hd & Hn & Ho & Hs & Hk) (Hp' & Hd' & Hn' & Ho' & Hs' & Hk').
  split; [congruence|]. split; [congruence|]. split; [congruence|].
  split; [intros r' Hr; rewrite Ho', Ho; auto|].
  split; [etransitivity; [exact Hs'|exact Hs]|].
  intros m m'' k H1 H3 Hkk.
  destruct (proj2 Hs (ltac:(eauto) : is_Some (deref d1 r))) as [m' H2].
  rewrite (Hk' m' m'' k H2 H3 Hkk). apply (Hk m m' k H1 H2 Hkk).
Qed.

Lemma same_except_mono (r : case_ref) (keys keys' : gset string) (d d' : definitions) :
  keys ⊆ keys' -> same_except r keys d d' -> same_except r keys' d d'.
Proof.
  intros Hsub (Hp & Hd & Hn & Ho & Hs & Hk).
  split; [exact Hp|]. split; [exact Hd|]. split; [exact Hn|].
  split; [exact Ho|]. split; [exact Hs|].
  intros m m' k H1 H2 Hkk. apply (Hk m m' k H1 H2).
  intros Hin. apply Hkk, Hsub, Hin.
Qed.

Lemma same_except_setitem (r : case_ref) (keys : gset string) (key : string)
    (v : value) (d : definitions) :
  key ∈ keys -> same_except r keys d (setitem r key v d).
Proof.
  intros Hin.
  split; [reflexivity|]. split; [reflexivity|].
  split; [apply names_setitem|].
  split; [intros r' Hr; apply deref_setitem_ne, Hr|].
  split.
  - rewrite deref_setitem_eq. split.
    + intros [m H]. destruct (deref d r); [eauto|discriminate].
    + intros [m ->]. simpl. eauto.
  - intros m m' k H1 H2 Hk. rewrite deref_setitem_eq, H1 in H2.
    injection H2 as <-. apply lookup_insert_ne. intros ->. contradiction.
Qed.


Lemma eq_str_true (n : value) (s : string) : eq_str n s = true <-> n = VStr s.
Proof.
  destruct n; simpl; try (split; [discriminate|intros [=]]).
  rewrite String.eqb_eq. split; [congruence|intros [=]; assumption].
Qed.

Lemma first_suite_Some (ts : string) (suites : list suite) (i : nat) (s : suite) :
  first_suite ts suites = Some (i, s) ->
  suites !! i = Some s /\ s_name s = ts.
Proof.
  revert i. induction suites as [|s0 suites IH]; intros i; simpl; [discriminate|].
  destruct (String.eqb_spec (s_name s0) ts) as [Heq|Hne].
  - intros [= <- <-]. auto.
  - destruct (first_suite ts suites) as [[j s']|]; simpl; [|discriminate].
    intros [= <- <-]. apply IH. reflexivity.
Qed.

Lemma first_suite_None (ts : string) (suites : list suite) :
  (forall s, s ∈ suites -> s_name s <> ts) -> first_suite ts suites = None.
Proof.
  induction suites as [|s0 suites IH]; intros Hno; simpl; [reflexivity|].
  destruct (String.eqb_spec (s_name s0) ts) as [Heq|Hne].
  - exfalso. apply (Hno s0); [left|exact Heq].
  - rewrite IH; [reflexivity|]. intros s Hs. apply Hno. right. exact Hs.
Qed.

Lemma first_suite_first (ts : string) (suites : list suite) (i : nat) (s : suite) :
  suites !! i = Some s -> s_name s = ts ->
  (forall j s', j < i -> suites !! j = Some s' -> s_name s' <> ts) ->
  first_suite ts suites = Some (i, s).
Proof.
  revert i. induction suites as [|s0 suites IH]; intros i Hi Hn Hfirst; [discriminate|].
  simpl. destruct i as [|i]; simpl in Hi.
  - injection Hi as ->. rewrite (proj2 (String.eqb_eq _ _) Hn). reflexivity.
  - destruct (String.eqb_spec (s_name s0) ts) as [Heq|Hne].
    + exfalso. apply (Hfirst 0 s0); [lia|reflexivity|exact Heq].
    + rewrite (IH i Hi Hn); [reflexivity|].
      intros j s' Hj Hl. apply (Hfirst (S j) s'); [lia|exact Hl].
Qed.

Lemma first_case_Some (tc : string) (cases : list (gmap string value)) (i : nat) :
  first_case tc cases = Returns (Some i) ->
  exists m, cases !! i = Some m /\ m !! "name" = Some (VStr tc).
Proof.
  revert i. induction cases as [|m0 cases IH]; intros i; simpl; [discriminate|].
  destruct (m0 !! "name") as [n|] eqn:En; [|discriminate].
  destruct (first_case tc cases) as [r|]; simpl; try discriminate.
  destruct (eq_str n tc) eqn:Eq.
  - intros [= <-]. exists m0. apply eq_str_true in Eq as ->. auto.
  - destruct r as [j|]; simpl; [|discriminate].
    intros [= <-]. apply IH. reflexivity.
Qed.

Lemma first_case_None (tc : string) (cases : list (gmap string value)) :
  (forall m, m ∈ cases -> exists n, m !! "name" = Some n /\ n <> VStr tc) ->
  first_case tc cases = Returns None.
Proof.
  induction cases as [|m0 cases IH]; intros Hno; simpl; [reflexivity|].
  destruct (Hno m0) as (n & -> & Hne); [left|].
  rewrite IH; [|intros m Hm; apply Hno; right; exact Hm]. simpl.
  destruct (eq_str n tc) eqn:Eq; [|reflexivity].
  apply eq_str_true in Eq. contradiction.
Qed.

(** C10.  [get_parameters] (and [TestOps._get_parameters], the same
    body) returns only a reference to a case named [test_case] inside a
    suite named by the last path component of [test_suite]; when no
    suite has that name, and when the first suite of that name has no
    case of that name, it raises [IndexError], which nothing catches and
    which is not the exit of the process that configuration errors
    take. *)
Theorem get_parameters_lookup (caller test_suite test_case : string)
    (defs : definitions) :
  let tc := if String.eqb test_case "" then caller else test_case in
  let ts := last_component test_suite in
  (forall defs' r,
      get_parameters caller test_suite test_case defs = (defs', Returns r) ->
      exists s m,
        test_suites defs !! suite_ix r = Some s /\ s_name s = ts
        /\ s_testcases s !! case_ix r = Some m
        /\ m !! "name" = Some (VStr tc))
  /\ ((forall s, s ∈ test_suites defs -> s_name s <> ts) ->
      get_parameters caller test_suite test_case defs = (defs, Raises IndexError))
  /\ (forall i s,
        test_suites defs !! i = Some s -> s_name s = ts ->
        (forall j s', j < i -> test_suites defs !! j = Some s' -> s_name s' <> ts) ->
        (forall m, m ∈ s_testcases s ->
                   exists n, m !! "name" = Some n /\ n <> VStr tc) ->
        get_parameters caller test_suite test_case defs = (defs, Raises IndexError)).
Proof.
  intros tc ts. unfold get_parameters. fold tc. fold ts.
  unfold mbind, get, lift, raise, ret, modify.
  split; [|split].
  - intros defs' r.
    destruct (first_suite ts (test_suites defs)) as [[si s]|] eqn:Es; [|discriminate].
    destruct (first_case tc (s_testcases s)) as [[ci|]|] eqn:Ec; try discriminate.
    intros [= <- <-]. simpl.
    apply first_suite_Some in Es as [Hs Hn].
    apply first_case_Some in Ec as (m & Hm & Hname).
    exists s, m. auto.
  - intros Hno. rewrite (first_suite_None ts _ Hno). reflexivity.
  - intros i s Hi Hn Hfirst Hno.
    rewrite (first_suite_first ts _ i s Hi Hn Hfirst).
    rewrite (first_case_None tc _ Hno). reflexivity.
Qed.

End DefsFacts.

(** ** The result recorder *)

Section RecorderFacts.

Import Recorder.

Context {St : Type}.
Variable yaml_dump : gmap string value -> string.
Variable py_str : value -> string.

Section Preserves.

Context (R : definitions -> definitions -> Prop).
Hypothesis R_refl : forall d, R d d.
Hypothesis R_trans : forall d1 d2 d3, R d1 d2 -> R d2 d3 -> R d1 d3.

Lemma preserves_fixed {A : Type} (m : M world A) :
  (forall w, w_defs (fst (m w)) = w_defs w) -> preserves R m.
Proof.
  intros H w w' o E. specialize (H w). rewrite E in H. simpl in H.
  rewrite H. apply R_refl.
Qed.

Lemma preserves_bind {A B : Type} (m : M world A) (k : A -> M world B) :
  preserves R m -> (forall a, preserves R (k a)) -> preserves R (mbind m k).
Proof.
  intros Hm Hk w w' o. unfold mbind.
  destruct (m w) as [w1 [a|]] eqn:E.
  - intros E'. eapply R_trans; [eapply Hm, E | eapply Hk, E'].
  - intros [= <- <-]. eapply Hm, E.
Qed.

Lemma preserves_param_set (r : case_ref) (key : string) (v : value) :
  (forall d, R d (setitem r key v d)) -> preserves R (param_set r key v).
Proof. intros H w w' o [= <- <-]. simpl. apply H. Qed.

Lemma preserves_param_get (r : case_ref) (key : string) :
  preserves R (param_get r key).
Proof.
  apply preserves_fixed. intros w. unfold param_get, mbind, get, lift, raise.
  destruct (deref (w_defs w) r); reflexivity.
Qed.

Lemma preserves_attr {A : Type} (name : string) (a : option A) :
  preserves R (attr name a).
Proof. apply preserves_fixed. intros w. destruct a; reflexivity. Qed.

Lemma preserves_export_yaml (path : string) (data : gmap string value) :
  preserves R (export_yaml yaml_dump path data).
Proof.
  apply preserves_fixed. intros w. unfold export_yaml.
  destruct (write_file _ _ _); reflexivity.
Qed.

Lemma preserves_write_results (self : testops (St := St)) :
  preserves R (write_results yaml_dump py_str self).
Proof.
  unfold write_results.
  apply preserves_bind; [apply preserves_param_get|]. intros ts.
  assert (Hraise : forall e, preserves R (raise e : M world unit)).
  { intros e. apply preserves_fixed. reflexivity. }
  destruct ts; try apply Hraise.
  apply preserves_bind; [apply preserves_param_get|]. intros d.
  apply preserves_bind; [apply preserves_param_get|]. intros n.
  apply preserves_bind; [apply preserves_fixed; reflexivity|]. intros w.
  destruct (deref (w_defs w) (test_parameters self)); [apply preserves_export_yaml|apply Hraise].
Qed.

End Preserves.

Lemma post_testcase_preserves (self : testops (St := St)) :
  preserves (same_except (test_parameters self) post_keys)
            (post_testcase yaml_dump py_str self).
Proof.
  pose proof (same_except_refl (test_parameters self) post_keys) as Hr.
  pose proof (same_except_trans (test_parameters self) post_keys) as Ht.
  assert (Hset : forall key v, key ∈ post_keys ->
            preserves (same_except (test_parameters self) post_keys)
                      (param_set (test_parameters self) key v)).
  { intros key v Hin. apply preserves_param_set. intros d.
    apply same_except_setitem, Hin. }
  unfold post_testcase.
  repeat first
    [ apply (preserves_param_get _ Hr)
    | apply (preserves_write_results _ Hr Ht)
    | apply (preserves_attr _ Hr)
    | apply Hset; unfold post_keys; set_solver
    | apply (preserves_bind _ Ht); [|intros ?]
    | match goal with
      | |- preserves _ (if ?b then _ else _) => destruct b
      end
    | apply (preserves_fixed _ Hr); reflexivity ].
Qed.


(** The Definitions structure [post_testcase] hands to [_write_results]. *)
Lemma post_testcase_run (self : testops (St := St)) (w : world)
    (tr ao : value) (m0 : gmap string value) :
  test_result self = Some tr -> actual_output self = Some ao ->
  deref (w_defs w) (test_parameters self) = Some m0 ->
  exists d1,
    post_testcase yaml_dump py_str self w
    = write_results yaml_dump py_str self {| w_defs := d1; w_fs := w_fs w |}
    /\ exists m1,
         deref d1 (test_parameters self) = Some m1
         /\ m1 !! "test_result" = Some tr
         /\ m1 !! "output_msg" = Some (VStr (output_msg self))
         /\ m1 !! "fail_reason"
            = Some (VStr (if truthy tr then "" else output_msg self)).
Proof.
  intros Etr Eao Hd. unfold post_testcase. rewrite Etr, Eao.
  unfold mbind, param_set, on_defs, modify, attr, ret. cbn [w_defs w_fs].
  unfold param_get, mbind, get, lift. cbn [w_defs w_fs].
  rewrite !deref_setitem_eq, Hd. cbn [fmap option_fmap option_map getitem].
  rewrite lookup_insert_ne by discriminate.
  rewrite lookup_insert_ne by discriminate.
  rewrite lookup_insert_ne by discriminate.
  rewrite lookup_insert_ne by discriminate.
  rewrite lookup_insert_ne by discriminate.
  rewrite lookup_insert_eq.
  destruct (truthy tr); cbn [negb w_defs w_fs].
  - eexists. split; [reflexivity|]. eexists.
    rewrite !deref_setitem_eq, Hd. split; [reflexivity|].
    repeat split; simplify_map_eq; reflexivity.
  - eexists. split; [reflexivity|]. eexists.
    rewrite !deref_setitem_eq, Hd. split; [reflexivity|].
    repeat split; simplify_map_eq; reflexivity.
Qed.

(** What a completed [_write_results] has done. *)
Lemma write_results_returns (self : testops (St := St)) (w w' : world) :
  write_results yaml_dump py_str self w = (w', Returns tt) ->
  exists m n d,
    deref (w_defs w) (test_parameters self) = Some m
    /\ m !! "name" = Some n /\ m !! "dut" = Some d
    /\ w_defs w' = w_defs w
    /\ files (w_fs w') = <[result_path (py_str n) (py_str d) := yaml_dump m]> (files (w_fs w)).
Proof.
  unfold write_results, param_get, mbind, get, lift, raise, getitem.
  destruct (deref (w_defs w) (test_parameters self)) as [m|] eqn:Hd;
    [|discriminate].
  destruct (m !! "test_suite") as [ts|]; [|discriminate].
  destruct ts; try discriminate.
  rewrite Hd.
  destruct (m !! "dut") as [d|] eqn:Edut; [|discriminate].
  rewrite Hd.
  destruct (m !! "name") as [n|] eqn:Ename; [|discriminate].
  rewrite Hd.
  unfold export_yaml, write_file.
  destruct (bool_decide _); [discriminate|].
  intros [= <-]. exists m, n, d. cbn [w_defs w_fs files set_files].
  repeat split; assumption || reflexivity.
Qed.

(** C3 (amended).  In every record [post_testcase] has written,
    [fail_reason] is the empty string when [test_result] is true, and is
    [output_msg] when [test_result] is false: a non-empty [fail_reason]
    comes with a false [test_result], and with a false [test_result]
    [fail_reason] is empty exactly when [output_msg] is.  The file holds
    the dump of that record. *)
Theorem post_testcase_fail_reason (self : testops (St := St)) (w w' : world) :
  post_testcase yaml_dump py_str self w = (w', Returns tt) ->
  exists m tr path,
    test_result self = Some tr
    /\ deref (w_defs w') (test_parameters self) = Some m
    /\ files (w_fs w') !! path = Some (yaml_dump m)
    /\ m !! "test_result" = Some tr
    /\ m !! "fail_reason" = Some (VStr (if truthy tr then "" else output_msg self)).
Proof.
  intros H.
  destruct (test_result self) as [tr|] eqn:Etr.
  2:{ unfold post_testcase in H. rewrite Etr in H.
      unfold mbind, param_set, on_defs, modify, attr, raise in H.
      cbn [w_defs w_fs] in H. discriminate H. }
  destruct (actual_output self) as [ao|] eqn:Eao.
  2:{ unfold post_testcase in H. rewrite Etr, Eao in H.
      unfold mbind, param_set, on_defs, modify, attr, raise, ret in H.
      cbn [w_defs w_fs] in H. discriminate H. }
  destruct (deref (w_defs w) (test_parameters self)) as [m0|] eqn:Hd.
  2:{ unfold post_testcase in H. rewrite Etr, Eao in H.
      unfold mbind, param_set, on_defs, modify, attr, ret in H.
      cbn [w_defs w_fs] in H.
      unfold param_get, mbind, get, lift in H. cbn [w_defs w_fs] in H.
      rewrite !deref_setitem_eq, Hd in H. discriminate H. }
  destruct (post_testcase_run self w tr ao m0 Etr Eao Hd)
    as (d1 & Hrun & m1 & Hd1 & Htr & _ & Hfr).
  rewrite Hrun in H.
  apply write_results_returns in H as (m & n & d & Hm & _ & _ & Hdefs & Hfiles).
  cbn [w_defs w_fs] in *. rewrite Hd1 in Hm. injection Hm as <-.
  exists m1, tr, (result_path (py_str n) (py_str d)).
  rewrite Hdefs, Hfiles, lookup_insert_eq. auto.
Qed.

(** What [get_parameters] leaves of the Definitions structure. *)
Lemma get_parameters_frame (caller test_suite test_case : string)
    (d d' : definitions) (o : outcome case_ref) :
  get_parameters caller test_suite test_case d = (d', o) ->
  match o with
  | Returns r => same_except r lookup_keys d d'
  | _ => d' = d
  end.
Proof.
  unfold get_parameters, mbind, get, lift, raise, ret, modify.
  destruct (first_suite _ (test_suites d)) as [[si s]|]; [|intros [= <- <-]; reflexivity].
  destruct (first_case _ (s_testcases s)) as [[ci|]|];
    try (intros [= <- <-]; reflexivity).
  intros [= <- <-]. apply same_except_setitem. unfold lookup_keys. set_solver.
Qed.

(** C6 (amended).  Parameter lookup and result recording change the
    Definitions structure only inside the mapping of the test case they
    work on: the lookup assigns [test_suite] there, and [post_testcase]
    assigns [comment], [test_result], [output_msg], [expected_output],
    [actual_output], [dut] and [fail_reason]; the parameters, the
    devices, the suites' names, every other test case and every other
    key of that mapping are as they were, however the call ends. *)
Theorem definitions_changed_only_in_case :
  (forall caller test_suite test_case d d' o,
      get_parameters caller test_suite test_case d = (d', o) ->
      match o with
      | Returns r => same_except r lookup_keys d d'
      | _ => d' = d
      end)
  /\ (forall (self : testops (St := St)) w w' o,
        post_testcase yaml_dump py_str self w = (w', o) ->
        same_except (test_parameters self) post_keys (w_defs w) (w_defs w')).
Proof.
  split.
  - apply get_parameters_frame.
  - intros self w w' o H. exact (post_testcase_preserves self w w' o H).
Qed.

(** C7.  [_write_results] writes the dump of the test case's mapping to
    [../reports/results/result-<name>-<dut>.yml], a path fixed by the
    name of the test case and of the device; a second write to the path
    of a written file leaves what the second write alone would have
    left, whatever the first one wrote, and nothing new when it writes
    the same data. *)
Theorem result_file_overwritten :
  (forall s, py_str (VStr s) = s) ->
  (forall (self : testops (St := St)) w m ts n d,
      deref (w_defs w) (test_parameters self) = Some m ->
      m !! "test_suite" = Some (VStr ts) ->
      m !! "name" = Some (VStr n) ->
      m !! "dut" = Some (VStr d) ->
      write_results yaml_dump py_str self w
      = export_yaml yaml_dump
          ("../reports/results/result-" ++ n ++ "-" ++ d ++ ".yml")%string m w)
  /\ (forall path d1 d2 w w1,
        export_yaml yaml_dump path d1 w = (w1, Returns tt) ->
        exists w2,
          export_yaml yaml_dump path d2 w1 = (w2, Returns tt)
          /\ export_yaml yaml_dump path d2 w = (w2, Returns tt)
          /\ files (w_fs w2) !! path = Some (yaml_dump d2)
          /\ (d1 = d2 -> w2 = w1)).
Proof.
  intros Hstr. split.
  - intros self w m ts n d Hd Hts Hn Hdut.
    unfold write_results, param_get, mbind, get, lift, raise, getitem.
    rewrite Hd, Hts. rewrite Hd, Hdut. rewrite Hd, Hn. rewrite Hd.
    rewrite !Hstr. reflexivity.
  - intros path d1 d2 w w1. unfold export_yaml, write_file.
    destruct (bool_decide (path ∈ denied (w_fs w))) eqn:Eden; [discriminate|].
    intros [= <-]. cbn [w_fs w_defs denied set_files files]. rewrite Eden.
    eexists. split; [reflexivity|]. cbn [w_fs w_defs denied set_files files].
    split; [rewrite insert_insert_eq; reflexivity|].
    split; [apply lookup_insert_eq|].
    intros ->. rewrite insert_insert_eq. reflexivity.
Qed.

(** What [__init__] leaves in the object: no comment, no message, and
    neither a result nor an actual output. *)
Lemma init_fresh (caller test_suite : string) (d : FanOut.dut (St := St))
    (w w' : world) (self : testops (St := St)) :
  init caller test_suite d w = (w', Returns self) ->
  comment self = "" /\ output_msg self = ""
  /\ test_result self = None /\ actual_output self = None
  /\ dut_name self = FanOut.name d.
Proof.
  unfold init, mbind, ret.
  destruct (on_defs _ w) as [w1 [tp|]]; try discriminate.
  destruct (param_get tp "expected_output" w1) as [w2 [eo|]]; try discriminate.
  destruct (lift _ w2) as [w3 [il|]]; try discriminate.
  destruct (param_get tp "show_cmd" w3) as [w4 [sc|]]; try discriminate.
  match goal with
  | |- context [match ?m w4 with _ => _ end] =>
      destruct (m w4) as [w5 [txt|]]; try discriminate
  end.
  intros [= _ <-]. auto.
Qed.

End RecorderFacts.

(** ** The recorder at the lab *)

Section LabRecords.

Import Recorder Examples.

Lemma lab_lookup :
  get_parameters "test_memory_utilization_on_" memory_suite "" lab_defs
  = (lab_defs_looked_up, Returns memory_case).
Proof. vm_compute. reflexivity. Qed.

(** The object the memory test builds at the lab is [fresh_ops], and
    building it leaves the definitions as the lookup left them. *)
Lemma lab_init :
  init "test_memory_utilization_on_" memory_suite lab_dut
       {| w_defs := lab_defs; w_fs := empty_fs |}
  = (lab_world, Returns fresh_ops).
Proof. vm_compute. reflexivity. Qed.

Lemma lab_recorded :
  post_testcase dump_flat str_scalar failed_ops lab_world
  = (recorded_world, Returns tt).
Proof. vm_compute. reflexivity. Qed.

Lemma lab_recorded_deref :
  deref (w_defs recorded_world) memory_case = Some failed_record.
Proof. vm_compute. reflexivity. Qed.

(** C10 at the lab's definitions: the memory test case is found; no
    suite is named [test_filesystem.py]; the memory suite has no case
    [test_cpu_on_]. *)
Lemma get_parameters_lookup_witness :
  (get_parameters "test_memory_utilization_on_" memory_suite "" lab_defs
   = (lab_defs_looked_up, Returns memory_case)
   /\ exists s m,
        test_suites lab_defs !! suite_ix memory_case = Some s
        /\ s_name s = "test_memory.py"
        /\ s_testcases s !! case_ix memory_case = Some m
        /\ m !! "name" = Some (VStr "test_memory_utilization_on_"))
  /\ ((forall s, s ∈ test_suites lab_defs -> s_name s <> "test_filesystem.py")
      /\ get_parameters "test_if_files_on_"
           "/vane/bin/tests/filesystem/test_filesystem.py" "test_if_files_on_"
           lab_defs
         = (lab_defs, Raises IndexError))
  /\ ((forall m, m ∈ [memory_params] ->
                 exists n, m !! "name" = Some n /\ n <> VStr "test_cpu_on_")
      /\ get_parameters "test_cpu_on_" memory_suite "test_cpu_on_" lab_defs
         = (lab_defs, Raises IndexError)).
Proof.
  assert (Hnone : forall s, s ∈ test_suites lab_defs ->
                            s_name s <> "test_filesystem.py").
  { intros s Hs. unfold lab_defs in Hs. cbn [test_suites] in Hs.
    apply elem_of_cons in Hs as [->|Hs]; [discriminate|].
    apply elem_of_cons in Hs as [->|Hs]; [discriminate|].
    inversion Hs. }
  assert (Hcase : forall m, m ∈ [memory_params] ->
                    exists n, m !! "name" = Some n /\ n <> VStr "test_cpu_on_").
  { intros m Hm. apply list_elem_of_singleton in Hm as ->.
    exists (VStr "test_memory_utilization_on_"). split; [reflexivity|discriminate]. }
  split; [|split].
  - split; [exact lab_lookup|].
    exact (proj1 (get_parameters_lookup "test_memory_utilization_on_"
                    memory_suite "" lab_defs)
                 lab_defs_looked_up memory_case lab_lookup).
  - split; [exact Hnone|].
    exact (proj1 (proj2 (get_parameters_lookup "test_if_files_on_"
                    "/vane/bin/tests/filesystem/test_filesystem.py"
                    "test_if_files_on_" lab_defs)) Hnone).
  - split; [exact Hcase|].
    refine (proj2 (proj2 (get_parameters_lookup "test_cpu_on_" memory_suite
                    "test_cpu_on_" lab_defs)) 0
              {| s_name := "test_memory.py"; s_testcases := [memory_params] |}
              eq_refl eq_refl _ Hcase).
    intros j s' Hj. lia.
Defined.


(** C3 (as stated, refuted).  A test case that sets a false result and
    leaves [output_msg] as [__init__] set it: the record written has a
    false [test_result] and an empty [fail_reason]. *)
Lemma failed_result_with_empty_fail_reason :
  exists w' m,
    post_testcase dump_flat str_scalar failed_ops lab_world = (w', Returns tt)
    /\ deref (w_defs w') memory_case = Some m
    /\ m !! "test_result" = Some (VBool false)
    /\ m !! "fail_reason" = Some (VStr "")
    /\ ~ (m !! "fail_reason" = Some (VStr "")
          <-> m !! "test_result" = Some (VBool true)).
Proof.
  exists recorded_world, failed_record.
  split; [exact lab_recorded|]. split; [exact lab_recorded_deref|].
  split; [reflexivity|]. split; [reflexivity|].
  intros [H _]. specialize (H eq_refl). discriminate H.
Qed.

(** C3: the amended statement at that test case. *)
Lemma post_testcase_fail_reason_witness :
  post_testcase dump_flat str_scalar failed_ops lab_world
  = (recorded_world, Returns tt)
  /\ exists m tr path,
       test_result failed_ops = Some tr
       /\ deref (w_defs recorded_world) (test_parameters failed_ops) = Some m
       /\ files (w_fs recorded_world) !! path = Some (dump_flat m)
       /\ m !! "test_result" = Some tr
       /\ m !! "fail_reason"
          = Some (VStr (if truthy tr then "" else output_msg failed_ops)).
Proof.
  split; [exact lab_recorded|].
  exact (post_testcase_fail_reason dump_flat str_scalar failed_ops lab_world
           recorded_world lab_recorded).
Defined.

(** C6 (as stated, refuted).  The lookup itself writes a key that is
    none of comment, result and fail_reason: [test_suite]. *)
Lemma get_parameters_assigns_test_suite :
  exists d' r,
    get_parameters "test_memory_utilization_on_" memory_suite "" lab_defs
    = (d', Returns r)
    /\ ~ same_except r documented_keys lab_defs d'.
Proof.
  exists lab_defs_looked_up, memory_case. split; [exact lab_lookup|].
  intros (_ & _ & _ & _ & _ & Hk).
  assert (H1 : deref lab_defs memory_case = Some memory_params) by reflexivity.
  assert (H2 : deref lab_defs_looked_up memory_case
               = Some (<["test_suite" := VStr "test_memory.py"]> memory_params))
    by (vm_compute; reflexivity).
  specialize (Hk _ _ "test_suite" H1 H2).
  rewrite lookup_insert_eq in Hk.
  assert (Hnot : "test_suite" ∉ documented_keys).
  { apply (bool_decide_unpack _). vm_compute. exact I. }
  specialize (Hk Hnot). discriminate Hk.
Qed.

(** C6: the amended statement at the lab's definitions. *)
Lemma definitions_changed_only_in_case_witness :
  (get_parameters "test_memory_utilization_on_" memory_suite "" lab_defs
   = (lab_defs_looked_up, Returns memory_case)
   /\ same_except memory_case lookup_keys lab_defs lab_defs_looked_up)
  /\ (post_testcase dump_flat str_scalar failed_ops lab_world
      = (recorded_world, Returns tt)
      /\ same_except (test_parameters failed_ops) post_keys
                     (w_defs lab_world) (w_defs recorded_world)).
Proof.
  split.
  - split; [exact lab_lookup|].
    exact (proj1 (definitions_changed_only_in_case (St := unit) dump_flat str_scalar)
             _ _ _ _ _ _ lab_lookup).
  - split; [exact lab_recorded|].
    exact (proj2 (definitions_changed_only_in_case (St := unit) dump_flat str_scalar)
             _ _ _ _ lab_recorded).
Defined.

(** C7 at the lab: the path of the memory test's record, and a record
    written over another one. *)
Lemma result_file_overwritten_witness :
  (forall s, str_scalar (VStr s) = s)
  /\ ((deref (w_defs recorded_world) (test_parameters failed_ops) = Some failed_record
       /\ failed_record !! "test_suite" = Some (VStr "test_memory.py")
       /\ failed_record !! "name" = Some (VStr "test_memory_utilization_on_")
       /\ failed_record !! "dut" = Some (VStr "DSR01"))
      /\ write_results dump_flat str_scalar failed_ops recorded_world
         = export_yaml dump_flat
             "../reports/results/result-test_memory_utilization_on_-DSR01.yml"
             failed_record recorded_world)
  /\ (export_yaml dump_flat "../reports/results/result-t-DSR01.yml"
        memory_params lab_world
      = (fst (export_yaml dump_flat "../reports/results/result-t-DSR01.yml"
                memory_params lab_world), Returns tt)
      /\ exists w2,
           export_yaml dump_flat "../reports/results/result-t-DSR01.yml" failed_record
             (fst (export_yaml dump_flat "../reports/results/result-t-DSR01.yml"
                     memory_params lab_world))
           = (w2, Returns tt)
           /\ export_yaml dump_flat "../reports/results/result-t-DSR01.yml"
                failed_record lab_world = (w2, Returns tt)
           /\ files (w_fs w2) !! "../reports/results/result-t-DSR01.yml"
              = Some (dump_flat failed_record)
           /\ (memory_params = failed_record ->
               w2 = fst (export_yaml dump_flat "../reports/results/result-t-DSR01.yml"
                           memory_params lab_world))).
Proof.
  pose proof (result_file_overwritten (St := unit) dump_flat str_scalar
                (fun s => eq_refl)) as [Hpath Hover].
  split; [intros s; reflexivity|]. split.
  - split.
    + split; [exact lab_recorded_deref|]. repeat split; reflexivity.
    + apply (Hpath failed_ops recorded_world failed_record "test_memory.py"
               "test_memory_utilization_on_" "DSR01");
        [exact lab_recorded_deref|reflexivity|reflexivity|reflexivity].
  - split; [reflexivity|].
    apply (Hover _ memory_params failed_record lab_world). reflexivity.
Defined.

End LabRecords.

(** ** The fan-out *)

Section FanOutFacts.

#[local] Set Warnings "-clear-no-such-hyp".

Import Dispatcher FanOut.

Context {St : Type}.
Variable run_commands : St -> list string -> encoding -> St * (list value + string).
Variable connect_to : string -> St.

Lemma list_in_true (c : string) (l : list string) :
  list_in c l = true -> c ∈ l.
Proof. unfold list_in. apply bool_decide_eq_true_1. Qed.

Lemma json_entry_returns (jl : list value) (jc : list string) (c : string) :
  length jl = length jc -> returns (json_entry jl jc c).
Proof.
  intros Hlen. unfold json_entry.
  destruct (list_in c jc) eqn:Hin; [|eexists; reflexivity].
  apply list_in_true in Hin.
  destruct (list_index_elem c jc Hin) as [k Hk]. rewrite Hk.
  apply list_index_Some, lookup_lt_Some in Hk.
  destruct (lookup_lt_is_Some_2 jl k) as [v Hv]; [lia|].
  rewrite Hv. eexists. reflexivity.
Qed.

Lemma text_entry_returns (tl : list value) (tc : list string) (c : string) :
  Forall2 (answer_shape Text) tc tl -> returns (text_entry tl tc c).
Proof.
  intros HF. unfold text_entry.
  destruct (list_in c tc) eqn:Hin; [|eexists; reflexivity].
  apply list_in_true in Hin.
  destruct (list_index_elem c tc Hin) as [k Hk]. rewrite Hk.
  apply list_index_Some in Hk.
  destruct (Forall2_lookup_l _ _ _ _ _ HF Hk) as (r & Hr & d & o & -> & Ho).
  rewrite Hr. simpl. rewrite Ho. eexists. reflexivity.
Qed.

(** The loop of the worker, when every entry can be computed: it ends,
    adds the commands to the keys of the table, gives every command an
    entry with both keys, and leaves the other keys alone. *)
Lemma worker_loop_tables (jl : list value) (jc : list string)
    (tl : list value) (tc : list string) :
  (forall c, returns (json_entry jl jc c)) ->
  (forall c, returns (text_entry tl tc c)) ->
  forall (show_cmds : list string) (tbl : gmap string value),
  exists tbl',
    worker_loop jl jc tl tc show_cmds tbl = (tbl', Returns tt)
    /\ dom tbl' = dom tbl ∪ list_to_set show_cmds
    /\ (forall c, c ∈ show_cmds ->
                  exists e, tbl' !! c = Some (VDict e) /\ dom e = entry_keys)
    /\ (forall c, c ∉ show_cmds -> tbl' !! c = tbl !! c).
Proof.
  intros Hj Ht. induction show_cmds as [|c rest IH]; intros tbl.
  - exists tbl. split; [reflexivity|]. split; [set_solver|].
    split; [intros c Hc; inversion Hc|reflexivity].
  - simpl. destruct (Hj c) as [vj ->]. destruct (Ht c) as [vt ->].
    rewrite !insert_insert_eq.
    destruct (IH (<[c := VDict (<["text" := vt]> {["json" := vj]})]> tbl))
      as (tbl' & Hrun & Hdom & Hent & Hoth).
    exists tbl'. split; [exact Hrun|]. split.
    { rewrite Hdom, dom_insert_L. set_solver. }
    split.
    + intros c' Hc'. destruct (decide (c' ∈ rest)) as [Hin|Hnin].
      * apply Hent, Hin.
      * apply elem_of_cons in Hc' as [->|Hc']; [|contradiction].
        rewrite (Hoth c Hnin), lookup_insert_eq. eexists. split; [reflexivity|].
        rewrite dom_insert_L, dom_singleton_L. unfold entry_keys. set_solver.
    + intros c' Hc'. apply not_elem_of_cons in Hc' as [Hne Hnin].
      rewrite (Hoth c' Hnin). apply lookup_insert_ne. congruence.
Qed.


(** The entry the loop leaves for each command it was given. *)
Lemma worker_loop_entry (jl : list value) (jc : list string)
    (tl : list value) (tc : list string) (show_cmds : list string) :
  forall (tbl tbl' : gmap string value),
    worker_loop jl jc tl tc show_cmds tbl = (tbl', Returns tt) ->
    (forall c, c ∉ show_cmds -> tbl' !! c = tbl !! c)
    /\ (forall c, c ∈ show_cmds ->
          exists vj vt,
            json_entry jl jc c = Returns vj
            /\ text_entry tl tc c = Returns vt
            /\ tbl' !! c = Some (VDict (<["text" := vt]> {["json" := vj]}))).
Proof.
  induction show_cmds as [|c0 rest IH]; intros tbl tbl'.
  - intros [= <-]. split; [reflexivity|]. intros c Hc. inversion Hc.
  - cbn [worker_loop].
    destruct (json_entry jl jc c0) as [vj|] eqn:Ej; try discriminate.
    destruct (text_entry tl tc c0) as [vt|] eqn:Et; try discriminate.
    intros H. destruct (IH _ _ H) as [Hoth Hent]. split.
    + intros c Hc. apply not_elem_of_cons in Hc as [Hne Hnin].
      rewrite (Hoth c Hnin), !lookup_insert_ne by congruence. reflexivity.
    + intros c Hc. destruct (decide (c ∈ rest)) as [Hin|Hnin]; [apply Hent, Hin|].
      apply elem_of_cons in Hc as [->|Hc]; [|contradiction].
      exists vj, vt. rewrite (Hoth c0 Hnin), lookup_insert_eq. auto.
Qed.

(** What the two entry computations store. *)
Lemma json_entry_stored (jl : list value) (jc : list string) (c : string)
    (v : value) :
  json_entry jl jc c = Returns v -> stored_json jl jc c v.
Proof.
  unfold json_entry, list_in, stored_json.
  destruct (bool_decide_reflect (c ∈ jc)) as [Hin|Hnin].
  - destruct (list_index c jc) as [k|]; [|discriminate].
    destruct (jl !! k) as [x|] eqn:Ex; [|discriminate].
    intros [= <-]. right. eauto.
  - intros [= <-]. left. auto.
Qed.

Lemma text_entry_stored (tl : list value) (tc : list string) (c : string)
    (v : value) :
  text_entry tl tc c = Returns v -> stored_text tl tc c v.
Proof.
  unfold text_entry, list_in, stored_text.
  destruct (bool_decide_reflect (c ∈ tc)) as [Hin|Hnin].
  - destruct (list_index c tc) as [k|]; [|discriminate].
    destruct (tl !! k) as [r|] eqn:Er; [|discriminate].
    intros H. right. eauto.
  - intros [= <-]. left. auto.
Qed.

(** One worker, on a connection that names what it rejects and answers
    in shape: both dispatches return, the worker completes, and the
    table is filled from their results. *)
Lemma dut_worker_table (fuel : nat) (d : dut (St := St))
    (show_cmds : list string) (defs : definitions) :
  names_pending run_commands ->
  answers_aligned run_commands answer_shape ->
  length show_cmds < fuel ->
  exists d' tbl c1 c2 jl jc tl tc,
    dut_worker run_commands fuel d show_cmds defs = (d', Returns tt)
    /\ name d' = name d
    /\ send_cmds run_commands fuel show_cmds (connection d) "json"
       = Returns (c1, (jl, jc))
    /\ send_cmds run_commands fuel show_cmds c1 "text"
       = Returns (c2, (tl, tc))
    /\ output d' = Some tbl
    /\ dom tbl = list_to_set show_cmds ∪ {[ "interface_list" ]}
    /\ (forall c, c ∈ show_cmds ->
          exists e vj vt,
            tbl !! c = Some (VDict e)
            /\ dom e = {[ "json"; "text" ]}
            /\ e !! "json" = Some vj /\ e !! "text" = Some vt
            /\ stored_json jl jc c vj /\ stored_text tl tc c vt).
Proof.
  intros Hn Hal Hf. unfold dut_worker.
  destruct (send_cmds_returns run_commands fuel show_cmds (connection d)
              "json" Json Hn eq_refl Hf) as [[c1 [jl jc]] Hj].
  rewrite Hj.
  destruct (send_cmds_returns run_commands fuel show_cmds c1
              "text" Text Hn eq_refl Hf) as [[c2 [tl tc]] Ht].
  rewrite Ht.
  destruct (send_cmds_result _ _ _ _ _ _ _ _ Hj) as (en & j0 & Hen & Hrj & _).
  injection Hen as <-.
  destruct (send_cmds_result _ _ _ _ _ _ _ _ Ht) as (en & t0 & Hen & Hrt & _).
  injection Hen as <-.
  pose proof (Hal _ _ _ _ _ Hrj) as HFj. pose proof (Hal _ _ _ _ _ Hrt) as HFt.
  destruct (worker_loop_tables jl jc tl tc
              (fun c => json_entry_returns jl jc c (eq_sym (Forall2_length _ _ _ HFj)))
              (fun c => text_entry_returns tl tc c HFt)
              show_cmds
              (<["interface_list" := VList (return_interfaces (name d) defs)]> ∅))
    as (tbl' & Hrun & Hdom & _ & _).
  rewrite Hrun. exists (set_output (set_connection d c2) tbl'), tbl', c1, c2, jl, jc, tl, tc.
  split; [reflexivity|]. split; [reflexivity|].
  split; [reflexivity|]. split; [exact Ht|]. split; [reflexivity|].
  split; [rewrite Hdom, dom_insert_L, dom_empty_L; set_solver|].
  intros c Hc.
  destruct (proj2 (worker_loop_entry _ _ _ _ _ _ _ Hrun) c Hc)
    as (vj & vt & Ej & Et & Hlook).
  exists (<["text" := vt]> {["json" := vj]}), vj, vt.
  split; [exact Hlook|].
  split; [rewrite dom_insert_L, dom_singleton_L; set_solver|].
  split; [rewrite lookup_insert_ne by discriminate; apply lookup_singleton_eq|].
  split; [apply lookup_insert_eq|].
  split; [exact (json_entry_stored _ _ _ _ Ej)|exact (text_entry_stored _ _ _ _ Et)].
Qed.

(** The executor returns every record as its worker left it, however
    the worker ended. *)
Lemma run_workers_run (fuel : nat) (ds : list (dut (St := St)))
    (show_cmds : list string) (defs : definitions) :
  run_workers run_commands fuel ds show_cmds defs
  = Returns (List.map (fun d => fst (dut_worker run_commands fuel d show_cmds defs))
                      ds).
Proof.
  induction ds as [|d ds IH]; [reflexivity|]. cbn [run_workers List.map].
  destruct (dut_worker run_commands fuel d show_cmds defs) as [d' o].
  rewrite IH. reflexivity.
Qed.

(** C4 (amended).  With a client configuration file and at least one
    configured device, on connections whose errors name a command of the
    batch and whose accepted batches are answered command by command
    with text answers that carry an [output] field, and with room for
    one nested call per command: both dispatches of every worker return,
    and the fan-out returns one record per configured device, in order;
    each record's output table has as keys the commands and the extra
    key [interface_list]; every command's entry has a [json] and a
    [text] value and no other; each of the two is the empty string when
    the command is not in the reduced list of that dispatch, and else
    the result at the command's position in the reduced list, for the
    text encoding its [output] field. *)
Theorem init_duts_output_tables (fuel : nat) (show_cmds : list string)
    (defs : definitions) :
  names_pending run_commands ->
  answers_aligned run_commands answer_shape ->
  is_Some (parameters defs !! "eapi_file") ->
  duts defs <> [] ->
  length show_cmds < fuel ->
  exists ds,
    init_duts run_commands connect_to fuel show_cmds defs = Returns ds
    /\ name <$> ds = d_name <$> duts defs
    /\ (forall d, d ∈ ds ->
          exists tbl c1 c2 jl jc tl tc,
            send_cmds run_commands fuel show_cmds (connect_to (name d)) "json"
            = Returns (c1, (jl, jc))
            /\ send_cmds run_commands fuel show_cmds c1 "text"
               = Returns (c2, (tl, tc))
            /\ output d = Some tbl
            /\ dom tbl = list_to_set show_cmds ∪ {[ "interface_list" ]}
            /\ (forall c, c ∈ show_cmds ->
                   exists e vj vt,
                     tbl !! c = Some (VDict e)
                     /\ dom e = {[ "json"; "text" ]}
                     /\ e !! "json" = Some vj /\ e !! "text" = Some vt
                     /\ stored_json jl jc c vj /\ stored_text tl tc c vt)).
Proof.
  intros Hn Hal [cfg Hcfg] Hne Hf. unfold init_duts, login_duts, getitem.
  rewrite Hcfg. cbn [bind].
  match goal with
  | |- context [run_workers _ _ ?l _ _] => set (logins := l)
  end.
  destruct (Nat.eqb_spec (length logins) 0) as [H0|_].
  { unfold logins in H0. rewrite length_map in H0.
    destruct (duts defs); [contradiction|discriminate]. }
  rewrite run_workers_run. eexists. split; [reflexivity|]. split.
  - unfold logins. generalize (duts defs). intros l.
    induction l as [|a l IH]; [reflexivity|].
    cbn [List.map]. rewrite !fmap_cons, IH. f_equal.
    match goal with
    | |- name (fst (dut_worker _ _ ?d0 _ _)) = _ =>
        destruct (dut_worker_table fuel d0 show_cmds defs Hn Hal Hf)
          as (d' & tbl & c1 & c2 & jl & jc & tl & tc & -> & Hname & _)
    end.
    exact Hname.
  - intros d Hd. apply list_elem_of_In, List.in_map_iff in Hd as (d0 & <- & Hd0).
    unfold logins in Hd0. apply List.in_map_iff in Hd0 as (a & <- & _).
    match goal with
    | |- context [fst (dut_worker _ _ ?d0 _ _)] =>
        destruct (dut_worker_table fuel d0 show_cmds defs Hn Hal Hf)
          as (d' & tbl & c1 & c2 & jl & jc & tl & tc & -> & Hname & Hj & Ht
              & Hout & Hdom & Hent)
    end.
    cbn [fst]. exists tbl, c1, c2, jl, jc, tl, tc. rewrite Hname.
    cbn [name connection] in *. auto.
Qed.

End FanOutFacts.

(** ** The fan-out at the lab *)

Section LabFanOut.

Import Dispatcher FanOut Examples.

Lemma lab_switch_shape : answers_aligned lab_switch answer_shape.
Proof.
  intros st l en st' res H. unfold lab_switch in H.
  destruct (List.find rejected l); [discriminate|].
  injection H as _ <-. clear.
  induction l as [|c l IH]; simpl; constructor; [|exact IH].
  destruct en; simpl; [exact I|]. eexists _, _. split; [reflexivity|].
  apply lookup_insert_eq.
Qed.

(** C4 at the lab, with a command the switch rejects in the batch. *)
Lemma init_duts_output_tables_witness :
  names_pending lab_switch
  /\ answers_aligned lab_switch answer_shape
  /\ is_Some (parameters lab_defs !! "eapi_file")
  /\ duts lab_defs <> []
  /\ length ["show foo"; "show version"] < 3
  /\ exists ds,
       init_duts lab_switch (fun _ => tt) 3 ["show foo"; "show version"] lab_defs
       = Returns ds
       /\ name <$> ds = d_name <$> duts lab_defs
       /\ (forall d, d ∈ ds ->
             exists tbl c1 c2 jl jc tl tc,
               send_cmds lab_switch 3 ["show foo"; "show version"] tt "json"
               = Returns (c1, (jl, jc))
               /\ send_cmds lab_switch 3 ["show foo"; "show version"] c1 "text"
                  = Returns (c2, (tl, tc))
               /\ output d = Some tbl
               /\ dom tbl = list_to_set ["show foo"; "show version"]
                            ∪ {[ "interface_list" ]}
               /\ (forall c, c ∈ ["show foo"; "show version"] ->
                      exists e vj vt,
                        tbl !! c = Some (VDict e)
                        /\ dom e = {[ "json"; "text" ]}
                        /\ e !! "json" = Some vj /\ e !! "text" = Some vt
                        /\ stored_json jl jc c vj /\ stored_text tl tc c vt)).
Proof.
  split; [exact lab_switch_names_pending|].
  split; [exact lab_switch_shape|].
  split; [eexists; reflexivity|].
  split; [discriminate|].
  split; [simpl; lia|].
  apply (init_duts_output_tables lab_switch (fun _ => tt) 3
           ["show foo"; "show version"] lab_defs
           lab_switch_names_pending lab_switch_shape);
    [eexists; reflexivity | discriminate | simpl; lia].
Defined.

(** C4 (as stated, refuted).  One device, one accepted command: the
    output table is keyed by the command and by [interface_list], not by
    the command alone. *)
Lemma output_table_has_interface_list :
  init_duts lab_switch (fun _ => tt) 3 ["show version"] lab_defs
  = Returns [lab_dut]
  /\ output lab_dut = Some lab_table
  /\ is_Some (lab_table !! "interface_list")
  /\ dom lab_table <> list_to_set ["show version"].
Proof.
  split; [vm_compute; reflexivity|].
  split; [vm_compute; reflexivity|].
  assert (Hin : is_Some (lab_table !! "interface_list")).
  { vm_compute. eauto. }
  split; [exact Hin|].
  intros Heq. apply elem_of_dom in Hin. rewrite Heq in Hin.
  apply elem_of_list_to_set, list_elem_of_singleton in Hin. discriminate Hin.
Qed.

End LabFanOut.

(** ** More on the narrowing step *)

Section NarrowingFacts.

Import Dispatcher Narrowing.

Lemma list_index_NoDup (l : list string) (i : nat) (c : string) :
  NoDup l -> l !! i = Some c -> list_index c l = Some i.
Proof.
  intros Hnd Hi.
  destruct (list_index_elem c l) as [k Hk].
  { eapply list_elem_of_lookup_2; eauto. }
  rewrite Hk. f_equal.
  apply list_index_Some in Hk.
  eapply NoDup_lookup; eauto.
Qed.

Lemma remove_cmd_loop_skip (fuel : nat) (e : string) (pre suf : list string) :
  NoDup (pre ++ suf) -> length suf ≤ fuel ->
  remove_cmd_loop fuel e (length pre) (pre ++ suf)
  = pre ++ skip_after_removal e suf.
Proof.
  revert pre suf. induction fuel as [|fuel IH]; intros pre suf Hnd Hf.
  - destruct suf; [reflexivity|simpl in Hf; lia].
  - cbn [remove_cmd_loop]. destruct suf as [|c rest].
    + rewrite (proj2 (lookup_ge_None _ _)); [reflexivity|].
      rewrite length_app. simpl. lia.
    + rewrite list_lookup_middle by reflexivity.
      cbn [skip_after_removal]. destruct (str_in c e).
      * rewrite (list_index_NoDup _ (length pre) c Hnd)
          by (apply list_lookup_middle; reflexivity).
        rewrite delete_middle.
        assert (Hnd' : NoDup (pre ++ rest)).
        { apply NoDup_app in Hnd as (H1 & H2 & H3).
          apply NoDup_cons in H3 as [_ H3].
          apply NoDup_app. repeat split; [exact H1| |exact H3].
          intros x Hx Hx'. apply (H2 x Hx). right. exact Hx'. }
        destruct rest as [|d rest'].
        { rewrite app_nil_r. destruct fuel; cbn [remove_cmd_loop]; [reflexivity|].
          rewrite (proj2 (lookup_ge_None _ _)); [reflexivity|lia]. }
        replace (pre ++ d :: rest') with ((pre ++ [d]) ++ rest')
          by (rewrite <- app_assoc; reflexivity).
        replace (S (length pre)) with (length (pre ++ [d]))
          by (rewrite length_app; simpl; lia).
        rewrite IH.
        -- rewrite <- app_assoc. reflexivity.
        -- rewrite <- app_assoc. exact Hnd'.
        -- simpl in Hf. lia.
      * replace (pre ++ c :: rest) with ((pre ++ [c]) ++ rest)
          by (rewrite <- app_assoc; reflexivity).
        replace (S (length pre)) with (length (pre ++ [c]))
          by (rewrite length_app; simpl; lia).
        rewrite IH.
        -- rewrite <- app_assoc. reflexivity.
        -- rewrite <- app_assoc. exact Hnd.
        -- simpl in Hf. lia.
Qed.

Lemma remove_cmd_skip (e : string) (l : list string) :
  NoDup l -> remove_cmd e l = skip_after_removal e l.
Proof.
  intros Hnd. unfold remove_cmd.
  apply (remove_cmd_loop_skip (length l) e [] l); [exact Hnd|lia].
Qed.

Lemma skip_after_removal_head (e : string) (c : string) (rest : list string) :
  str_in c e = true ->
  skip_after_removal e (c :: rest)
  = match rest with [] => [] | d :: rest' => d :: skip_after_removal e rest' end.
Proof. intros H. cbn [skip_after_removal]. rewrite H. reflexivity. Qed.

(** X1.  On a list without duplicates, [remove_cmd] drops each named
    command it looks at and keeps the command after it without looking
    at it; in particular, when the first command is named, the second
    one stays whatever the error says. *)
Theorem remove_cmd_on_duplicate_free (e : string) (l : list string) :
  NoDup l ->
  remove_cmd e l = skip_after_removal e l
  /\ forall c d rest,
       l = c :: d :: rest -> str_in c e = true ->
       remove_cmd e l = d :: remove_cmd e rest.
Proof.
  intros Hnd. split; [apply remove_cmd_skip, Hnd|].
  intros c d rest -> Hc.
  rewrite (remove_cmd_skip e _ Hnd), (skip_after_removal_head e c _ Hc).
  f_equal. symmetry. apply remove_cmd_skip.
  apply NoDup_cons in Hnd as [_ Hnd]. apply NoDup_cons in Hnd as [_ Hnd].
  exact Hnd.
Qed.

Lemma skip_is_filter (e : string) (n : nat) (l : list string) :
  length l ≤ n ->
  (forall i c d, l !! i = Some c -> l !! S i = Some d ->
                 str_in c e = true -> str_in d e = false) ->
  skip_after_removal e l = without_named e l.
Proof.
  unfold without_named. revert l.
  induction n as [|n IH]; intros l Hn Hadj.
  - destruct l; [reflexivity|simpl in Hn; lia].
  - destruct l as [|c rest]; [reflexivity|].
    cbn [skip_after_removal List.filter].
    destruct (str_in c e) eqn:Ec; cbn [negb].
    + destruct rest as [|d rest']; [reflexivity|].
      cbn [List.filter].
      rewrite (Hadj 0 c d eq_refl eq_refl Ec). cbn [negb].
      f_equal. apply IH; [simpl in Hn; lia|].
      intros i x y Hx Hy. apply (Hadj (S (S i)) x y); assumption.
    + f_equal. apply IH; [simpl in Hn; lia|].
      intros i x y Hx Hy. apply (Hadj (S i) x y); assumption.
Qed.

(** X2.  On a list without duplicates in which no two neighbours are
    both named by the error, [remove_cmd] removes exactly the named
    commands. *)
Theorem remove_cmd_removes_named_when_not_adjacent (e : string) (l : list string) :
  NoDup l ->
  (forall i c d, l !! i = Some c -> l !! S i = Some d ->
                 str_in c e = true -> str_in d e = false) ->
  remove_cmd e l = without_named e l.
Proof.
  intros Hnd Hadj. rewrite (remove_cmd_skip e l Hnd).
  apply (skip_is_filter e (length l)); [lia|exact Hadj].
Qed.

Lemma remove_cmd_loop_sublist (fuel : nat) (e : string) (i : nat) (l : list string) :
  remove_cmd_loop fuel e i l `sublist_of` l.
Proof.
  revert i l. induction fuel as [|fuel IH]; intros i l; simpl; [reflexivity|].
  destruct (l !! i) as [c|]; [|reflexivity].
  destruct (str_in c e); [|apply IH].
  destruct (list_index c l) as [k|]; [|reflexivity].
  etransitivity; [apply IH|]. apply sublist_delete.
Qed.

(** X3.  [remove_cmd] only removes: what it returns is the list with
    some elements left out, in the same order; and it returns the list
    unchanged exactly when the error names none of its commands. *)
Theorem remove_cmd_only_removes (e : string) (l : list string) :
  remove_cmd e l `sublist_of` l
  /\ (remove_cmd e l = l <-> forall c, c ∈ l -> str_in c e = false).
Proof.
  split; [apply remove_cmd_loop_sublist|]. split.
  - intros Heq c Hin. destruct (str_in c e) eqn:Ec; [|reflexivity].
    pose proof (remove_cmd_shrinks e l c Hin Ec) as Hlt.
    rewrite Heq in Hlt. lia.
  - apply remove_cmd_no_match.
Qed.

End NarrowingFacts.

(** ** More on the retry loop *)

Section SendCmdsMore.

Import Dispatcher Narrowing.

Context {St : Type}.
Variable run_commands : St -> list string -> encoding -> St * (list value + string).

Lemma send_cmds_sublist (fuel : nat) (show_cmds : list string) (conn : St)
    (enc : string) (conn' : St) (res : list value) (cmds' : list string) :
  send_cmds run_commands fuel show_cmds conn enc = Returns (conn', (res, cmds')) ->
  cmds' `sublist_of` show_cmds.
Proof.
  revert show_cmds conn.
  induction fuel as [|fuel IH]; intros show_cmds conn; simpl; [discriminate|].
  destruct (encoding_of enc) as [en|]; [|discriminate].
  destruct (run_commands conn show_cmds en) as [conn1 [r|e]].
  - intros [= <- <- <-]. reflexivity.
  - destruct (send_cmds run_commands fuel (remove_cmd e show_cmds) conn1 enc)
      as [[c2 [r2 l2]]|] eqn:Erec; simpl; try discriminate.
    intros [= <- <- <-].
    etransitivity; [exact (IH _ _ Erec)|]. apply remove_cmd_loop_sublist.
Qed.

(** X4.  The list [send_cmds] returns is the submitted list with some
    commands left out, in the same order, and is the submitted list
    itself when the first request is accepted. *)
Theorem send_cmds_returns_part_of_the_batch
    (fuel : nat) (show_cmds : list string) (conn : St) (enc : string)
    (conn' : St) (res : list value) (cmds' : list string) :
  send_cmds run_commands fuel show_cmds conn enc = Returns (conn', (res, cmds')) ->
  cmds' `sublist_of` show_cmds
  /\ (forall conn1 r, (exists en, encoding_of enc = Some en
                        /\ run_commands conn show_cmds en = (conn1, inl r)) ->
                      cmds' = show_cmds).
Proof.
  intros H. split; [exact (send_cmds_sublist _ _ _ _ _ _ _ H)|].
  intros conn1 r (en & Hen & Hrun).
  destruct fuel as [|fuel]; [discriminate|]. simpl in H.
  rewrite Hen, Hrun in H. injection H as _ _ <-. reflexivity.
Qed.

Lemma filter_filter_absorb (p q : string -> bool) (l : list string) :
  (forall x, x ∈ l -> q x = false -> p x = false) ->
  List.filter p (List.filter q l) = List.filter p l.
Proof.
  induction l as [|x l IH]; intros H; [reflexivity|]. simpl.
  assert (IH' : List.filter p (List.filter q l) = List.filter p l).
  { apply IH. intros y Hy. apply H. right. exact Hy. }
  destruct (q x) eqn:Eq; simpl.
  - rewrite IH'. reflexivity.
  - rewrite (H x (list_elem_of_here _ _) Eq). exact IH'.
Qed.

Lemma filter_none (p : string -> bool) (l : list string) :
  List.find p l = None -> List.filter (fun c => negb (p c)) l = l.
Proof.
  induction l as [|x l IH]; [reflexivity|]. simpl.
  destruct (p x); [discriminate|]. intros H. simpl. f_equal. apply IH, H.
Qed.

Lemma send_cmds_by_name (rejected : string -> bool) (show_cmds : list string)
    (enc : string) (en : encoding) :
  rejects_by_name run_commands rejected show_cmds ->
  encoding_of enc = Some en ->
  forall fuel l conn,
    l ⊆ show_cmds -> NoDup l -> length l < fuel ->
    exists conn' res,
      send_cmds run_commands fuel l conn enc
      = Returns (conn', (res, List.filter (fun c => negb (rejected c)) l)).
Proof.
  intros Hrej Hen. induction fuel as [|fuel IH]; intros l conn Hsub Hnd Hf; [lia|].
  simpl. rewrite Hen. pose proof (Hrej conn l en Hsub) as Hl.
  destruct (List.find rejected l) as [c|] eqn:Efind.
  - destruct Hl as (conn' & e & -> & Hnamed).
    apply List.find_some in Efind as [Hin Hc]. apply list_elem_of_In in Hin.
    assert (Hrm : remove_cmd e l = without_named e l).
    { rewrite (remove_cmd_skip e l Hnd).
      apply (skip_is_filter e (length l)); [lia|].
      intros i x y Hx Hy Ex.
      destruct (str_in y e) eqn:Ey; [|reflexivity]. exfalso.
      apply (Hnamed x) in Ex; [|eapply list_elem_of_lookup_2; eauto].
      apply (Hnamed y) in Ey; [|eapply list_elem_of_lookup_2; eauto].
      subst x y. pose proof (NoDup_lookup _ _ _ _ Hnd Hx Hy). lia. }
    assert (Hsl : remove_cmd e l `sublist_of` l) by apply remove_cmd_loop_sublist.
    destruct (IH (remove_cmd e l) conn') as (conn2 & res & Hrec).
    + etransitivity; [apply sublist_subseteq, Hsl|exact Hsub].
    + eapply sublist_NoDup; eauto.
    + pose proof (remove_cmd_shrinks e l c Hin (proj2 (Hnamed c Hin) eq_refl)). lia.
    + rewrite Hrec. simpl. exists conn2, res. do 3 f_equal.
      rewrite Hrm. unfold without_named. apply filter_filter_absorb.
      intros x Hx Ex. apply negb_false_iff in Ex. apply (Hnamed x Hx) in Ex.
      subst x. rewrite Hc. reflexivity.
  - destruct Hl as (conn' & res & ->). exists conn', res.
    rewrite (filter_none rejected l Efind). reflexivity.
Qed.

(** X6.  For a duplicate-free command list and a connection that
    rejects a batch by naming its first rejected command and no other
    command of the batch, [send_cmds] returns the accepted commands, in
    their order. *)
Theorem send_cmds_keeps_the_accepted_commands
    (rejected : string -> bool) (fuel : nat) (show_cmds : list string)
    (conn : St) (enc : string) (en : encoding) :
  rejects_by_name run_commands rejected show_cmds ->
  encoding_of enc = Some en ->
  NoDup show_cmds ->
  length show_cmds < fuel ->
  exists conn' res,
    send_cmds run_commands fuel show_cmds conn enc
    = Returns (conn', (res, List.filter (fun c => negb (rejected c)) show_cmds)).
Proof.
  intros Hrej Hen Hnd Hf.
  apply (send_cmds_by_name rejected show_cmds enc en Hrej Hen); auto.
Qed.

End SendCmdsMore.

(** ** The narrowing at the lab *)

Section LabNarrowing.

Import Dispatcher Narrowing Examples.

Lemma lab_batch_NoDup : NoDup ["show foo"; "show version"; "show bar"].
Proof. apply (bool_decide_unpack _). vm_compute. exact I. Qed.

Lemma lab_switch_rejects_by_name :
  rejects_by_name lab_switch rejected ["show foo"; "show version"; "show bar"].
Proof.
  intros st l en Hsub. unfold lab_switch.
  destruct (List.find rejected l) as [c|] eqn:Efind; [|eauto].
  eexists _, _. split; [reflexivity|].
  apply List.find_some in Efind as [Hin Hc]. apply list_elem_of_In in Hin.
  assert (Hcs : c = "show foo" \/ c = "show bar").
  { apply Hsub in Hin. repeat (apply elem_of_cons in Hin as [->|Hin]); auto.
    - discriminate Hc.
    - inversion Hin. }
  intros c' Hc'. apply Hsub in Hc'.
  repeat (apply elem_of_cons in Hc' as [->|Hc']); [| | |inversion Hc'];
    destruct Hcs as [-> | ->];
    (split; [vm_compute; intros H; first [reflexivity|discriminate H]
            |intros H; first [discriminate H|vm_compute; reflexivity]]).
Qed.

(** X1 at the two commands of [remove_cmd_skips_after_removal]'s list. *)
Lemma remove_cmd_on_duplicate_free_witness :
  NoDup ["show version"; "show version detail"]
  /\ remove_cmd detail_error ["show version"; "show version detail"]
     = skip_after_removal detail_error ["show version"; "show version detail"]
  /\ forall c d rest,
       ["show version"; "show version detail"] = c :: d :: rest ->
       str_in c detail_error = true ->
       remove_cmd detail_error ["show version"; "show version detail"]
       = d :: remove_cmd detail_error rest.
Proof.
  assert (Hnd : NoDup ["show version"; "show version detail"]).
  { apply (bool_decide_unpack _). vm_compute. exact I. }
  split; [exact Hnd|].
  exact (remove_cmd_on_duplicate_free detail_error _ Hnd).
Defined.

(** X2 at the lab's batch and the error for [show foo]. *)
Lemma remove_cmd_removes_named_witness :
  NoDup ["show foo"; "show version"; "show bar"]
  /\ (forall i c d,
        ["show foo"; "show version"; "show bar"] !! i = Some c ->
        ["show foo"; "show version"; "show bar"] !! S i = Some d ->
        str_in c "CLI command 'show foo' failed: invalid command" = true ->
        str_in d "CLI command 'show foo' failed: invalid command" = false)
  /\ remove_cmd "CLI command 'show foo' failed: invalid command"
       ["show foo"; "show version"; "show bar"]
     = without_named "CLI command 'show foo' failed: invalid command"
         ["show foo"; "show version"; "show bar"].
Proof.
  assert (Hadj : forall i c d,
        ["show foo"; "show version"; "show bar"] !! i = Some c ->
        ["show foo"; "show version"; "show bar"] !! S i = Some d ->
        str_in c "CLI command 'show foo' failed: invalid command" = true ->
        str_in d "CLI command 'show foo' failed: invalid command" = false).
  { intros i c d Hc Hd. destruct i as [|[|[|i]]]; simpl in Hc, Hd;
      try discriminate Hd; injection Hc as <-; injection Hd as <-;
      vm_compute; intros H; first [reflexivity|discriminate H]. }
  split; [exact lab_batch_NoDup|]. split; [exact Hadj|].
  exact (remove_cmd_removes_named_when_not_adjacent _ _ lab_batch_NoDup Hadj).
Defined.

(** X4 at the lab switch. *)
Lemma send_cmds_returns_part_witness :
  send_cmds lab_switch 3 ["show foo"; "show version"] tt "json"
  = Returns (tt, ([answer Json "show version"], ["show version"]))
  /\ ["show version"] `sublist_of` ["show foo"; "show version"]
  /\ (forall conn1 r,
        (exists en, encoding_of "json" = Some en
                    /\ lab_switch tt ["show foo"; "show version"] en = (conn1, inl r)) ->
        ["show version"] = ["show foo"; "show version"]).
Proof.
  assert (H : send_cmds lab_switch 3 ["show foo"; "show version"] tt "json"
              = Returns (tt, ([answer Json "show version"], ["show version"])))
    by (vm_compute; reflexivity).
  split; [exact H|].
  exact (send_cmds_returns_part_of_the_batch lab_switch _ _ _ _ _ _ _ H).
Defined.

(** X6 at the lab switch, which rejects [show foo] and [show bar]. *)
Lemma send_cmds_keeps_accepted_witness :
  rejects_by_name lab_switch rejected ["show foo"; "show version"; "show bar"]
  /\ encoding_of "json" = Some Json
  /\ NoDup ["show foo"; "show version"; "show bar"]
  /\ length ["show foo"; "show version"; "show bar"] < 4
  /\ exists conn' res,
       send_cmds lab_switch 4 ["show foo"; "show version"; "show bar"] tt "json"
       = Returns (conn', (res, List.filter (fun c => negb (rejected c))
                                 ["show foo"; "show version"; "show bar"])).
Proof.
  split; [exact lab_switch_rejects_by_name|]. split; [reflexivity|].
  split; [exact lab_batch_NoDup|]. split; [simpl; lia|].
  apply (send_cmds_keeps_the_accepted_commands lab_switch rejected 4 _ tt "json" Json
           lab_switch_rejects_by_name eq_refl lab_batch_NoDup).
  simpl. lia.
Defined.

End LabNarrowing.

(** ** More on the fan-out *)

Section FanOutMore.

Import Dispatcher FanOut Narrowing.

Context {St : Type}.
Variable run_commands : St -> list string -> encoding -> St * (list value + string).
Variable connect_to : string -> St.

(** Whatever the worker does, the record keeps its identity. *)
Lemma dut_worker_identity (fuel : nat) (d : dut (St := St))
    (show_cmds : list string) (defs : definitions) :
  let d' := fst (dut_worker run_commands fuel d show_cmds defs) in
  name d' = name d /\ mgmt_ip d' = mgmt_ip d /\ username d' = username d.
Proof.
  unfold dut_worker.
  destruct (send_cmds run_commands fuel show_cmds (connection d) "json")
    as [[c1 [jl jc]]|]; [|simpl; auto].
  destruct (send_cmds run_commands fuel show_cmds c1 "text")
    as [[c2 [tl tc]]|]; [|simpl; auto].
  destruct (worker_loop jl jc tl tc show_cmds _) as [tbl' r]. simpl. auto.
Qed.

Lemma run_workers_identity (fuel : nat) (ds ds' : list (dut (St := St)))
    (show_cmds : list string) (defs : definitions) :
  run_workers run_commands fuel ds show_cmds defs = Returns ds' ->
  name <$> ds' = name <$> ds
  /\ mgmt_ip <$> ds' = mgmt_ip <$> ds
  /\ username <$> ds' = username <$> ds.
Proof.
  rewrite run_workers_run. intros [= <-].
  induction ds as [|d ds (H1 & H2 & H3)]; [auto|].
  destruct (dut_worker_identity fuel d show_cmds defs) as (Hn & Hm & Hu).
  cbn [List.map]. rewrite !fmap_cons, Hn, Hm, Hu, H1, H2, H3. auto.
Qed.

(** X7.  [init_duts] raises only before the workers start: what
    [login_duts] raises, and [ValueError] when [login_duts] returned no
    record.  Once [login_duts] has returned at least one record,
    [init_duts] returns every record as its worker left it: an exception
    inside a worker is never raised to the caller. *)
Theorem init_duts_raises_only_before_the_workers
    (fuel : nat) (show_cmds : list string) (defs : definitions) :
  (forall e, login_duts connect_to defs = Raises e ->
             init_duts run_commands connect_to fuel show_cmds defs = Raises e)
  /\ (login_duts connect_to defs = Returns [] ->
      init_duts run_commands connect_to fuel show_cmds defs = Raises ValueError)
  /\ (forall ds, login_duts connect_to defs = Returns ds -> ds <> [] ->
        init_duts run_commands connect_to fuel show_cmds defs
        = Returns (List.map
                     (fun d => fst (dut_worker run_commands fuel d show_cmds defs))
                     ds)).
Proof.
  unfold init_duts. split; [|split].
  - intros e ->. reflexivity.
  - intros ->. reflexivity.
  - intros ds -> Hne. cbn [bind].
    destruct ds as [|d ds]; [contradiction|]. cbn [length Nat.eqb].
    apply run_workers_run.
Qed.

(** X8.  Whenever [init_duts] returns, it returns one record per
    configured device, in the configured order, with the configured
    name, management address and user name, whatever the workers did. *)
Theorem init_duts_keeps_the_registry
    (fuel : nat) (show_cmds : list string) (defs : definitions)
    (ds : list (dut (St := St))) :
  init_duts run_commands connect_to fuel show_cmds defs = Returns ds ->
  name <$> ds = d_name <$> duts defs
  /\ mgmt_ip <$> ds = d_mgmt_ip <$> duts defs
  /\ username <$> ds = d_username <$> duts defs.
Proof.
  unfold init_duts, login_duts, getitem.
  destruct (parameters defs !! "eapi_file") as [cfg|]; cbn [bind]; [|discriminate].
  match goal with
  | |- context [run_workers _ _ ?l _ _] => set (logins := l)
  end.
  destruct (Nat.eqb (length logins) 0); [discriminate|].
  intros H. apply run_workers_identity in H as (H1 & H2 & H3).
  rewrite H1, H2, H3. unfold logins. rewrite <- !list_fmap_compose. auto.
Qed.

(** One worker on a connection whose errors name none of the commands:
    the structured dispatch makes the same request once per nested call
    and raises; the record is left with the table as it was before the
    dispatch. *)
Lemma dut_worker_unnamed (fuel : nat) (d : dut (St := St))
    (show_cmds : list string) (defs : definitions) :
  names_nothing run_commands show_cmds ->
  dut_worker run_commands fuel d show_cmds defs
  = (set_connection
       (set_output d (<["interface_list" :=
                          VList (return_interfaces (name d) defs)]> ∅))
       (Nat.iter fuel (fun st => fst (run_commands st show_cmds Json))
                 (connection d)),
     Raises RecursionError).
Proof.
  intros Hno. unfold dut_worker.
  rewrite (send_cmds_unnamed run_commands show_cmds "json" Json Hno eq_refl),
    (send_cmds_conn_unnamed run_commands show_cmds "json" Json Hno eq_refl).
  reflexivity.
Qed.

(** X5.  When every request for the command list fails with an error
    that names none of its commands, a worker gets no answer: whatever
    the room for nested calls, its structured dispatch makes the same
    request once per nested call and ends with [RecursionError], the
    text dispatch is not started, and the record is left with an output
    table that holds [interface_list] only. *)
Theorem dut_worker_stops_at_the_recursion_limit
    (show_cmds : list string) (defs : definitions) :
  names_nothing run_commands show_cmds ->
  forall (fuel : nat) (d : dut (St := St)),
    exists d',
      dut_worker run_commands fuel d show_cmds defs = (d', Raises RecursionError)
      /\ name d' = name d
      /\ output d'
         = Some (<["interface_list" := VList (return_interfaces (name d) defs)]> ∅)
      /\ connection d'
         = Nat.iter fuel (fun st => fst (run_commands st show_cmds Json))
                    (connection d).
Proof.
  intros Hno fuel d. eexists. split; [exact (dut_worker_unnamed fuel d _ defs Hno)|].
  auto.
Qed.

(** X9.  With a client configuration file and at least one device, when
    the requests for the command list fail with errors that name none of
    its commands, every worker ends with [RecursionError], which stays
    in the worker: [init_duts] returns one record per configured device,
    and each record's output table holds [interface_list] only. *)
Theorem init_duts_returns_when_workers_hit_the_recursion_limit
    (show_cmds : list string) (defs : definitions) :
  names_nothing run_commands show_cmds ->
  is_Some (parameters defs !! "eapi_file") ->
  duts defs <> [] ->
  forall fuel,
    exists ds,
      init_duts run_commands connect_to fuel show_cmds defs = Returns ds
      /\ name <$> ds = d_name <$> duts defs
      /\ (forall d, d ∈ ds ->
            output d
            = Some (<["interface_list" :=
                        VList (return_interfaces (name d) defs)]> ∅))
      /\ (forall d, snd (dut_worker run_commands fuel d show_cmds defs)
                    = Raises RecursionError).
Proof.
  intros Hno [cfg Hcfg] Hne fuel. unfold init_duts, login_duts, getitem.
  rewrite Hcfg. cbn [bind]. rewrite length_map.
  destruct (duts defs) as [|d0 ds0] eqn:Hd; [contradiction|].
  cbn [length Nat.eqb]. rewrite run_workers_run. eexists. split; [reflexivity|].
  split; [|split].
  - generalize (d0 :: ds0). intros l. induction l as [|a l IH]; [reflexivity|].
    cbn [List.map]. rewrite !fmap_cons, IH.
    rewrite (dut_worker_unnamed fuel _ show_cmds defs Hno). reflexivity.
  - intros d Hin. apply list_elem_of_In, List.in_map_iff in Hin as (d1 & <- & _).
    rewrite (dut_worker_unnamed fuel d1 show_cmds defs Hno). reflexivity.
  - intros d. rewrite (dut_worker_unnamed fuel d show_cmds defs Hno). reflexivity.
Qed.

End FanOutMore.

(** ** More on the worker *)

Section WorkerMore.

Import Dispatcher FanOut Narrowing.

Context {St : Type}.
Variable run_commands : St -> list string -> encoding -> St * (list value + string).

Lemma not_in_accepted (rejected : string -> bool) (l : list string) (c : string) :
  rejected c = true ->
  list_in c (List.filter (fun x => negb (rejected x)) l) = false.
Proof.
  intros Hc. unfold list_in. apply bool_decide_eq_false_2.
  intros Hin. apply list_elem_of_In, List.filter_In in Hin as [_ Hn].
  rewrite Hc in Hn. discriminate Hn.
Qed.

(** One worker on a connection that rejects by name: the commands the
    device rejects get the empty string in both encodings. *)
Lemma dut_worker_rejections (rejected : string -> bool) (fuel : nat)
    (d : dut (St := St)) (show_cmds : list string) (defs : definitions) :
  rejects_by_name run_commands rejected show_cmds ->
  answers_aligned run_commands answer_shape ->
  NoDup show_cmds ->
  length show_cmds < fuel ->
  exists d' tbl,
    dut_worker run_commands fuel d show_cmds defs = (d', Returns tt)
    /\ output d' = Some tbl
    /\ forall c, c ∈ show_cmds -> rejected c = true ->
         tbl !! c = Some (VDict (<["text" := VStr ""]> {["json" := VStr ""]})).
Proof.
  intros Hrej Hal Hnd Hf. unfold dut_worker.
  destruct (send_cmds_by_name run_commands rejected show_cmds "json" Json
              Hrej eq_refl fuel show_cmds (connection d)
              (reflexivity _) Hnd Hf) as (c1 & jl & Hj).
  rewrite Hj.
  destruct (send_cmds_by_name run_commands rejected show_cmds "text" Text
              Hrej eq_refl fuel show_cmds c1
              (reflexivity _) Hnd Hf) as (c2 & tl & Ht).
  rewrite Ht.
  destruct (send_cmds_result _ _ _ _ _ _ _ _ Hj) as (en & j0 & Hen & Hrj & _).
  injection Hen as <-.
  destruct (send_cmds_result _ _ _ _ _ _ _ _ Ht) as (en & t0 & Hen & Hrt & _).
  injection Hen as <-.
  pose proof (Hal _ _ _ _ _ Hrj) as HFj. pose proof (Hal _ _ _ _ _ Hrt) as HFt.
  set (acc := List.filter (fun c => negb (rejected c)) show_cmds) in *.
  destruct (worker_loop_tables run_commands (fun _ => connection d) jl acc tl acc
              (fun c => json_entry_returns jl acc c (eq_sym (Forall2_length _ _ _ HFj)))
              (fun c => text_entry_returns tl acc c HFt)
              show_cmds
              (<["interface_list" := VList (return_interfaces (name d) defs)]> ∅))
    as (tbl' & Hrun & _).
  rewrite Hrun. eexists _, tbl'. split; [reflexivity|]. split; [reflexivity|].
  intros c Hc Hr.
  destruct (proj2 (worker_loop_entry _ _ _ _ _ _ _ Hrun) c Hc)
    as (vj & vt & Ej & Et & Hlook).
  unfold json_entry in Ej. unfold text_entry in Et.
  unfold acc in Ej, Et. rewrite (not_in_accepted rejected show_cmds c Hr) in Ej, Et.
  injection Ej as <-. injection Et as <-. exact Hlook.
Qed.

(** X10.  On a connection that rejects by name, a worker completes and
    the output table holds the empty string under both [json] and
    [text] for every command the device rejects. *)
Theorem dut_worker_records_rejected_commands_as_empty
    (rejected : string -> bool) (fuel : nat)
    (d : dut (St := St)) (show_cmds : list string) (defs : definitions) :
  rejects_by_name run_commands rejected show_cmds ->
  answers_aligned run_commands answer_shape ->
  NoDup show_cmds ->
  length show_cmds < fuel ->
  exists d' tbl,
    dut_worker run_commands fuel d show_cmds defs = (d', Returns tt)
    /\ output d' = Some tbl
    /\ forall c, c ∈ show_cmds -> rejected c = true ->
         tbl !! c = Some (VDict (<["text" := VStr ""]> {["json" := VStr ""]})).
Proof. apply dut_worker_rejections. Qed.

(** X11.  When the device rejects [show version], the worker still
    completes, and [verify_veos] on the record it leaves raises
    [TypeError]: it indexes the empty string that stands for the missing
    output. *)
Theorem verify_veos_raises_when_show_version_was_rejected
    (rejected : string -> bool) (fuel : nat)
    (d : dut (St := St)) (show_cmds : list string) (defs : definitions) :
  rejects_by_name run_commands rejected show_cmds ->
  answers_aligned run_commands answer_shape ->
  NoDup show_cmds ->
  length show_cmds < fuel ->
  "show version" ∈ show_cmds ->
  rejected "show version" = true ->
  snd (dut_worker run_commands fuel d show_cmds defs) = Returns tt
  /\ Verify.verify_veos (fst (dut_worker run_commands fuel d show_cmds defs))
     = Raises TypeError.
Proof.
  intros Hrej Hal Hnd Hf Hin Hr.
  destruct (dut_worker_rejections rejected fuel d show_cmds defs Hrej Hal Hnd Hf)
    as (d' & tbl & -> & Hout & Hent).
  split; [reflexivity|]. cbn [fst]. unfold Verify.verify_veos. rewrite Hout.
  unfold getitem at 1. rewrite (Hent _ Hin Hr). cbn [bind getitem].
  rewrite lookup_insert_ne by discriminate. rewrite lookup_singleton_eq.
  reflexivity.
Qed.

End WorkerMore.

(** ** The fan-out at more devices *)

Section LabFanOutMore.

Import Dispatcher FanOut Narrowing Examples MoreExamples.

Lemma picky_switch_shape (rejects : string -> bool) :
  answers_aligned (picky_switch rejects) answer_shape.
Proof.
  intros st l en st' res H. unfold picky_switch in H.
  destruct (List.find rejects l); [discriminate|].
  injection H as _ <-. clear.
  induction l as [|c l IH]; simpl; constructor; [|exact IH].
  destruct en; simpl; [exact I|]. eexists _, _. split; [reflexivity|].
  apply lookup_insert_eq.
Qed.

Lemma old_batch_NoDup : NoDup ["show version"; "show clock"].
Proof. apply (bool_decide_unpack _). vm_compute. exact I. Qed.

Lemma old_switch_rejects_by_name :
  rejects_by_name (picky_switch no_version) no_version
    ["show version"; "show clock"].
Proof.
  intros st l en Hsub. unfold picky_switch.
  destruct (List.find no_version l) as [c|] eqn:Efind; [|eauto].
  eexists _, _. split; [reflexivity|].
  apply List.find_some in Efind as [_ Hc].
  apply String.eqb_eq in Hc as ->.
  intros c' Hc'. apply Hsub in Hc'.
  repeat (apply elem_of_cons in Hc' as [->|Hc']); [| |inversion Hc'];
    (split; [vm_compute; intros H; first [reflexivity|discriminate H]
            |intros H; first [discriminate H|vm_compute; reflexivity]]).
Qed.

(** X8 at the lab. *)
Lemma init_duts_keeps_the_registry_witness :
  init_duts lab_switch (fun _ => tt) 3 ["show version"] lab_defs
  = Returns [lab_dut]
  /\ name <$> [lab_dut] = d_name <$> duts lab_defs
  /\ mgmt_ip <$> [lab_dut] = d_mgmt_ip <$> duts lab_defs
  /\ username <$> [lab_dut] = d_username <$> duts lab_defs.
Proof.
  assert (H : init_duts lab_switch (fun _ => tt) 3 ["show version"] lab_defs
              = Returns [lab_dut]) by (vm_compute; reflexivity).
  split; [exact H|].
  exact (init_duts_keeps_the_registry lab_switch (fun _ => tt) _ _ _ _ H).
Defined.

Lemma silent_switch_two :
  names_nothing silent_switch ["show version"; "show clock"].
Proof.
  intros st en. eexists _, _. split; [reflexivity|].
  intros c Hc. repeat (apply elem_of_cons in Hc as [->|Hc]);
    [vm_compute; reflexivity..|inversion Hc].
Qed.

(** X5 at a device that cannot be reached and has room for four nested
    calls: four structured requests, no text request. *)
Lemma dut_worker_stops_witness :
  names_nothing silent_switch ["show version"; "show clock"]
  /\ exists d',
       dut_worker silent_switch 4
         {| connection := 0; name := "DSR01"; mgmt_ip := "10.255.74.38";
            username := "cvpadmin"; output := None |}
         ["show version"; "show clock"] lab_defs
       = (d', Raises RecursionError)
       /\ name d' = "DSR01"
       /\ output d'
          = Some (<["interface_list" :=
                      VList (return_interfaces "DSR01" lab_defs)]> ∅)
       /\ connection d' = 4.
Proof.
  split; [exact silent_switch_two|].
  exact (dut_worker_stops_at_the_recursion_limit silent_switch
           ["show version"; "show clock"] lab_defs silent_switch_two 4
           {| connection := 0; name := "DSR01"; mgmt_ip := "10.255.74.38";
              username := "cvpadmin"; output := None |}).
Defined.

(** X9 at the lab with a device that cannot be reached. *)
Lemma init_duts_returns_at_the_recursion_limit_witness :
  names_nothing silent_switch ["show version"; "show clock"]
  /\ is_Some (parameters lab_defs !! "eapi_file")
  /\ duts lab_defs <> []
  /\ forall fuel,
       exists ds,
         init_duts silent_switch (fun _ => 0) fuel
           ["show version"; "show clock"] lab_defs = Returns ds
         /\ name <$> ds = d_name <$> duts lab_defs
         /\ (forall d, d ∈ ds ->
               output d
               = Some (<["interface_list" :=
                           VList (return_interfaces (name d) lab_defs)]> ∅))
         /\ (forall d, snd (dut_worker silent_switch fuel d
                              ["show version"; "show clock"] lab_defs)
                       = Raises RecursionError).
Proof.
  split; [exact silent_switch_two|].
  split; [eexists; reflexivity|]. split; [discriminate|].
  apply (init_duts_returns_when_workers_hit_the_recursion_limit silent_switch
           (fun _ => 0) _ lab_defs silent_switch_two);
    [eexists; reflexivity|discriminate].
Defined.

(** X10 at the lab switch. *)
Lemma dut_worker_records_rejected_witness :
  rejects_by_name lab_switch rejected ["show foo"; "show version"; "show bar"]
  /\ answers_aligned lab_switch answer_shape
  /\ NoDup ["show foo"; "show version"; "show bar"]
  /\ length ["show foo"; "show version"; "show bar"] < 4
  /\ exists d' tbl,
       dut_worker lab_switch 4 lab_login ["show foo"; "show version"; "show bar"]
         lab_defs = (d', Returns tt)
       /\ output d' = Some tbl
       /\ forall c, c ∈ ["show foo"; "show version"; "show bar"] ->
            rejected c = true ->
            tbl !! c = Some (VDict (<["text" := VStr ""]> {["json" := VStr ""]})).
Proof.
  split; [exact lab_switch_rejects_by_name|]. split; [exact lab_switch_shape|].
  split; [exact lab_batch_NoDup|]. split; [simpl; lia|].
  apply (dut_worker_records_rejected_commands_as_empty lab_switch rejected 4
           lab_login _ lab_defs lab_switch_rejects_by_name lab_switch_shape
           lab_batch_NoDup).
  simpl. lia.
Defined.

(** X11 at a switch without [show version]. *)
Lemma verify_veos_raises_witness :
  rejects_by_name (picky_switch no_version) no_version ["show version"; "show clock"]
  /\ answers_aligned (picky_switch no_version) answer_shape
  /\ NoDup ["show version"; "show clock"]
  /\ length ["show version"; "show clock"] < 3
  /\ "show version" ∈ ["show version"; "show clock"]
  /\ no_version "show version" = true
  /\ snd (dut_worker (picky_switch no_version) 3 lab_login
             ["show version"; "show clock"] lab_defs) = Returns tt
  /\ Verify.verify_veos
       (fst (dut_worker (picky_switch no_version) 3 lab_login
               ["show version"; "show clock"] lab_defs))
     = Raises TypeError.
Proof.
  split; [exact old_switch_rejects_by_name|].
  split; [exact (picky_switch_shape no_version)|].
  split; [exact old_batch_NoDup|]. split; [simpl; lia|].
  split; [left|]. split; [reflexivity|].
  apply (verify_veos_raises_when_show_version_was_rejected
           (picky_switch no_version) no_version 3 lab_login _ lab_defs
           old_switch_rejects_by_name (picky_switch_shape no_version)
           old_batch_NoDup);
    [simpl; lia|left|reflexivity].
Defined.

End LabFanOutMore.

(** ** More on the single command path and the log *)

Section ShowCmdMore.

Import Dispatcher ShowCmd ShowLog.

Context {St : Type}.
Variable run_commands : St -> list string -> encoding -> St * (list value + string).
Variable enable : St -> string -> St * (value + string).
Variable py_str : value -> string.

(** [export_logs] with a configured log that can be opened. *)
Lemma export_logs_run (test_name hostname : string) (output : value)
    (defs : definitions) (s : env (St := St)) (path : string) :
  parameters defs !! "show_log" = Some (VStr path) ->
  path ∉ denied (e_fs s) ->
  export_logs py_str test_name hostname output defs s
  = ({| e_conn := e_conn s;
        e_fs := set_files (e_fs s)
                  (<[path := (default "" (files (e_fs s) !! path)
                              ++ log_block py_str test_name hostname output)%string]>
                     (files (e_fs s)));
        e_trace := e_trace s ++ [EvAppend path] |}, Returns tt).
Proof.
  intros Hlog Hden.
  unfold export_logs, mbind, lift, try_except_base, getitem. rewrite Hlog.
  unfold append_file. rewrite (bool_decide_eq_false_2 _ Hden). reflexivity.
Qed.

(** X12.  With a configured log that can be opened, [export_logs]
    appends the block [\ntest_suite::<test>[<host>]:\n<output>] to what
    the log held, and touches no other file, no permission and not the
    connection. *)
Theorem export_logs_appends_a_block (test_name hostname : string)
    (output : value) (defs : definitions) (s : env (St := St)) (path : string) :
  parameters defs !! "show_log" = Some (VStr path) ->
  path ∉ denied (e_fs s) ->
  exists s',
    export_logs py_str test_name hostname output defs s = (s', Returns tt)
    /\ files (e_fs s') !! path
       = Some (default "" (files (e_fs s) !! path)
               ++ nl ++ "test_suite::" ++ test_name ++ "[" ++ hostname ++ "]:"
               ++ nl ++ py_str output)%string
    /\ (forall p, p <> path -> files (e_fs s') !! p = files (e_fs s) !! p)
    /\ denied (e_fs s') = denied (e_fs s)
    /\ e_conn s' = e_conn s.
Proof.
  intros Hlog Hden. eexists. split; [apply export_logs_run; eassumption|].
  cbn [e_fs e_conn files denied set_files].
  split; [apply lookup_insert_eq|]. split; [|auto].
  intros p Hp. apply lookup_insert_ne. congruence.
Qed.

(** X13.  Without a configured [show_log], [init_show_log] ends the
    process while [export_logs] raises [KeyError]; neither changes
    anything. *)
Theorem log_errors_differ_without_show_log (test_name hostname : string)
    (output : value) (defs : definitions) (s : env (St := St)) :
  parameters defs !! "show_log" = None ->
  init_show_log defs s = (s, Raises (SystemExit 1))
  /\ export_logs py_str test_name hostname output defs s
     = (s, Raises (KeyError "show_log")).
Proof.
  intros Hlog. unfold init_show_log, export_logs, mbind, lift, getitem, raise.
  rewrite Hlog. auto.
Qed.

(** X14.  After [init_show_log], the first [export_logs] leaves the log
    holding exactly its own block, whatever the file held before. *)
Theorem init_show_log_then_export_logs (test_name hostname : string)
    (output : value) (defs : definitions) (s : env (St := St)) (path : string) :
  parameters defs !! "show_log" = Some (VStr path) ->
  path ∉ denied (e_fs s) ->
  exists s',
    (init_show_log defs ;;; export_logs py_str test_name hostname output defs) s
    = (s', Returns tt)
    /\ files (e_fs s') !! path
       = Some (nl ++ "test_suite::" ++ test_name ++ "[" ++ hostname ++ "]:"
               ++ nl ++ py_str output)%string.
Proof.
  intros Hlog Hden. unfold mbind, init_show_log. rewrite Hlog.
  unfold write_file. rewrite (bool_decide_eq_false_2 _ Hden).
  rewrite (export_logs_run _ _ _ _ _ path Hlog) by exact Hden.
  eexists. split; [reflexivity|].
  cbn [e_fs files set_files]. rewrite lookup_insert_eq, lookup_insert_eq.
  reflexivity.
Qed.

(** X15.  When the first text request is answered, [return_show_cmd]
    makes that one request, does not wait, appends the answer's output
    to the log and returns the answers of [enable] and of the request. *)
Theorem return_show_cmd_first_answer
    (show_cmd dut_name test_name : string) (defs : definitions)
    (s : env (St := St)) (c1 c2 : St) (out raw : value) (res : list value)
    (path : string) :
  enable (e_conn s) show_cmd = (c1, inl out) ->
  run_commands c1 [show_cmd] Text = (c2, inl res) ->
  first_output res = Returns raw ->
  parameters defs !! "show_log" = Some (VStr path) ->
  path ∉ denied (e_fs s) ->
  exists s',
    return_show_cmd run_commands enable py_str show_cmd dut_name test_name defs s
    = (s', Returns (out, res))
    /\ e_conn s' = c2
    /\ e_trace s' = e_trace s ++ [EvEnable show_cmd;
                                  EvRunCommands [show_cmd] Text;
                                  EvAppend path]
    /\ files (e_fs s') !! path
       = Some (default "" (files (e_fs s) !! path)
               ++ log_block py_str test_name dut_name raw)%string.
Proof.
  intros Hen Hrun Hfo Hlog Hden.
  unfold return_show_cmd, mbind at 1, call_enable. rewrite Hen.
  unfold mbind at 1, try_except, mbind at 1, call_run_commands at 1.
  cbn [e_conn e_fs e_trace]. rewrite Hrun.
  unfold mbind at 1, lift, ret. rewrite Hfo.
  unfold mbind. rewrite (export_logs_run _ _ _ _ _ path Hlog) by exact Hden.
  eexists. split; [reflexivity|]. cbn [e_conn e_fs e_trace files set_files].
  split; [reflexivity|]. split; [rewrite <- !app_assoc; reflexivity|].
  apply lookup_insert_eq.
Qed.

(** X16.  When the first text request raises and the second is
    answered, [return_show_cmd] returns the second answer and logs its
    output, after one wait of one second. *)
Theorem return_show_cmd_second_answer
    (show_cmd dut_name test_name : string) (defs : definitions)
    (s : env (St := St)) (c1 c2 c3 : St) (out raw : value) (e1 : string)
    (res : list value) (path : string) :
  enable (e_conn s) show_cmd = (c1, inl out) ->
  run_commands c1 [show_cmd] Text = (c2, inr e1) ->
  run_commands c2 [show_cmd] Text = (c3, inl res) ->
  first_output res = Returns raw ->
  parameters defs !! "show_log" = Some (VStr path) ->
  path ∉ denied (e_fs s) ->
  exists s',
    return_show_cmd run_commands enable py_str show_cmd dut_name test_name defs s
    = (s', Returns (out, res))
    /\ e_conn s' = c3
    /\ e_trace s' = e_trace s ++ [EvEnable show_cmd;
                                  EvRunCommands [show_cmd] Text;
                                  EvSleep 1;
                                  EvRunCommands [show_cmd] Text;
                                  EvAppend path]
    /\ files (e_fs s') !! path
       = Some (default "" (files (e_fs s) !! path)
               ++ log_block py_str test_name dut_name raw)%string.
Proof.
  intros Hen Hrun1 Hrun2 Hfo Hlog Hden.
  unfold return_show_cmd, mbind at 1, call_enable. rewrite Hen.
  unfold mbind at 1, try_except, mbind at 1, call_run_commands at 1.
  cbn [e_conn e_fs e_trace]. rewrite Hrun1. cbn [is_Exception].
  unfold mbind at 1, sleep, emit, modify. cbn [e_conn e_fs e_trace].
  unfold mbind at 1, call_run_commands. cbn [e_conn e_fs e_trace].
  rewrite Hrun2. unfold mbind at 1, lift, ret. rewrite Hfo.
  unfold mbind. rewrite (export_logs_run _ _ _ _ _ path Hlog) by exact Hden.
  eexists. split; [reflexivity|]. cbn [e_conn e_fs e_trace files set_files].
  split; [reflexivity|]. split; [rewrite <- !app_assoc; reflexivity|].
  apply lookup_insert_eq.
Qed.

(** X17.  A first answer without a result, or whose result has no
    [output] field, is handled like a failed request: one wait, one more
    request; and when that one raises, its error is what the caller
    gets and the log is not written. *)
Theorem return_show_cmd_retries_a_malformed_answer
    (show_cmd dut_name test_name : string) (defs : definitions)
    (s : env (St := St)) (c1 c2 c3 : St) (out : value)
    (res : list value) (e2 : string) :
  enable (e_conn s) show_cmd = (c1, inl out) ->
  run_commands c1 [show_cmd] Text = (c2, inl res) ->
  (res = [] \/ exists d rest, res = VDict d :: rest /\ d !! "output" = None) ->
  run_commands c2 [show_cmd] Text = (c3, inr e2) ->
  return_show_cmd run_commands enable py_str show_cmd dut_name test_name defs s
  = ({| e_conn := c3; e_fs := e_fs s;
        e_trace := e_trace s ++ [EvEnable show_cmd;
                                 EvRunCommands [show_cmd] Text;
                                 EvSleep 1;
                                 EvRunCommands [show_cmd] Text] |},
     Raises (ConnError e2)).
Proof.
  intros Hen Hrun1 Hbad Hrun2.
  assert (Hfo : exists e, first_output res = Raises e /\ is_Exception e = true).
  { destruct Hbad as [->|(d & rest & -> & Hd)].
    - exists IndexError. auto.
    - exists (KeyError "output"). unfold first_output. simpl. rewrite Hd. auto. }
  destruct Hfo as (e & Hfo & Hex).
  unfold return_show_cmd, mbind at 1, call_enable. rewrite Hen.
  unfold mbind at 1, try_except, mbind at 1, call_run_commands at 1.
  cbn [e_conn e_fs e_trace]. rewrite Hrun1.
  unfold mbind at 1, lift at 1. rewrite Hfo. cbn beta iota. rewrite Hex.
  unfold mbind at 1, sleep, emit, modify. cbn [e_conn e_fs e_trace].
  unfold mbind at 1, call_run_commands. cbn [e_conn e_fs e_trace].
  rewrite Hrun2. rewrite <- !app_assoc. reflexivity.
Qed.

End ShowCmdMore.

(** ** The single command path at example switches *)

Section LabShowCmd.

Import Dispatcher ShowCmd ShowLog Examples MoreExamples.

(** X12 at the lab's log. *)
Lemma export_logs_appends_witness :
  parameters lab_defs !! "show_log" = Some (VStr "show_output.log")
  /\ ("show_output.log" ∉ denied (e_fs (start tt)))
  /\ exists s',
       export_logs str_scalar "test_if_files_on_" "DSR01" (VStr "flash:") lab_defs
         (start tt) = (s', Returns tt)
       /\ files (e_fs s') !! "show_output.log"
          = Some (default "" (files (e_fs (start tt)) !! "show_output.log")
                  ++ nl ++ "test_suite::" ++ "test_if_files_on_" ++ "[" ++ "DSR01"
                  ++ "]:" ++ nl ++ str_scalar (VStr "flash:"))%string
       /\ (forall p, p <> "show_output.log" ->
                     files (e_fs s') !! p = files (e_fs (start tt)) !! p)
       /\ denied (e_fs s') = denied (e_fs (start tt))
       /\ e_conn s' = e_conn (start tt).
Proof.
  assert (Hden : "show_output.log" ∉ denied (e_fs (start tt))).
  { apply (bool_decide_unpack _). vm_compute. exact I. }
  split; [reflexivity|]. split; [exact Hden|].
  exact (export_logs_appends_a_block str_scalar _ _ _ lab_defs (start tt) _
           eq_refl Hden).
Defined.

(** X13 at definitions without parameters. *)
Lemma log_errors_differ_witness :
  parameters bare_defs !! "show_log" = None
  /\ init_show_log bare_defs (start tt) = (start tt, Raises (SystemExit 1))
  /\ export_logs str_scalar "test_if_files_on_" "DSR01" (VStr "flash:") bare_defs
       (start tt)
     = (start tt, Raises (KeyError "show_log")).
Proof.
  split; [reflexivity|].
  exact (log_errors_differ_without_show_log str_scalar _ _ _ bare_defs (start tt)
           eq_refl).
Defined.

(** X14 at the lab's log. *)
Lemma init_show_log_then_export_logs_witness :
  parameters lab_defs !! "show_log" = Some (VStr "show_output.log")
  /\ ("show_output.log" ∉ denied (e_fs (start tt)))
  /\ exists s',
       (init_show_log lab_defs ;;;
        export_logs str_scalar "test_if_files_on_" "DSR01" (VStr "flash:") lab_defs)
         (start tt) = (s', Returns tt)
       /\ files (e_fs s') !! "show_output.log"
          = Some (nl ++ "test_suite::" ++ "test_if_files_on_" ++ "[" ++ "DSR01"
                  ++ "]:" ++ nl ++ str_scalar (VStr "flash:"))%string.
Proof.
  assert (Hden : "show_output.log" ∉ denied (e_fs (start tt))).
  { apply (bool_decide_unpack _). vm_compute. exact I. }
  split; [reflexivity|]. split; [exact Hden|].
  exact (init_show_log_then_export_logs str_scalar _ _ _ lab_defs (start tt) _
           eq_refl Hden).
Defined.

(** X15 at a switch that is not busy. *)
Lemma return_show_cmd_first_answer_witness :
  busy_enable 0 "show version"
  = (0, inl (VList [VDict (<["result" := answer Json "show version"]> ∅)]))
  /\ busy_switch 0 ["show version"] Text = (0, inl [answer Text "show version"])
  /\ first_output [answer Text "show version"] = Returns (VStr "show version")
  /\ parameters lab_defs !! "show_log" = Some (VStr "show_output.log")
  /\ ("show_output.log" ∉ denied (e_fs (start 0)))
  /\ exists s',
       return_show_cmd busy_switch busy_enable str_scalar "show version" "DSR01"
         "test_if_files_on_" lab_defs (start 0)
       = (s', Returns (VList [VDict (<["result" := answer Json "show version"]> ∅)],
                       [answer Text "show version"]))
       /\ e_conn s' = 0
       /\ e_trace s' = e_trace (start 0)
                       ++ [EvEnable "show version";
                           EvRunCommands ["show version"] Text;
                           EvAppend "show_output.log"]
       /\ files (e_fs s') !! "show_output.log"
          = Some (default "" (files (e_fs (start 0)) !! "show_output.log")
                  ++ log_block str_scalar "test_if_files_on_" "DSR01"
                       (VStr "show version"))%string.
Proof.
  assert (Hden : "show_output.log" ∉ denied (e_fs (start 0))).
  { apply (bool_decide_unpack _). vm_compute. exact I. }
  split; [reflexivity|]. split; [reflexivity|]. split; [reflexivity|].
  split; [reflexivity|]. split; [exact Hden|].
  exact (return_show_cmd_first_answer busy_switch busy_enable str_scalar
           "show version" "DSR01" "test_if_files_on_" lab_defs (start 0) 0 0 _ _ _ _
           eq_refl eq_refl eq_refl eq_refl Hden).
Defined.

(** X16 at a switch that refuses one text request. *)
Lemma return_show_cmd_second_answer_witness :
  busy_enable 1 "show version"
  = (1, inl (VList [VDict (<["result" := answer Json "show version"]> ∅)]))
  /\ busy_switch 1 ["show version"] Text = (0, inr "session closed")
  /\ busy_switch 0 ["show version"] Text = (0, inl [answer Text "show version"])
  /\ first_output [answer Text "show version"] = Returns (VStr "show version")
  /\ parameters lab_defs !! "show_log" = Some (VStr "show_output.log")
  /\ ("show_output.log" ∉ denied (e_fs (start 1)))
  /\ exists s',
       return_show_cmd busy_switch busy_enable str_scalar "show version" "DSR01"
         "test_if_files_on_" lab_defs (start 1)
       = (s', Returns (VList [VDict (<["result" := answer Json "show version"]> ∅)],
                       [answer Text "show version"]))
       /\ e_conn s' = 0
       /\ e_trace s' = e_trace (start 1)
                       ++ [EvEnable "show version";
                           EvRunCommands ["show version"] Text;
                           EvSleep 1;
                           EvRunCommands ["show version"] Text;
                           EvAppend "show_output.log"]
       /\ files (e_fs s') !! "show_output.log"
          = Some (default "" (files (e_fs (start 1)) !! "show_output.log")
                  ++ log_block str_scalar "test_if_files_on_" "DSR01"
                       (VStr "show version"))%string.
Proof.
  assert (Hden : "show_output.log" ∉ denied (e_fs (start 1))).
  { apply (bool_decide_unpack _). vm_compute. exact I. }
  split; [reflexivity|]. split; [reflexivity|]. split; [reflexivity|].
  split; [reflexivity|]. split; [reflexivity|]. split; [exact Hden|].
  exact (return_show_cmd_second_answer busy_switch busy_enable str_scalar
           "show version" "DSR01" "test_if_files_on_" lab_defs (start 1) 1 0 0
           _ _ _ _ _ eq_refl eq_refl eq_refl eq_refl eq_refl Hden).
Defined.

(** X17 at a switch whose first answer is empty. *)
Lemma return_show_cmd_retries_malformed_witness :
  garbled_enable true "show version" = (true, inl (VList []))
  /\ garbled_switch true ["show version"] Text = (false, inl [])
  /\ (([] : list value) = []
      \/ exists d rest, ([] : list value) = VDict d :: rest /\ d !! "output" = None)
  /\ garbled_switch false ["show version"] Text = (false, inr "session closed")
  /\ return_show_cmd garbled_switch garbled_enable str_scalar "show version"
       "DSR01" "test_if_files_on_" lab_defs (start true)
     = ({| e_conn := false; e_fs := e_fs (start true);
           e_trace := e_trace (start true)
                      ++ [EvEnable "show version";
                          EvRunCommands ["show version"] Text;
                          EvSleep 1;
                          EvRunCommands ["show version"] Text] |},
        Raises (ConnError "session closed")).
Proof.
  split; [reflexivity|]. split; [reflexivity|]. split; [left; reflexivity|].
  split; [reflexivity|].
  exact (return_show_cmd_retries_a_malformed_answer garbled_switch garbled_enable
           str_scalar "show version" "DSR01" "test_if_files_on_" lab_defs
           (start true) true false false (VList []) [] "session closed"
           eq_refl eq_refl (or_introl eq_refl) eq_refl).
Defined.

End LabShowCmd.

(** ** More on the parameter lookup *)

Section LookupMore.

Import Recorder.

Lemma alter_alter {A : Type} (f g : A -> A) (i : nat) (l : list A) :
  alter f i (alter g i l) = alter (fun x => f (g x)) i l.
Proof.
  revert i. induction l as [|x l IH]; intros [|i]; simpl; [reflexivity..|].
  f_equal. apply IH.
Qed.

Lemma setitem_twice (r : case_ref) (key : string) (v : value) (d : definitions) :
  setitem r key v (setitem r key v d) = setitem r key v d.
Proof.
  unfold setitem. cbn [parameters duts test_suites]. f_equal.
  rewrite alter_alter. apply list_alter_ext; [|reflexivity].
  intros s _. cbn [s_name s_testcases]. f_equal.
  rewrite alter_alter. apply list_alter_ext; [|reflexivity].
  intros m _. apply insert_insert_eq.
Qed.

Lemma first_suite_alter (ts : string) (f : suite -> suite) (suites : list suite)
    (i : nat) (s : suite) :
  (forall x, s_name (f x) = s_name x) ->
  first_suite ts suites = Some (i, s) ->
  first_suite ts (alter f i suites) = Some (i, f s).
Proof.
  intros Hf. revert i. induction suites as [|s0 suites IH]; intros i; [discriminate|].
  simpl. destruct (String.eqb (s_name s0) ts) eqn:E0.
  - intros [= <- <-]. simpl. rewrite Hf, E0. reflexivity.
  - destruct (first_suite ts suites) as [[j s']|] eqn:Ef; simpl; [|discriminate].
    intros [= <- <-]. change (alter f (S j) (s0 :: suites)) with (s0 :: alter f j suites).
    cbn [first_suite]. rewrite E0, (IH j eq_refl). reflexivity.
Qed.

Lemma first_case_alter (tc : string) (g : gmap string value -> gmap string value)
    (cases : list (gmap string value)) (j : nat) :
  (forall m, g m !! "name" = m !! "name") ->
  first_case tc (alter g j cases) = first_case tc cases.
Proof.
  intros Hg. revert j. induction cases as [|m0 cases IH]; intros [|j];
    try reflexivity.
  - change (alter g 0 (m0 :: cases)) with (g m0 :: cases).
    cbn [first_case]. rewrite Hg. reflexivity.
  - change (alter g (S j) (m0 :: cases)) with (m0 :: alter g j cases).
    cbn [first_case]. rewrite IH. reflexivity.
Qed.

(** The first match is the earliest one. *)
Lemma first_suite_min (ts : string) (suites : list suite) (i : nat) (s : suite) :
  first_suite ts suites = Some (i, s) ->
  forall j s', j < i -> suites !! j = Some s' -> s_name s' <> ts.
Proof.
  revert i. induction suites as [|s0 suites IH]; intros i; [discriminate|].
  simpl. destruct (String.eqb_spec (s_name s0) ts) as [Heq|Hne].
  - intros [= <- <-] j s' Hj. lia.
  - destruct (first_suite ts suites) as [[k s1]|] eqn:Ef; simpl; [|discriminate].
    intros [= <- <-] j s' Hj Hl. destruct j as [|j]; simpl in Hl.
    + injection Hl as <-. exact Hne.
    + apply (IH k eq_refl j s'); [lia|exact Hl].
Qed.

Lemma first_case_min (tc : string) (cases : list (gmap string value)) (i : nat) :
  first_case tc cases = Returns (Some i) ->
  forall j m, j < i -> cases !! j = Some m -> m !! "name" <> Some (VStr tc).
Proof.
  revert i. induction cases as [|m0 cases IH]; intros i; [discriminate|].
  simpl. destruct (m0 !! "name") as [n|] eqn:En; [|discriminate].
  destruct (first_case tc cases) as [r|]; simpl; try discriminate.
  destruct (eq_str n tc) eqn:Eq.
  - intros [= <-] j m Hj. lia.
  - destruct r as [k|]; simpl; [|discriminate].
    intros [= <-] j m Hj Hl. destruct j as [|j]; simpl in Hl.
    + injection Hl as <-. rewrite En. intros [= ->].
      rewrite (proj2 (eq_str_true _ _) eq_refl) in Eq. discriminate Eq.
    + apply (IH k eq_refl j m); [lia|exact Hl].
Qed.

(** What a successful lookup did, in terms of the two searches. *)
Lemma get_parameters_returns (caller test_suite test_case : string)
    (d d' : definitions) (r : case_ref) :
  get_parameters caller test_suite test_case d = (d', Returns r) ->
  let tc := if String.eqb test_case "" then caller else test_case in
  let ts := last_component test_suite in
  exists s,
    first_suite ts (test_suites d) = Some (suite_ix r, s)
    /\ first_case tc (s_testcases s) = Returns (Some (case_ix r))
    /\ d' = setitem r "test_suite" (VStr ts) d.
Proof.
  unfold get_parameters, mbind, get, lift, raise, ret, modify.
  destruct (first_suite _ (test_suites d)) as [[si s]|] eqn:Es; [|discriminate].
  destruct (first_case _ (s_testcases s)) as [[ci|]|] eqn:Ec; try discriminate.
  intros [= <- <-]. exists s. auto.
Qed.

(** X18.  Looking a test case up again changes nothing more and gives
    the same reference. *)
Theorem get_parameters_again (caller test_suite test_case : string)
    (d d' : definitions) (r : case_ref) :
  get_parameters caller test_suite test_case d = (d', Returns r) ->
  get_parameters caller test_suite test_case d' = (d', Returns r).
Proof.
  intros H. apply get_parameters_returns in H as (s & Es & Ec & ->).
  unfold get_parameters, mbind, get, lift, raise, ret, modify.
  unfold setitem at 1. cbn [test_suites].
  erewrite first_suite_alter; [|reflexivity|exact Es].
  cbn [s_testcases]. rewrite first_case_alter, Ec.
  2:{ intros m. apply lookup_insert_ne. discriminate. }
  destruct r as [si ci]. cbn [suite_ix case_ix].
  fold (setitem {| suite_ix := si; case_ix := ci |} "test_suite"
          (VStr (last_component test_suite)) d).
  rewrite setitem_twice. reflexivity.
Qed.

(** X19.  The lookup takes the first match: no earlier suite has the
    suite's name, and no earlier case of that suite has the case's
    name. *)
Theorem get_parameters_takes_the_first_match
    (caller test_suite test_case : string) (d d' : definitions) (r : case_ref) :
  get_parameters caller test_suite test_case d = (d', Returns r) ->
  let tc := if String.eqb test_case "" then caller else test_case in
  let ts := last_component test_suite in
  (forall j s', j < suite_ix r -> test_suites d !! j = Some s' -> s_name s' <> ts)
  /\ (forall s j m, test_suites d !! suite_ix r = Some s -> j < case_ix r ->
                    s_testcases s !! j = Some m -> m !! "name" <> Some (VStr tc)).
Proof.
  intros H tc ts. apply get_parameters_returns in H as (s & Es & Ec & _).
  fold tc in Ec. fold ts in Es. split.
  - exact (first_suite_min ts _ _ _ Es).
  - intros s0 j m Hs. apply first_suite_Some in Es as [Hs' _].
    rewrite Hs' in Hs. injection Hs as <-. exact (first_case_min tc _ _ Ec j m).
Qed.

(** X20.  After a successful lookup the mapping referred to is the
    mapping as it was, with [test_suite] set to the last path component
    of the suite. *)
Theorem get_parameters_adds_test_suite
    (caller test_suite test_case : string) (d d' : definitions) (r : case_ref) :
  get_parameters caller test_suite test_case d = (d', Returns r) ->
  exists m,
    deref d r = Some m
    /\ deref d' r = Some (<["test_suite" := VStr (last_component test_suite)]> m).
Proof.
  intros H. apply get_parameters_returns in H as (s & Es & Ec & ->).
  apply first_suite_Some in Es as [Hs _].
  apply first_case_Some in Ec as (m & Hm & _).
  exists m. rewrite deref_setitem_eq. unfold deref. rewrite Hs. simpl.
  rewrite Hm. auto.
Qed.


Lemma split_on_cons (sep c : ascii) (rest : string) :
  split_on sep (String c rest)
  = if Ascii.eqb c sep then EmptyString :: split_on sep rest
    else match split_on sep rest with
         | [] => [String c EmptyString]
         | w :: ws => String c w :: ws
         end.
Proof. reflexivity. Qed.

Lemma split_on_nonempty (sep : ascii) (s : string) : split_on sep s <> [].
Proof.
  destruct s as [|c rest]; [discriminate|]. rewrite split_on_cons.
  destruct (Ascii.eqb c sep); [discriminate|].
  destruct (split_on sep rest); discriminate.
Qed.

Lemma split_on_two (sep : ascii) (a b : string) :
  2 ≤ length (split_on sep (a ++ String sep b)).
Proof.
  induction a as [|c a IH].
  - change ("" ++ String sep b)%string with (String sep b).
    rewrite split_on_cons, Ascii.eqb_refl. simpl.
    pose proof (split_on_nonempty sep b). destruct (split_on sep b); [contradiction|].
    simpl. lia.
  - change (String c a ++ String sep b)%string with (String c (a ++ String sep b)).
    rewrite split_on_cons. destruct (Ascii.eqb c sep); [simpl; lia|].
    destruct (split_on sep (a ++ String sep b)); simpl in *; lia.
Qed.

Lemma last_split_app (sep : ascii) (a b d : string) :
  List.last (split_on sep (a ++ String sep b)) d = List.last (split_on sep b) d.
Proof.
  induction a as [|c a IH].
  - change ("" ++ String sep b)%string with (String sep b).
    rewrite split_on_cons, Ascii.eqb_refl.
    pose proof (split_on_nonempty sep b). destruct (split_on sep b); [contradiction|].
    reflexivity.
  - change (String c a ++ String sep b)%string with (String c (a ++ String sep b)).
    rewrite split_on_cons. pose proof (split_on_two sep a b) as H2.
    destruct (split_on sep (a ++ String sep b)) as [|w [|w' ws]];
      [simpl in H2; lia..|].
    destruct (Ascii.eqb c sep); exact IH.
Qed.

Lemma no_sep_cons (sep c : ascii) (rest : string) :
  str_in (String sep EmptyString) (String c rest) = false ->
  Ascii.eqb c sep = false /\ str_in (String sep EmptyString) rest = false.
Proof.
  cbn [str_in String.prefix].
  destruct (Ascii.ascii_dec sep c) as [->|Hne].
  - destruct rest; discriminate.
  - intros H. split; [|exact H].
    destruct (Ascii.eqb_spec c sep); [congruence|reflexivity].
Qed.

Lemma split_on_no_sep (sep : ascii) (s : string) :
  str_in (String sep EmptyString) s = false -> split_on sep s = [s].
Proof.
  induction s as [|c rest IH]; intros H; [reflexivity|].
  apply no_sep_cons in H as [Hc Hrest].
  rewrite split_on_cons, Hc, (IH Hrest). reflexivity.
Qed.

Lemma last_component_path (dir name : string) :
  str_in "/" name = false ->
  last_component (dir ++ "/" ++ name) = name.
Proof.
  intros H. unfold last_component.
  change (dir ++ "/" ++ name)%string with (dir ++ String "/"%char name)%string.
  rewrite last_split_app, (split_on_no_sep _ _ H). reflexivity.
Qed.

(** X21.  The suite is looked up by file name: a directory part in
    front of a name without [/] makes no difference. *)
Theorem get_parameters_ignores_the_directory
    (dir name caller test_case : string) (d : definitions) :
  str_in "/" name = false ->
  last_component (dir ++ "/" ++ name) = name
  /\ get_parameters caller (dir ++ "/" ++ name) test_case d
     = get_parameters caller name test_case d.
Proof.
  intros H. split; [exact (last_component_path dir name H)|].
  unfold get_parameters. rewrite (last_component_path dir name H).
  unfold last_component. rewrite (split_on_no_sep _ _ H). reflexivity.
Qed.

End LookupMore.

(** ** More on the result recorder *)

Section RecorderMore.

Import Recorder.

Context {St : Type}.
Variable yaml_dump : gmap string value -> string.
Variable py_str : value -> string.

(** [_write_results] either writes the one file or changes nothing. *)
Lemma write_results_cases (self : testops (St := St)) (w w' : world)
    (o : outcome unit) :
  write_results yaml_dump py_str self w = (w', o) ->
  (o <> Returns tt /\ w' = w)
  \/ (o = Returns tt
      /\ exists path m,
           deref (w_defs w') (test_parameters self) = Some m
           /\ w_defs w' = w_defs w
           /\ denied (w_fs w') = denied (w_fs w)
           /\ files (w_fs w') = <[path := yaml_dump m]> (files (w_fs w))).
Proof.
  unfold write_results, param_get, mbind, get, lift, raise, getitem.
  destruct (deref (w_defs w) (test_parameters self)) as [m|] eqn:Hd.
  2:{ intros [= <- <-]. left. split; [discriminate|reflexivity]. }
  destruct (m !! "test_suite") as [ts|].
  2:{ intros [= <- <-]. left. split; [discriminate|reflexivity]. }
  destruct ts; try (intros [= <- <-]; left; split; [discriminate|reflexivity]).
  rewrite Hd. destruct (m !! "dut") as [dn|].
  2:{ intros [= <- <-]. left. split; [discriminate|reflexivity]. }
  rewrite Hd. destruct (m !! "name") as [n|].
  2:{ intros [= <- <-]. left. split; [discriminate|reflexivity]. }
  rewrite Hd. unfold export_yaml, write_file.
  destruct (bool_decide _).
  - intros [= <- <-]. left. split; [discriminate|reflexivity].
  - intros [= <- <-]. right. split; [reflexivity|].
    eexists _, m. cbn [w_defs w_fs files denied set_files]. auto.
Qed.

(** X22.  [post_testcase] writes at most one file: when it raises, the
    files are as they were; when it returns, one path holds the dump of
    the recorded mapping and everything else is as it was. *)
Theorem post_testcase_writes_at_most_one_file
    (self : testops (St := St)) (w w' : world) (o : outcome unit) :
  post_testcase yaml_dump py_str self w = (w', o) ->
  (o <> Returns tt /\ w_fs w' = w_fs w)
  \/ (o = Returns tt
      /\ denied (w_fs w') = denied (w_fs w)
      /\ exists path m,
           deref (w_defs w') (test_parameters self) = Some m
           /\ files (w_fs w') = <[path := yaml_dump m]> (files (w_fs w))).
Proof.
  intros H.
  assert (Hkeep : forall x : world * outcome unit,
            x = (w', o) -> w_fs (fst x) = w_fs w -> snd x <> Returns tt ->
            o <> Returns tt /\ w_fs w' = w_fs w).
  { intros x -> Hfs Hne. auto. }
  destruct (test_result self) as [tr|] eqn:Etr.
  2:{ left. unfold post_testcase in H. rewrite Etr in H.
      unfold mbind, param_set, on_defs, modify, attr, raise in H.
      cbn [w_defs w_fs] in H. apply (Hkeep _ H); [reflexivity|discriminate]. }
  destruct (actual_output self) as [ao|] eqn:Eao.
  2:{ left. unfold post_testcase in H. rewrite Etr, Eao in H.
      unfold mbind, param_set, on_defs, modify, attr, raise, ret in H.
      cbn [w_defs w_fs] in H. apply (Hkeep _ H); [reflexivity|discriminate]. }
  destruct (deref (w_defs w) (test_parameters self)) as [m0|] eqn:Hd.
  2:{ left. unfold post_testcase in H. rewrite Etr, Eao in H.
      unfold mbind, param_set, on_defs, modify, attr, ret in H.
      cbn [w_defs w_fs] in H.
      unfold param_get, mbind, get, lift in H. cbn [w_defs w_fs] in H.
      rewrite !deref_setitem_eq, Hd in H.
      apply (Hkeep _ H); [reflexivity|discriminate]. }
  destruct (post_testcase_run yaml_dump py_str self w tr ao m0 Etr Eao Hd)
    as (d1 & Hrun & _).
  rewrite Hrun in H.
  apply write_results_cases in H as [[Hne ->]|(-> & path & m & Hm & _ & Hden & Hf)].
  - left. auto.
  - right. split; [reflexivity|]. split; [exact Hden|]. eauto.
Qed.

(** [__init__] up to the show command: the lookup, the expected output
    and the interface list. *)
Lemma init_run
    (caller test_suite : string) (d : FanOut.dut (St := St)) (w : world)
    (d1 : definitions) (tp : case_ref) (m tbl : gmap string value)
    (eo il sc : value) :
  get_parameters "__init__" test_suite caller (w_defs w) = (d1, Returns tp) ->
  deref d1 tp = Some m ->
  m !! "expected_output" = Some eo ->
  FanOut.output d = Some tbl ->
  tbl !! "interface_list" = Some il ->
  m !! "show_cmd" = Some sc ->
  init caller test_suite d w
  = (let w1 := {| w_defs := d1; w_fs := w_fs w |} in
     match (if truthy sc then
              match sc with
              | VStr c =>
                  lift (verify_show_cmd c d) ;;;
                  entry <<- lift (output_get d c) ;;
                  lift (getitem entry "text")
              | VList _ | VDict _ => raise TypeError
              | _ => raise AssertionError
              end
            else ret (VStr "")) w1 with
     | (w2, Returns txt) =>
         (w2, Returns {| test_case := caller;
                         test_parameters := tp;
                         expected_output := eo;
                         interface_list := il;
                         dut_name := FanOut.name d;
                         show_cmd := sc;
                         dut := d;
                         show_cmd_txt := txt;
                         comment := "";
                         output_msg := "";
                         test_result := None;
                         actual_output := None |})
     | (w2, Raises e) => (w2, Raises e)
     end).
Proof.
  intros Hgp Hd Heo Hout Hil Hsc.
  unfold init, mbind at 1, on_defs. rewrite Hgp.
  unfold mbind at 1, param_get at 1, mbind at 1, get. cbn [w_defs w_fs].
  rewrite Hd. unfold lift at 1, getitem at 1. rewrite Heo.
  unfold mbind at 1, lift at 1, output_get at 1. rewrite Hout.
  unfold getitem at 1. rewrite Hil.
  unfold mbind at 1, param_get at 1, mbind at 1, get. cbn [w_defs w_fs].
  rewrite Hd. unfold lift at 1, getitem at 1. rewrite Hsc.
  unfold mbind at 1. reflexivity.
Qed.

(** X23.  [__init__] raises [AssertionError] when the test case names
    a show command that has no entry in the device's output table; the
    lookup has written [test_suite] into the definitions by then. *)
Theorem init_asserts_the_show_command_was_run
    (caller test_suite : string) (d : FanOut.dut (St := St)) (w : world)
    (d1 : definitions) (tp : case_ref) (m tbl : gmap string value)
    (eo il : value) (c : string) :
  get_parameters "__init__" test_suite caller (w_defs w) = (d1, Returns tp) ->
  deref d1 tp = Some m ->
  m !! "expected_output" = Some eo ->
  FanOut.output d = Some tbl ->
  tbl !! "interface_list" = Some il ->
  m !! "show_cmd" = Some (VStr c) ->
  c <> "" ->
  tbl !! c = None ->
  init caller test_suite d w
  = ({| w_defs := d1; w_fs := w_fs w |}, Raises AssertionError).
Proof.
  intros Hgp Hd Heo Hout Hil Hsc Hc Hnone.
  rewrite (init_run _ _ _ _ _ _ _ _ _ _ _ Hgp Hd Heo Hout Hil Hsc). cbn [truthy].
  destruct (String.eqb_spec c "") as [->|_]; [contradiction|]. cbn [negb].
  unfold mbind, lift, verify_show_cmd. rewrite Hout.
  rewrite bool_decide_eq_false_2; [reflexivity|].
  rewrite Hnone. intros [x Hx]. discriminate Hx.
Qed.

(** X24.  For a test case whose [show_cmd] is empty or null,
    [__init__] does not consult the output table for a command and sets
    [show_cmd_txt] to the empty string. *)
Theorem init_without_show_command
    (caller test_suite : string) (d : FanOut.dut (St := St)) (w : world)
    (d1 : definitions) (tp : case_ref) (m tbl : gmap string value)
    (eo il sc : value) :
  get_parameters "__init__" test_suite caller (w_defs w) = (d1, Returns tp) ->
  deref d1 tp = Some m ->
  m !! "expected_output" = Some eo ->
  FanOut.output d = Some tbl ->
  tbl !! "interface_list" = Some il ->
  m !! "show_cmd" = Some sc ->
  truthy sc = false ->
  exists self,
    init caller test_suite d w
    = ({| w_defs := d1; w_fs := w_fs w |}, Returns self)
    /\ show_cmd_txt self = VStr "" /\ show_cmd self = sc
    /\ expected_output self = eo /\ test_parameters self = tp.
Proof.
  intros Hgp Hd Heo Hout Hil Hsc Hfalse.
  rewrite (init_run _ _ _ _ _ _ _ _ _ _ _ Hgp Hd Heo Hout Hil Hsc), Hfalse.
  eexists. split; [reflexivity|]. auto.
Qed.

End RecorderMore.

(** ** The lookup and the recorder at more test cases *)

Section LabRecorderMore.

Import Recorder Examples MoreExamples.

Lemma peers_lookup :
  get_parameters "test_if_ntp_associated_with_peers_on_" ntp_suite "" lab_defs
  = (fst (get_parameters "test_if_ntp_associated_with_peers_on_" ntp_suite ""
            lab_defs), Returns peers_case).
Proof. vm_compute. reflexivity. Qed.

Lemma sync_lookup :
  get_parameters "__init__" ntp_suite "test_if_ntp_is_synchronized_on_" lab_defs
  = (sync_defs, Returns sync_case).
Proof. vm_compute. reflexivity. Qed.

Lemma files_lookup :
  get_parameters "__init__" files_suite "test_if_files_on_" files_defs
  = (files_looked_up, Returns memory_case).
Proof. vm_compute. reflexivity. Qed.

(** X18 at the memory test. *)
Lemma get_parameters_again_witness :
  get_parameters "test_memory_utilization_on_" memory_suite "" lab_defs
  = (lab_defs_looked_up, Returns memory_case)
  /\ get_parameters "test_memory_utilization_on_" memory_suite "" lab_defs_looked_up
     = (lab_defs_looked_up, Returns memory_case).
Proof.
  split; [exact lab_lookup|].
  exact (get_parameters_again _ _ _ _ _ _ lab_lookup).
Defined.

(** X19 at the second case of the second suite. *)
Lemma get_parameters_first_match_witness :
  get_parameters "test_if_ntp_associated_with_peers_on_" ntp_suite "" lab_defs
  = (fst (get_parameters "test_if_ntp_associated_with_peers_on_" ntp_suite ""
            lab_defs), Returns peers_case)
  /\ (forall j s', j < suite_ix peers_case -> test_suites lab_defs !! j = Some s' ->
                   s_name s' <> "test_ntp.py")
  /\ (forall s j m, test_suites lab_defs !! suite_ix peers_case = Some s ->
                    j < case_ix peers_case -> s_testcases s !! j = Some m ->
                    m !! "name" <> Some (VStr "test_if_ntp_associated_with_peers_on_")).
Proof.
  split; [exact peers_lookup|].
  exact (get_parameters_takes_the_first_match _ _ _ _ _ _ peers_lookup).
Defined.

(** X20 at the memory test. *)
Lemma get_parameters_adds_test_suite_witness :
  get_parameters "test_memory_utilization_on_" memory_suite "" lab_defs
  = (lab_defs_looked_up, Returns memory_case)
  /\ exists m,
       deref lab_defs memory_case = Some m
       /\ deref lab_defs_looked_up memory_case
          = Some (<["test_suite" := VStr (last_component memory_suite)]> m).
Proof.
  split; [exact lab_lookup|].
  exact (get_parameters_adds_test_suite _ _ _ _ _ _ lab_lookup).
Defined.

(** X21 at the memory suite's file. *)
Lemma get_parameters_ignores_the_directory_witness :
  str_in "/" "test_memory.py" = false
  /\ last_component ("/vane/bin/tests/memory" ++ "/" ++ "test_memory.py")
     = "test_memory.py"
  /\ get_parameters "test_memory_utilization_on_"
       ("/vane/bin/tests/memory" ++ "/" ++ "test_memory.py") "" lab_defs
     = get_parameters "test_memory_utilization_on_" "test_memory.py" "" lab_defs.
Proof.
  split; [reflexivity|].
  exact (get_parameters_ignores_the_directory "/vane/bin/tests/memory"
           "test_memory.py" "test_memory_utilization_on_" "" lab_defs eq_refl).
Defined.

(** X22 at the failed memory test. *)
Lemma post_testcase_writes_one_file_witness :
  post_testcase dump_flat str_scalar failed_ops lab_world
  = (recorded_world, Returns tt)
  /\ ((Returns tt <> Returns tt /\ w_fs recorded_world = w_fs lab_world)
      \/ (Returns tt = Returns tt
          /\ denied (w_fs recorded_world) = denied (w_fs lab_world)
          /\ exists path m,
               deref (w_defs recorded_world) (test_parameters failed_ops) = Some m
               /\ files (w_fs recorded_world)
                  = <[path := dump_flat m]> (files (w_fs lab_world)))).
Proof.
  split; [exact lab_recorded|].
  exact (post_testcase_writes_at_most_one_file dump_flat str_scalar failed_ops
           lab_world recorded_world (Returns tt) lab_recorded).
Defined.

(** X23 at the NTP test, whose command the worker was not given. *)
Lemma init_asserts_witness :
  get_parameters "__init__" ntp_suite "test_if_ntp_is_synchronized_on_"
    (w_defs {| w_defs := lab_defs; w_fs := empty_fs |})
  = (sync_defs, Returns sync_case)
  /\ deref sync_defs sync_case = Some sync_params
  /\ sync_params !! "expected_output" = Some (VBool true)
  /\ FanOut.output lab_dut = Some lab_table
  /\ lab_table !! "interface_list"
     = Some (VList (FanOut.return_interfaces "DSR01" lab_defs))
  /\ sync_params !! "show_cmd" = Some (VStr "show ntp status")
  /\ "show ntp status" <> ""
  /\ lab_table !! "show ntp status" = None
  /\ init "test_if_ntp_is_synchronized_on_" ntp_suite lab_dut
       {| w_defs := lab_defs; w_fs := empty_fs |}
     = ({| w_defs := sync_defs; w_fs := empty_fs |}, Raises AssertionError).
Proof.
  assert (H1 : deref sync_defs sync_case = Some sync_params)
    by (vm_compute; reflexivity).
  assert (H2 : sync_params !! "expected_output" = Some (VBool true))
    by (vm_compute; reflexivity).
  assert (H3 : FanOut.output lab_dut = Some lab_table)
    by (vm_compute; reflexivity).
  assert (H4 : lab_table !! "interface_list"
               = Some (VList (FanOut.return_interfaces "DSR01" lab_defs)))
    by (vm_compute; reflexivity).
  assert (H5 : sync_params !! "show_cmd" = Some (VStr "show ntp status"))
    by (vm_compute; reflexivity).
  assert (H6 : lab_table !! "show ntp status" = None)
    by (vm_compute; reflexivity).
  split; [exact sync_lookup|]. split; [exact H1|]. split; [exact H2|].
  split; [exact H3|]. split; [exact H4|]. split; [exact H5|].
  split; [discriminate|]. split; [exact H6|].
  exact (init_asserts_the_show_command_was_run
           "test_if_ntp_is_synchronized_on_" ntp_suite lab_dut
           {| w_defs := lab_defs; w_fs := empty_fs |} sync_defs sync_case
           sync_params lab_table _ _ "show ntp status"
           sync_lookup H1 H2 H3 H4 H5 ltac:(discriminate) H6).
Defined.

(** X24 at the file system test, whose case has no show command. *)
Lemma init_without_show_command_witness :
  get_parameters "__init__" files_suite "test_if_files_on_"
    (w_defs {| w_defs := files_defs; w_fs := empty_fs |})
  = (files_looked_up, Returns memory_case)
  /\ deref files_looked_up memory_case = Some files_params
  /\ files_params !! "expected_output" = Some (VBool false)
  /\ FanOut.output lab_dut = Some lab_table
  /\ lab_table !! "interface_list"
     = Some (VList (FanOut.return_interfaces "DSR01" lab_defs))
  /\ files_params !! "show_cmd" = Some VNone
  /\ truthy VNone = false
  /\ exists self,
       init "test_if_files_on_" files_suite lab_dut
         {| w_defs := files_defs; w_fs := empty_fs |}
       = ({| w_defs := files_looked_up; w_fs := empty_fs |}, Returns self)
       /\ show_cmd_txt self = VStr "" /\ show_cmd self = VNone
       /\ expected_output self = VBool false
       /\ test_parameters self = memory_case.
Proof.
  assert (H1 : deref files_looked_up memory_case = Some files_params)
    by (vm_compute; reflexivity).
  assert (H2 : files_params !! "expected_output" = Some (VBool false))
    by (vm_compute; reflexivity).
  assert (H3 : FanOut.output lab_dut = Some lab_table)
    by (vm_compute; reflexivity).
  assert (H4 : lab_table !! "interface_list"
               = Some (VList (FanOut.return_interfaces "DSR01" lab_defs)))
    by (vm_compute; reflexivity).
  assert (H5 : files_params !! "show_cmd" = Some VNone)
    by (vm_compute; reflexivity).
  split; [exact files_lookup|]. split; [exact H1|]. split; [exact H2|].
  split; [exact H3|]. split; [exact H4|]. split; [exact H5|].
  split; [reflexivity|].
  exact (init_without_show_command
           "test_if_files_on_" files_suite lab_dut
           {| w_defs := files_defs; w_fs := empty_fs |} files_looked_up memory_case
           files_params lab_table _ _ VNone
           files_lookup H1 H2 H3 H4 H5 eq_refl).
Defined.

End LabRecorderMore.

(** ** The commands the test cases need *)

Section ShowCmdsFacts.

Import ShowCmds.

Variable py_eq : value -> value -> bool.

Lemma py_in_true (c : value) (l : list value) :
  py_in py_eq c l = true -> exists y, y ∈ l /\ py_eq c y = true.
Proof.
  unfold py_in. intros H. apply List.existsb_exists in H as (y & Hy & He).
  exists y. split; [apply list_elem_of_In; exact Hy|exact He].
Qed.

Lemma py_in_false (c x : value) (l : list value) :
  py_in py_eq c l = false -> x ∈ l -> py_eq c x = false.
Proof.
  unfold py_in. intros H Hx.
  destruct (py_eq c x) eqn:E; [|reflexivity].
  rewrite <- H. symmetry. apply List.existsb_exists.
  exists x. split; [apply list_elem_of_In; exact Hx|exact E].
Qed.

Lemma add_cmd_cases (l : list value) (c : value) :
  (add_cmd py_eq l c = l ++ [c] /\ py_in py_eq c l = false /\ c <> VNone)
  \/ (add_cmd py_eq l c = l /\ (py_in py_eq c l = true \/ c = VNone)).
Proof.
  unfold add_cmd. destruct (py_in py_eq c l) eqn:Ein; simpl.
  - right. auto.
  - destruct c; simpl; auto; left; repeat split; auto; discriminate.
Qed.

Lemma found_once_nil : found_once py_eq [].
Proof. intros i j x y _ Hx. rewrite lookup_nil in Hx. discriminate. Qed.

Lemma found_once_snoc (l : list value) (c : value) :
  found_once py_eq l -> py_in py_eq c l = false -> found_once py_eq (l ++ [c]).
Proof.
  intros Hl Hc i j x y Hij Hx Hy.
  apply lookup_app_Some in Hy as [Hy|[Hlen Hy]].
  - apply lookup_app_Some in Hx as [Hx|[Hlen _]].
    + exact (Hl i j x y Hij Hx Hy).
    + apply lookup_lt_Some in Hy. lia.
  - destruct (j - length l) as [|k] eqn:Ek; [|destruct k; discriminate].
    injection Hy as <-.
    apply lookup_app_Some in Hx as [Hx|[Hlen' _]]; [|lia].
    apply (py_in_false c x l Hc). exact (list_elem_of_lookup_2 _ _ _ Hx).
Qed.

Lemma add_cmd_collected (P : value -> Prop) (l : list value) (c : value) :
  well_collected py_eq P l -> P c -> well_collected py_eq P (add_cmd py_eq l c).
Proof.
  intros (Hn & Hf & Hp) Hc.
  destruct (add_cmd_cases l c) as [(-> & Hin & Hne)|[-> _]].
  - split; [|split].
    + rewrite elem_of_app, list_elem_of_singleton. intros [H|H]; [tauto|congruence].
    + apply found_once_snoc; assumption.
    + intros x. rewrite elem_of_app, list_elem_of_singleton.
      intros [H| ->]; auto.
  - repeat split; assumption.
Qed.

Lemma cases_loop_collected (P : value -> Prop)
    (test_cases : list (gmap string value)) (l l' : list value) :
  (forall m c, m ∈ test_cases -> m !! "show_cmd" = Some c -> P c) ->
  well_collected py_eq P l ->
  cases_loop py_eq test_cases l = Returns l' ->
  well_collected py_eq P l'.
Proof.
  revert l. induction test_cases as [|m rest IH]; intros l HP Hl.
  - intros [= <-]. exact Hl.
  - cbn [cases_loop getitem bind].
    destruct (m !! "show_cmd") as [c|] eqn:Ec; [|discriminate].
    apply IH.
    + intros m' c' Hm'. apply HP. right. exact Hm'.
    + apply add_cmd_collected; [exact Hl|]. apply (HP m c); [left|exact Ec].
Qed.

Lemma suites_loop_collected (P : value -> Prop) (test_data : list suite)
    (suite_names todo : list string) (l l' : list value) :
  (forall s m c, s ∈ test_data -> m ∈ s_testcases s ->
                 m !! "show_cmd" = Some c -> P c) ->
  well_collected py_eq P l ->
  suites_loop py_eq test_data suite_names todo l = Returns l' ->
  well_collected py_eq P l'.
Proof.
  intros HP. revert l. induction todo as [|n rest IH]; intros l Hl.
  - intros [= <-]. exact Hl.
  - cbn [suites_loop].
    destruct (list_index n suite_names) as [i|]; [|discriminate].
    destruct (test_data !! i) as [s|] eqn:Es; [|discriminate].
    destruct (cases_loop py_eq (s_testcases s) l) as [l1|] eqn:Ec;
      try discriminate.
    cbn [bind]. apply IH.
    eapply cases_loop_collected; [|exact Hl|exact Ec].
    intros m c Hm Hc.
    apply (HP s m c); [exact (list_elem_of_lookup_2 _ _ _ Es)|exact Hm|exact Hc].
Qed.

(** X25.  The list [return_show_cmds] returns holds no [None], holds no
    value that [in] finds among the values before it, and holds only
    show commands of test cases of the definitions. *)
Theorem return_show_cmds_result (d : definitions) (cmds : list value) :
  return_show_cmds py_eq d = Returns cmds ->
  (VNone ∉ cmds)
  /\ found_once py_eq cmds
  /\ forall c, c ∈ cmds -> is_show_cmd_of d c.
Proof.
  unfold return_show_cmds. intros H.
  apply (suites_loop_collected (is_show_cmd_of d)) in H; [exact H| |].
  - intros s m c Hs Hm Hc. exists s, m. auto.
  - split; [apply not_elem_of_nil|]. split; [apply found_once_nil|].
    intros c Hc. apply elem_of_nil in Hc. contradiction.
Qed.

(** The list only grows. *)
Lemma add_cmd_prefix (l : list value) (c : value) :
  l `prefix_of` add_cmd py_eq l c.
Proof.
  destruct (add_cmd_cases l c) as [(-> & _)|[-> _]];
    [apply prefix_app_r|]; reflexivity.
Qed.

Lemma cases_loop_prefix (test_cases : list (gmap string value))
    (l l' : list value) :
  cases_loop py_eq test_cases l = Returns l' -> l `prefix_of` l'.
Proof.
  revert l. induction test_cases as [|m rest IH]; intros l.
  - intros [= <-]. reflexivity.
  - cbn [cases_loop getitem bind].
    destruct (m !! "show_cmd") as [c|]; [|discriminate].
    intros H. etrans; [apply add_cmd_prefix|exact (IH _ H)].
Qed.

Lemma suites_loop_prefix (test_data : list suite)
    (suite_names todo : list string) (l l' : list value) :
  suites_loop py_eq test_data suite_names todo l = Returns l' ->
  l `prefix_of` l'.
Proof.
  revert l. induction todo as [|n rest IH]; intros l.
  - intros [= <-]. reflexivity.
  - cbn [suites_loop].
    destruct (list_index n suite_names) as [i|]; [|discriminate].
    destruct (test_data !! i) as [s|]; [|discriminate].
    destruct (cases_loop py_eq (s_testcases s) l) as [l1|] eqn:Ec;
      try discriminate.
    cbn [bind]. intros H.
    etrans; [exact (cases_loop_prefix _ _ _ Ec)|exact (IH _ H)].
Qed.

Lemma covered_prefix (l l' : list value) (c : value) :
  l `prefix_of` l' -> covered py_eq l c -> covered py_eq l' c.
Proof.
  intros [k ->] [H|(y & Hy & He)].
  - left. apply elem_of_app. auto.
  - right. exists y. split; [apply elem_of_app; auto|exact He].
Qed.

Lemma add_cmd_covers (l : list value) (c : value) :
  c <> VNone -> covered py_eq (add_cmd py_eq l c) c.
Proof.
  intros Hne. destruct (add_cmd_cases l c) as [(-> & _)|[-> [Hin|Hn]]].
  - left. apply elem_of_app. right. apply list_elem_of_singleton. reflexivity.
  - right. exact (py_in_true c l Hin).
  - contradiction.
Qed.

Lemma cases_loop_covers (test_cases : list (gmap string value))
    (l l' : list value) (m : gmap string value) (c : value) :
  cases_loop py_eq test_cases l = Returns l' ->
  m ∈ test_cases -> m !! "show_cmd" = Some c -> c <> VNone ->
  covered py_eq l' c.
Proof.
  revert l. induction test_cases as [|m0 rest IH]; intros l H Hm Hc Hne.
  - apply elem_of_nil in Hm. contradiction.
  - cbn [cases_loop getitem bind] in H.
    destruct (m0 !! "show_cmd") as [c0|] eqn:Ec; [|discriminate].
    apply elem_of_cons in Hm as [->|Hm].
    + rewrite Hc in Ec. injection Ec as <-.
      apply (covered_prefix _ _ _ (cases_loop_prefix _ _ _ H)).
      apply add_cmd_covers. exact Hne.
    + exact (IH _ H Hm Hc Hne).
Qed.

Lemma suites_loop_covers (test_data : list suite)
    (suite_names todo : list string) (l l' : list value)
    (i : nat) (s : suite) (m : gmap string value) (c : value) :
  suites_loop py_eq test_data suite_names todo l = Returns l' ->
  s_name s ∈ todo ->
  list_index (s_name s) suite_names = Some i ->
  test_data !! i = Some s ->
  m ∈ s_testcases s -> m !! "show_cmd" = Some c -> c <> VNone ->
  covered py_eq l' c.
Proof.
  intros H Hin Hi Hs Hm Hc Hne. revert l H.
  induction todo as [|n rest IH]; intros l H.
  - apply elem_of_nil in Hin. contradiction.
  - cbn [suites_loop] in H.
    destruct (list_index n suite_names) as [j|] eqn:Ej; [|discriminate].
    destruct (test_data !! j) as [s'|] eqn:Es'; [|discriminate].
    destruct (cases_loop py_eq (s_testcases s') l) as [l1|] eqn:Ec;
      try discriminate.
    cbn [bind] in H.
    destruct (String.eqb_spec n (s_name s)) as [->|Hn].
    + rewrite Hi in Ej. injection Ej as <-. rewrite Hs in Es'.
      injection Es' as <-.
      apply (covered_prefix _ _ _ (suites_loop_prefix _ _ _ _ _ H)).
      exact (cases_loop_covers _ _ _ m c Ec Hm Hc Hne).
    + apply elem_of_cons in Hin as [Heq|Hin]; [congruence|].
      exact (IH Hin _ H).
Qed.

(** X26.  Every show command other than [None] of a test case of a
    suite that is the first of its name is in the returned list, or is
    found in it by [in]. *)
Theorem return_show_cmds_covers_the_first_suites
    (d : definitions) (cmds : list value) (i : nat) (s : suite)
    (m : gmap string value) (c : value) :
  return_show_cmds py_eq d = Returns cmds ->
  first_of_its_name d i s ->
  m ∈ s_testcases s ->
  m !! "show_cmd" = Some c ->
  c <> VNone ->
  c ∈ cmds \/ exists y, y ∈ cmds /\ py_eq c y = true.
Proof.
  unfold return_show_cmds. intros H [Hs Hi] Hm Hc Hne.
  apply (suites_loop_covers _ _ _ _ _ i s m c H); try assumption.
  apply list_elem_of_fmap. exists s. split; [reflexivity|].
  exact (list_elem_of_lookup_2 _ _ _ Hs).
Qed.

(** The loop reads the suites that are first of their name, and no
    other. *)
Lemma suites_loop_ext (test_data test_data' : list suite)
    (suite_names todo : list string) (l : list value) :
  (forall n i, n ∈ todo -> list_index n suite_names = Some i ->
               test_data' !! i = test_data !! i) ->
  suites_loop py_eq test_data' suite_names todo l
  = suites_loop py_eq test_data suite_names todo l.
Proof.
  revert l. induction todo as [|n rest IH]; intros l Hext; [reflexivity|].
  cbn [suites_loop].
  destruct (list_index n suite_names) as [i|] eqn:Ei; [|reflexivity].
  rewrite (Hext n i); [|left|exact Ei].
  destruct (test_data !! i) as [s|]; [|reflexivity].
  destruct (cases_loop py_eq (s_testcases s) l) as [l1|]; try reflexivity.
  cbn [bind]. apply IH. intros n' i' Hn'. apply Hext. right. exact Hn'.
Qed.

(** X27.  A suite that has the name of an earlier suite is never read:
    definitions with the same suite names that agree on the suites that
    are first of their name give the same result. *)
Theorem return_show_cmds_skips_shadowed_suites (d d' : definitions) :
  s_name <$> test_suites d' = s_name <$> test_suites d ->
  (forall i s, first_of_its_name d i s -> test_suites d' !! i = Some s) ->
  return_show_cmds py_eq d' = return_show_cmds py_eq d.
Proof.
  intros Hnames Hfirst. unfold return_show_cmds. rewrite Hnames.
  apply suites_loop_ext. intros n i Hn Hi.
  pose proof (list_index_Some _ _ _ Hi) as Hl.
  apply list_lookup_fmap_Some in Hl as (s & -> & Hs).
  rewrite Hs. apply Hfirst. split; assumption.
Qed.

(** The loops return or raise [KeyError]. *)
Lemma cases_loop_outcome (test_cases : list (gmap string value))
    (l : list value) :
  (Forall (fun m => is_Some (m !! "show_cmd")) test_cases
   /\ exists l', cases_loop py_eq test_cases l = Returns l')
  \/ (Exists (fun m => m !! "show_cmd" = None) test_cases
      /\ cases_loop py_eq test_cases l = Raises (KeyError "show_cmd")).
Proof.
  revert l. induction test_cases as [|m rest IH]; intros l.
  - left. split; [constructor|]. eexists. reflexivity.
  - cbn [cases_loop getitem bind].
    destruct (m !! "show_cmd") as [c|] eqn:Ec.
    + destruct (IH (add_cmd py_eq l c)) as [[Hall Hr]|[Hex Hr]].
      * left. split; [|exact Hr]. constructor; [rewrite Ec; eauto|exact Hall].
      * right. split; [|exact Hr]. apply Exists_cons_tl. exact Hex.
    + right. split; [|reflexivity]. apply Exists_cons_hd. exact Ec.
Qed.

Lemma suites_loop_outcome (test_data : list suite) (todo : list string)
    (l : list value) :
  todo ⊆ s_name <$> test_data ->
  ((forall n i s, n ∈ todo -> list_index n (s_name <$> test_data) = Some i ->
                  test_data !! i = Some s ->
                  Forall (fun m => is_Some (m !! "show_cmd")) (s_testcases s))
   /\ exists l', suites_loop py_eq test_data (s_name <$> test_data) todo l
                 = Returns l')
  \/ ((exists n i s, n ∈ todo
                     /\ list_index n (s_name <$> test_data) = Some i
                     /\ test_data !! i = Some s
                     /\ Exists (fun m => m !! "show_cmd" = None) (s_testcases s))
      /\ suites_loop py_eq test_data (s_name <$> test_data) todo l
         = Raises (KeyError "show_cmd")).
Proof.
  revert l. induction todo as [|n rest IH]; intros l Hsub.
  - left. split; [|eexists; reflexivity].
    intros n i s Hn. apply elem_of_nil in Hn. contradiction.
  - cbn [suites_loop].
    assert (Hn : n ∈ s_name <$> test_data) by (apply Hsub; left).
    destruct (list_index_elem n _ Hn) as [i Hi]. rewrite Hi.
    pose proof (list_index_Some _ _ _ Hi) as Hl.
    apply list_lookup_fmap_Some in Hl as (s & Hname & Hs).
    rewrite Hs.
    destruct (cases_loop_outcome (s_testcases s) l) as [[Hall [l1 Hr]]|[Hex Hr]];
      rewrite Hr; cbn [bind].
    + destruct (IH l1) as [[Hrest Hret]|[(n' & i' & s' & Hn' & Hi' & Hs' & Hex) Hraise]].
      * intros x Hx. apply Hsub. right. exact Hx.
      * left. split; [|exact Hret].
        intros n' i' s' Hn' Hi' Hs'.
        apply elem_of_cons in Hn' as [->|Hn'].
        -- rewrite Hi in Hi'. injection Hi' as <-. rewrite Hs in Hs'.
           injection Hs' as <-. exact Hall.
        -- exact (Hrest n' i' s' Hn' Hi' Hs').
      * right. split; [|exact Hraise].
        exists n', i', s'. split; [right; exact Hn'|]. auto.
    + right. split; [|reflexivity]. exists n, i, s. split; [left|]. auto.
Qed.

(** X28.  For definitions whose suites each have a name and a list of
    test cases: [return_show_cmds] returns when every test case of every
    suite that is the first of its name has a [show_cmd], and raises
    [KeyError] for [show_cmd] when one of these test cases has none. *)
Theorem return_show_cmds_needs_every_show_cmd (d : definitions) :
  (all_have_show_cmd d ->
   exists cmds, return_show_cmds py_eq d = Returns cmds)
  /\ (forall i s m,
        first_of_its_name d i s -> m ∈ s_testcases s ->
        m !! "show_cmd" = None ->
        return_show_cmds py_eq d = Raises (KeyError "show_cmd")).
Proof.
  unfold return_show_cmds, all_have_show_cmd, first_of_its_name.
  destruct (suites_loop_outcome (test_suites d) (s_name <$> test_suites d) [])
    as [[Hall [l' Hr]]|[(n & i & s & Hn & Hi & Hs & Hex) Hr]];
    [reflexivity| |]; rewrite Hr.
  - split; [eauto|].
    intros i s m [Hs Hi] Hm Hnone. exfalso.
    assert (Hn : s_name s ∈ s_name <$> test_suites d).
    { apply list_elem_of_fmap. exists s. split; [reflexivity|].
      exact (list_elem_of_lookup_2 _ _ _ Hs). }
    pose proof (Hall _ _ _ Hn Hi Hs) as Hf.
    rewrite Forall_forall in Hf. destruct (Hf m Hm) as [c Hc]. congruence.
  - split; [|reflexivity].
    intros Hall. exfalso.
    apply Exists_exists in Hex as (m & Hm & Hnone).
    pose proof (list_index_Some _ _ _ Hi) as Hl.
    apply list_lookup_fmap_Some in Hl as (s0 & -> & Hs0).
    rewrite Hs in Hs0. injection Hs0 as <-.
    destruct (Hall i s m (conj Hs Hi) Hm) as [c Hc]. congruence.
Qed.

End ShowCmdsFacts.

(** ** The commands of the lab's test cases *)

Section LabShowCmds.

Import ShowCmds Examples StepExamples.

Lemma lab_show_cmds :
  return_show_cmds eq_scalar lab_defs
  = Returns [VStr "show version"; VStr "show ntp status";
             VStr "show ntp associations"].
Proof. vm_compute. reflexivity. Qed.

Lemma shadowed_show_cmds :
  return_show_cmds eq_scalar shadowed_defs'
  = Returns [VStr "show version"; VStr "show ntp status";
             VStr "show ntp associations"].
Proof. vm_compute. reflexivity. Qed.

(** X25 at the lab's definitions. *)
Lemma return_show_cmds_result_witness :
  return_show_cmds eq_scalar lab_defs
  = Returns [VStr "show version"; VStr "show ntp status";
             VStr "show ntp associations"]
  /\ (VNone ∉ [VStr "show version"; VStr "show ntp status";
               VStr "show ntp associations"])
  /\ found_once eq_scalar [VStr "show version"; VStr "show ntp status";
                           VStr "show ntp associations"]
  /\ forall c, c ∈ [VStr "show version"; VStr "show ntp status";
                    VStr "show ntp associations"] ->
               is_show_cmd_of lab_defs c.
Proof.
  split; [exact lab_show_cmds|].
  exact (return_show_cmds_result eq_scalar lab_defs _ lab_show_cmds).
Defined.

(** X26 at the second NTP case. *)
Lemma return_show_cmds_covers_witness :
  return_show_cmds eq_scalar lab_defs
  = Returns [VStr "show version"; VStr "show ntp status";
             VStr "show ntp associations"]
  /\ (exists s m,
        first_of_its_name lab_defs 1 s
        /\ m ∈ s_testcases s
        /\ m !! "show_cmd" = Some (VStr "show ntp associations"))
  /\ (VStr "show ntp associations"
        ∈ [VStr "show version"; VStr "show ntp status";
           VStr "show ntp associations"]
      \/ exists y, y ∈ [VStr "show version"; VStr "show ntp status";
                        VStr "show ntp associations"]
                   /\ eq_scalar (VStr "show ntp associations") y = true).
Proof.
  split; [exact lab_show_cmds|].
  destruct (test_suites lab_defs !! 1) as [s|] eqn:Es; [|discriminate].
  destruct (s_testcases s !! 1) as [m|] eqn:Em;
    [|injection Es as <-; discriminate].
  assert (Hf : first_of_its_name lab_defs 1 s).
  { split; [exact Es|]. injection Es as <-. reflexivity. }
  assert (Hm : m ∈ s_testcases s) by exact (list_elem_of_lookup_2 _ _ _ Em).
  assert (Hc : m !! "show_cmd" = Some (VStr "show ntp associations")).
  { injection Es as <-. injection Em as <-. reflexivity. }
  split; [exists s, m; auto|].
  exact (return_show_cmds_covers_the_first_suites eq_scalar lab_defs _ 1 s m
           (VStr "show ntp associations") lab_show_cmds Hf Hm Hc
           ltac:(discriminate)).
Defined.

(** X27 at the lab with a second memory suite: whether its case has a
    [show_cmd] or not makes no difference. *)
Lemma return_show_cmds_skips_shadowed_witness :
  s_name <$> test_suites shadowed_defs = s_name <$> test_suites shadowed_defs'
  /\ (forall i s, first_of_its_name shadowed_defs' i s ->
                  test_suites shadowed_defs !! i = Some s)
  /\ return_show_cmds eq_scalar shadowed_defs
     = return_show_cmds eq_scalar shadowed_defs'.
Proof.
  assert (H1 : s_name <$> test_suites shadowed_defs
               = s_name <$> test_suites shadowed_defs') by reflexivity.
  assert (H2 : forall i s, first_of_its_name shadowed_defs' i s ->
                           test_suites shadowed_defs !! i = Some s).
  { intros i s [Hs Hi].
    destruct i as [|[|[|i]]]; [exact Hs|exact Hs| |discriminate Hs].
    injection Hs as <-. vm_compute in Hi. discriminate Hi. }
  split; [exact H1|]. split; [exact H2|].
  exact (return_show_cmds_skips_shadowed_suites eq_scalar shadowed_defs'
           shadowed_defs H1 H2).
Defined.

End LabShowCmds.

(** ** The test step documents *)

Section StepsFacts.

Import Steps.

Lemma listed_app (a b : list md_call) : listed (a ++ b) = listed a ++ listed b.
Proof. unfold listed. rewrite List.map_app, List.concat_app. reflexivity. Qed.

Lemma headers_app (a b : list md_call) :
  headers (a ++ b) = headers a ++ headers b.
Proof. unfold headers. rewrite List.map_app, List.concat_app. reflexivity. Qed.

Lemma listed_line (b : bool) (s : string) :
  listed (if b then [new_line s] else []) = [].
Proof. destruct b; reflexivity. Qed.

Lemma prefix_TD_not_TS (s : string) :
  String.prefix "TD:" s = true -> String.prefix "TS:" s = false.
Proof.
  destruct s as [|a s]; [discriminate|]. cbn [String.prefix].
  destruct (Ascii.ascii_dec "T" a) as [<-|_]; [|discriminate].
  destruct s as [|b s]; [discriminate|]. cbn [String.prefix].
  destruct (Ascii.ascii_dec "D" b) as [<-|_]; [|discriminate].
  reflexivity.
Qed.

Lemma stripped_cons (p step : string) (rest : list string) :
  stripped p (step :: rest)
  = (if String.prefix p step then [lstrip p step] else []) ++ stripped p rest.
Proof.
  unfold stripped. cbn [List.filter].
  destruct (String.prefix p step); reflexivity.
Qed.

(** What the loop has listed, with what it still holds at the end, is
    what it held at the start followed by the test steps; the list it
    holds is empty after a step equal to [last]. *)
Lemma steps_loop_listed (last : string) (steps : list string) (l : list string) :
  exists pending,
    listed (steps_loop last steps l) ++ pending = l ++ stripped "TS:" steps
    /\ match steps with
       | [] => pending = l
       | _ :: _ => List.last steps "" = last -> pending = []
       end.
Proof.
  revert l. induction steps as [|step rest IH]; intros l.
  - exists l. split; [|reflexivity]. unfold stripped. simpl.
    rewrite app_nil_r. reflexivity.
  - cbn [steps_loop]. rewrite stripped_cons.
    destruct (String.prefix "TD:" step) eqn:Etd.
    + rewrite (prefix_TD_not_TS _ Etd).
      destruct (String.eqb step last) eqn:Elast.
      * destruct (IH []) as (p & Hp & Hend). exists p. split.
        -- rewrite !listed_app, !listed_line, <- !app_assoc, Hp.
           destruct l; cbn; rewrite ?app_nil_r; reflexivity.
        -- destruct rest as [|r rest']; [intros _; exact Hend|exact Hend].
      * destruct (IH []) as (p & Hp & Hend). exists p. split.
        -- rewrite !listed_app, !listed_line, <- !app_assoc, Hp.
           destruct l; cbn; rewrite ?app_nil_r; reflexivity.
        -- destruct rest as [|r rest']; [intros _; exact Hend|exact Hend].
    + destruct (String.prefix "TS:" step) eqn:Ets.
      * destruct (String.eqb step last) eqn:Elast.
        -- destruct (IH []) as (p & Hp & Hend). exists p. split.
           ++ rewrite !listed_app, !listed_line, <- !app_assoc, Hp.
              cbn. rewrite app_nil_r, <- !app_assoc. reflexivity.
           ++ destruct rest as [|r rest']; [intros _; exact Hend|exact Hend].
        -- destruct (IH (l ++ [lstrip "TS:" step])) as (p & Hp & Hend).
           exists p. split.
           ++ rewrite !listed_app, !listed_line, <- !app_assoc, Hp.
              cbn. rewrite <- !app_assoc. reflexivity.
           ++ destruct rest as [|r rest']; [|exact Hend].
              cbn [List.last]. intros Heq. rewrite Heq, String.eqb_refl in Elast.
              discriminate.
      * destruct (String.eqb step last) eqn:Elast.
        -- destruct (IH []) as (p & Hp & Hend). exists p. split.
           ++ rewrite !listed_app, !listed_line, <- !app_assoc, Hp.
              cbn. rewrite app_nil_r. reflexivity.
           ++ destruct rest as [|r rest']; [intros _; exact Hend|exact Hend].
        -- destruct (IH l) as (p & Hp & Hend). exists p. split.
           ++ rewrite !listed_app, !listed_line, <- !app_assoc, Hp. reflexivity.
           ++ destruct rest as [|r rest']; [|exact Hend].
              cbn [List.last]. intros Heq. rewrite Heq, String.eqb_refl in Elast.
              discriminate.
Qed.

Lemma steps_loop_headers (last : string) (steps : list string) (l : list string) :
  headers (steps_loop last steps l) = stripped "TD:" steps.
Proof.
  revert l. induction steps as [|step rest IH]; intros l; [reflexivity|].
  cbn [steps_loop]. rewrite stripped_cons.
  destruct (String.prefix "TD:" step) eqn:Etd.
  - destruct (String.eqb step last);
      rewrite !headers_app, IH; destruct l; destruct (String.prefix "N/a" step);
      reflexivity.
  - destruct (String.prefix "TS:" step); destruct (String.eqb step last);
      rewrite !headers_app, IH; destruct (String.prefix "N/a" step);
      reflexivity.
Qed.

(** The calls for one file. *)
Lemma output_md_file_calls (steps : list string) (calls : list md_call) :
  output_md_file steps = Returns calls ->
  listed calls = stripped "TS:" steps
  /\ headers calls = stripped "TD:" steps
  /\ exists date rest body,
       steps = date :: rest
       /\ calls = new_line ("Date generated: " ++ date) :: body ++ [create_md_file].
Proof.
  unfold output_md_file. destruct steps as [|date rest] eqn:Es; [discriminate|].
  rewrite <- Es. intros [= <-]. split; [|split].
  - change (listed (new_line ?t :: ?b)) with (listed b).
    rewrite listed_app.
    destruct (steps_loop_listed (List.last steps "") steps []) as (p & Hp & Hend).
    rewrite Es in Hend. rewrite <- Es in Hend. rewrite (Hend eq_refl) in Hp.
    rewrite app_nil_r in Hp. rewrite Hp. cbn. rewrite app_nil_r. reflexivity.
  - change (headers (new_line ?t :: ?b)) with (headers b).
    rewrite headers_app, steps_loop_headers. cbn. rewrite app_nil_r. reflexivity.
  - exists date, rest, (steps_loop (List.last steps "") steps []).
    split; [exact Es|reflexivity].
Qed.

(** [output_md] makes one document per key, in order. *)
Lemma output_md_docs (test_comments : list (string * list string))
    (docs : list (string * list md_call)) :
  output_md test_comments = Returns docs ->
  Forall2 (fun kc doc => fst doc = fst kc
                         /\ output_md_file (snd kc) = Returns (snd doc))
          test_comments docs.
Proof.
  revert docs. induction test_comments as [|[key steps] rest IH]; intros docs.
  - intros [= <-]. constructor.
  - cbn [output_md].
    destruct (output_md_file steps) as [calls|] eqn:Ef; try discriminate.
    cbn [bind].
    destruct (output_md rest) as [docs'|]; try discriminate.
    cbn [bind]. intros [= <-]. constructor; [|apply IH; reflexivity].
    split; [reflexivity|exact Ef].
Qed.

(** X29.  No test step is lost or repeated: in the document of each
    file, the items of the numbered lists, taken together in order, are
    the steps that start with [TS:], and the headers are the steps that
    start with [TD:], each with [lstrip] applied; the document opens
    with the date line and is closed by [create_md_file]. *)
Theorem output_md_keeps_every_step (test_comments : list (string * list string))
    (docs : list (string * list md_call)) :
  output_md test_comments = Returns docs ->
  Forall2 (fun kc doc =>
             fst doc = fst kc
             /\ listed (snd doc) = stripped "TS:" (snd kc)
             /\ headers (snd doc) = stripped "TD:" (snd kc)
             /\ exists date rest body,
                  snd kc = date :: rest
                  /\ snd doc = new_line ("Date generated: " ++ date)
                                 :: body ++ [create_md_file])
          test_comments docs.
Proof.
  intros H. apply output_md_docs in H.
  induction H as [|kc doc tc ds [Hk Hf] _ IH]; constructor; [|exact IH].
  split; [exact Hk|]. exact (output_md_file_calls _ _ Hf).
Qed.

Lemma lstrip_head (chars s : string) :
  starts_with_any chars (lstrip chars s) = false.
Proof.
  induction s as [|c rest IH]; [reflexivity|].
  cbn [lstrip]. destruct (char_in c chars) eqn:E; [exact IH|].
  cbn [starts_with_any]. exact E.
Qed.

Lemma stripped_head (p : string) (steps : list string) (x : string) :
  x ∈ stripped p steps -> starts_with_any p x = false.
Proof.
  unfold stripped. intros H. apply list_elem_of_In, List.in_map_iff in H.
  destruct H as (s & <- & _). apply lstrip_head.
Qed.

Lemma lstrip_own_prefix (p rest : string) :
  lstrip p (p ++ rest) = lstrip p rest.
Proof.
  assert (H : forall q, (forall c, char_in c q = true -> char_in c p = true) ->
                        lstrip p (q ++ rest) = lstrip p rest).
  { induction q as [|c q IH]; intros Hq; [reflexivity|].
    change (String c q ++ rest)%string with (String c (q ++ rest)).
    cbn [lstrip]. rewrite (Hq c).
    - apply IH. intros c' Hc'. apply Hq. cbn [char_in]. rewrite Hc'.
      apply orb_true_r.
    - cbn [char_in]. rewrite Ascii.eqb_refl. reflexivity. }
  apply H. auto.
Qed.

Lemma prefix_app_self (p rest : string) : String.prefix p (p ++ rest) = true.
Proof.
  induction p as [|c p IH]; [destruct rest; reflexivity|].
  change (String c p ++ rest)%string with (String c (p ++ rest)).
  cbn [String.prefix]. destruct (Ascii.ascii_dec c c); [exact IH|contradiction].
Qed.

Lemma stripped_own_prefix (p rest : string) (steps : list string) :
  (p ++ rest)%string ∈ steps -> lstrip p rest ∈ stripped p steps.
Proof.
  intros H. unfold stripped. rewrite <- (lstrip_own_prefix p rest).
  apply list_elem_of_In, List.in_map, List.filter_In.
  split; [apply list_elem_of_In; exact H|apply prefix_app_self].
Qed.

(** X30.  [lstrip] takes characters, not a prefix: no list item of a
    document starts with [T], [S] or [:] and no header with [T], [D] or
    [:], and a step [TS:] followed by a text is listed as that text
    without its leading [T]s, [S]s and colons. *)
Theorem output_md_strips_leading_characters (steps : list string)
    (calls : list md_call) :
  output_md_file steps = Returns calls ->
  (forall x, x ∈ listed calls -> starts_with_any "TS:" x = false)
  /\ (forall x, x ∈ headers calls -> starts_with_any "TD:" x = false)
  /\ (forall text, ("TS:" ++ text)%string ∈ steps ->
                   lstrip "TS:" text ∈ listed calls).
Proof.
  intros H. apply output_md_file_calls in H as (Hl & Hh & _).
  rewrite Hl, Hh. split; [|split].
  - intros x. apply stripped_head.
  - intros x. apply stripped_head.
  - intros text. apply stripped_own_prefix.
Qed.

End StepsFacts.

(** ** The document of the NTP test file *)

Section LabSteps.

Import Steps StepExamples.

Lemma ntp_document :
  output_md [("tests/ntp/test_ntp.py", ntp_steps)]
  = Returns
      [("tests/ntp/test_ntp.py",
        [ new_line "Date generated: 04/11/2026 10:00:00";
          new_header 1 " Verify NTP is synchronized";
          new_list [" Run show ntp status"; "earch the output for synchronised"];
          create_md_file ])].
Proof. vm_compute. reflexivity. Qed.

Lemma ntp_document_file :
  output_md_file ntp_steps
  = Returns
      [ new_line "Date generated: 04/11/2026 10:00:00";
        new_header 1 " Verify NTP is synchronized";
        new_list [" Run show ntp status"; "earch the output for synchronised"];
        create_md_file ].
Proof. vm_compute. reflexivity. Qed.

(** X29 at the NTP test file. *)
Lemma output_md_keeps_every_step_witness :
  output_md [("tests/ntp/test_ntp.py", ntp_steps)]
  = Returns
      [("tests/ntp/test_ntp.py",
        [ new_line "Date generated: 04/11/2026 10:00:00";
          new_header 1 " Verify NTP is synchronized";
          new_list [" Run show ntp status"; "earch the output for synchronised"];
          create_md_file ])]
  /\ Forall2 (fun kc doc =>
                fst doc = fst kc
                /\ listed (snd doc) = stripped "TS:" (snd kc)
                /\ headers (snd doc) = stripped "TD:" (snd kc)
                /\ exists date rest body,
                     snd kc = date :: rest
                     /\ snd doc = new_line ("Date generated: " ++ date)
                                    :: body ++ [create_md_file])
       [("tests/ntp/test_ntp.py", ntp_steps)]
       [("tests/ntp/test_ntp.py",
         [ new_line "Date generated: 04/11/2026 10:00:00";
           new_header 1 " Verify NTP is synchronized";
           new_list [" Run show ntp status"; "earch the output for synchronised"];
           create_md_file ])].
Proof.
  split; [exact ntp_document|].
  exact (output_md_keeps_every_step _ _ ntp_document).
Defined.

(** X30 at the NTP test file, whose second step has no blank after
    [TS:] and loses its first letter. *)
Lemma output_md_strips_witness :
  output_md_file ntp_steps
  = Returns
      [ new_line "Date generated: 04/11/2026 10:00:00";
        new_header 1 " Verify NTP is synchronized";
        new_list [" Run show ntp status"; "earch the output for synchronised"];
        create_md_file ]
  /\ (forall x, x ∈ [" Run show ntp status"; "earch the output for synchronised"] ->
                starts_with_any "TS:" x = false)
  /\ (forall x, x ∈ [" Verify NTP is synchronized"] ->
                starts_with_any "TD:" x = false)
  /\ (forall text, ("TS:" ++ text)%string ∈ ntp_steps ->
                   lstrip "TS:" text
                     ∈ [" Run show ntp status"; "earch the output for synchronised"]).
Proof.
  split; [exact ntp_document_file|].
  exact (output_md_strips_leading_characters ntp_steps _ ntp_document_file).
Defined.

End LabSteps.
